(** * CryptoTwin: IFC processing pipeline and graph-to-token export

    A shallow embedding of the core of the repository:

    - [src/models/topologic_models.py]   (TopologicVertex, TopologicEdge,
      TopologicGraph and its queries, IFCProcessingContext),
    - [src/services/ifc_processor.py]    (the fallback chain and the
      extraction of vertices and edges),
    - [src/models/blockchain_models.py]  (token URIs, component tokens,
      collections and mappings),
    - [src/services/kuzu_service.py]     (get_vertices_by_file),
    - [src/services/blockchain_service.py] (export, validation, the
      tokenization mapping, the batch for minting and the write-back of
      token ids).

    Conventions of the embedding.

    - A Python [str] is a Rocq [string]: the sequence of its UTF-8 bytes.
      [str.lower] is modelled on the ASCII letters, which is exact for
      ASCII text such as IFC entity names; where an address is validated,
      [len] counts characters and [str.lower] of text beyond ASCII is
      taken from the interpreter ([Unicode]).
    - A Python [float] is an IEEE-754 binary64 value, [spec_float] with
      precision 53 and maximal exponent 1024, with the operations of
      [SpecFloat] (round to nearest, ties to even).
    - A Python [int] is a [Z].
    - A value of type [Any] is a [pyval].
    - A string-keyed [dict] is a [gmap string _].
    - A raised exception is [Raise msg], where [msg] is [str(e)];
      [try/except Exception] is a [match] on the outcome. The text of a
      ValidationError is pydantic's and is taken as given.
    - Logging and wall-clock readings ([time.time], [time.strftime]) do not
      influence control flow and are left out. *)

From Stdlib Require Import ZArith Lia Ascii String.
From Stdlib Require Import Floats.SpecFloat.
From stdpp Require Import base gmap strings list fin_maps pretty.

Open Scope string_scope.
Open Scope list_scope.

(* ===================================================================== *)
(** * Python values, exceptions and strings *)
(* ===================================================================== *)

Module Py.

(** The result of running a piece of Python code: a value or an exception
    (of class [Exception]) carrying its message. *)
Inductive outcome (A : Type) : Type :=
| Ok (a : A)
| Raise (msg : string).
Arguments Ok {A} a.
Arguments Raise {A} msg.

Definition bind {A B : Type} (m : outcome A) (k : A -> outcome B) : outcome B :=
  match m with
  | Ok a => k a
  | Raise msg => Raise msg
  end.

Definition is_ok {A : Type} (m : outcome A) : bool :=
  match m with Ok _ => true | Raise _ => false end.

(** ** binary64 floats *)

Definition f64_prec : Z := 53.
Definition f64_emax : Z := 1024.

Definition f64_of_Z (z : Z) : spec_float := binary_normalize f64_prec f64_emax z 0 false.
Definition f64_mul : spec_float -> spec_float -> spec_float := SFmul f64_prec f64_emax.
Definition f64_sub : spec_float -> spec_float -> spec_float := SFsub f64_prec f64_emax.
Definition f64_div : spec_float -> spec_float -> spec_float := SFdiv f64_prec f64_emax.

(** The float denoted by the decimal literal [n / 10^k] written in Python
    source (correctly rounded, as the parser does for such short literals):
    [f64_decimal 203 1] is [20.3]. *)
Definition f64_decimal (n : Z) (k : nat) : spec_float :=
  f64_div (f64_of_Z n) (f64_of_Z (10 ^ Z.of_nat k)).

(** [int(f)]: truncation toward zero; infinities and NaN raise. *)
Definition int_of_float (f : spec_float) : outcome Z :=
  match f with
  | S754_zero _ => Ok 0%Z
  | S754_finite s m e => Ok (cond_Zopp s (Z.shiftl (Z.pos m) e))
  | S754_infinity _ => Raise "cannot convert float infinity to integer"
  | S754_nan => Raise "cannot convert float NaN to integer"
  end.

(** [round(f)] with one argument: the nearest integer, ties to even. *)
Definition round_magnitude (m : positive) (e : Z) : Z :=
  if (0 <=? e)%Z then Z.shiftl (Z.pos m) e
  else
    let d := (2 ^ (- e))%Z in
    let q := (Z.pos m / d)%Z in
    let r := (Z.pos m mod d)%Z in
    match (2 * r ?= d)%Z with
    | Lt => q
    | Gt => (q + 1)%Z
    | Eq => if Z.even q then q else (q + 1)%Z
    end.

Definition round_float (f : spec_float) : outcome Z :=
  match f with
  | S754_zero _ => Ok 0%Z
  | S754_finite s m e => Ok (cond_Zopp s (round_magnitude m e))
  | S754_infinity _ => Raise "cannot convert float infinity to integer"
  | S754_nan => Raise "cannot convert float NaN to integer"
  end.

(** The integer a float is exactly equal to, if any. *)
Definition float_exact_Z (f : spec_float) : option Z :=
  match f with
  | S754_zero _ => Some 0%Z
  | S754_finite s m e =>
      if (0 <=? e)%Z then Some (cond_Zopp s (Z.shiftl (Z.pos m) e))
      else if (Z.pos m mod 2 ^ (- e) =? 0)%Z
           then Some (cond_Zopp s (Z.pos m / 2 ^ (- e)))
           else None
  | _ => None
  end.

(** ** Dynamically typed values *)

#[warnings="-register-all"] Inductive pyval : Type :=
| VNone
| VBool (b : bool)
| VInt (z : Z)
| VFloat (f : spec_float)
| VStr (s : string)
| VList (l : list pyval).

(** [bool(v)] *)
Definition truthy (v : pyval) : bool :=
  match v with
  | VNone => false
  | VBool b => b
  | VInt z => negb (z =? 0)%Z
  | VFloat (S754_zero _) => false
  | VFloat _ => true
  | VStr s => negb (String.eqb s "")
  | VList l => match l with [] => false | _ => true end
  end.

(** [isinstance(v, int)]; [bool] is a subclass of [int]. *)
Definition isinstance_int (v : pyval) : bool :=
  match v with
  | VBool _ | VInt _ => true
  | _ => false
  end.

(** Lists are the only unhashable values of the universe. *)
Definition hashable (v : pyval) : bool :=
  match v with VList _ => false | _ => true end.

Definition Z_of_bool (b : bool) : Z := if b then 1%Z else 0%Z.

(** [a == b] on hashable values. Numbers compare by value across [bool],
    [int] and [float]; NaN is equal to nothing. (Container lookup in
    CPython also accepts the identical object, which matters for NaN only
    and is not tracked by this value-level model.) *)
Definition py_eqb (a b : pyval) : bool :=
  match a, b with
  | VNone, VNone => true
  | VStr s, VStr t => String.eqb s t
  | VBool x, VBool y => Bool.eqb x y
  | VBool x, VInt z | VInt z, VBool x => (Z_of_bool x =? z)%Z
  | VInt x, VInt y => (x =? y)%Z
  | VFloat f, VFloat g => SFeqb f g
  | VFloat f, VInt z | VInt z, VFloat f =>
      match float_exact_Z f with Some y => (y =? z)%Z | None => false end
  | VFloat f, VBool x | VBool x, VFloat f =>
      match float_exact_Z f with Some y => (y =? Z_of_bool x)%Z | None => false end
  | _, _ => false
  end.

(** ** Strings *)

Definition lower_ascii (c : ascii) : ascii :=
  let n := nat_of_ascii c in
  if (65 <=? n)%nat && (n <=? 90)%nat then ascii_of_nat (n + 32) else c.

(** [s.lower()] *)
Fixpoint lower (s : string) : string :=
  match s with
  | EmptyString => EmptyString
  | String c s' => String (lower_ascii c) (lower s')
  end.

(** [needle in hay] *)
Fixpoint contains (needle hay : string) : bool :=
  String.prefix needle hay ||
  match hay with
  | EmptyString => false
  | String _ hay' => contains needle hay'
  end.

(** [s.startswith(p)] *)
Definition startswith (p s : string) : bool := String.prefix p s.

(** [c in s] for a single character *)
Fixpoint has_char (c : ascii) (s : string) : bool :=
  match s with
  | EmptyString => false
  | String d s' => Ascii.eqb c d || has_char c s'
  end.

(** [s[:n]] on bytes *)
Fixpoint take_bytes (n : nat) (s : string) : string :=
  match n, s with
  | S n', String c s' => String c (take_bytes n' s')
  | _, _ => EmptyString
  end.

(** [b.ljust(n, b'\x00')] *)
Definition ljust_zero (n : nat) (s : string) : string :=
  s +:+ String.concat "" (replicate (n - String.length s) (String zero EmptyString)).

Definition hex_digit (n : nat) : ascii :=
  match n with
  | 0 => "0" | 1 => "1" | 2 => "2" | 3 => "3" | 4 => "4" | 5 => "5"
  | 6 => "6" | 7 => "7" | 8 => "8" | 9 => "9" | 10 => "a" | 11 => "b"
  | 12 => "c" | 13 => "d" | 14 => "e" | _ => "f"
  end%char.

(** [b.hex()] *)
Fixpoint hex (s : string) : string :=
  match s with
  | EmptyString => EmptyString
  | String c s' =>
      let n := nat_of_ascii c in
      String (hex_digit (n / 16)) (String (hex_digit (n mod 16)) (hex s'))
  end.

End Py.
Import Py.

(* ===================================================================== *)
(** * src/models/topologic_models.py *)
(* ===================================================================== *)

Module TopologicModels.

(** A [dict] whose keys are arbitrary hashable values, in insertion order
    ([ifc_type_counts] is keyed by whatever [ifc_type] holds). *)
Definition valdict (V : Type) : Type := list (pyval * V).

(** The entry whose key equals [k], if any. *)
Fixpoint valdict_find {V : Type} (d : valdict V) (k : pyval) : option V :=
  match d with
  | [] => None
  | (k', v) :: d' => if py_eqb k' k then Some v else valdict_find d' k
  end.

(** [d.get(k, default)]; hashing an unhashable key raises. *)
Definition valdict_get {V : Type} (d : valdict V) (k : pyval) (default : V) : outcome V :=
  if hashable k then Ok (match valdict_find d k with Some v => v | None => default end)
  else Raise "unhashable type: 'list'".

(** [d[k] = v]: an existing entry keeps its place (and its key). *)
Fixpoint valdict_store {V : Type} (d : valdict V) (k : pyval) (v : V) : valdict V :=
  match d with
  | [] => [(k, v)]
  | (k', v') :: d' =>
      if py_eqb k' k then (k', v) :: d' else (k', v') :: valdict_store d' k v
  end.

Definition valdict_set {V : Type} (d : valdict V) (k : pyval) (v : V) : outcome (valdict V) :=
  if hashable k then Ok (valdict_store d k v)
  else Raise "unhashable type: 'list'".

(** [sum(d.values())] *)
Definition valdict_total (d : valdict Z) : Z :=
  fold_right (fun kv acc => (snd kv + acc)%Z) 0%Z d.

Definition type_keys : list string := ["IFC_type"; "ifc_type"; "IFCType"; "type"; "Entity"].
Definition guid_keys : list string :=
  ["IFC_global_id"; "ifc_guid"; "IFCGuid"; "IFC_GUID"; "GlobalId"; "guid"].
Definition name_keys : list string := ["Name"; "name"; "IFC_name"].

(** class TopologicVertex. The derived fields are declared [Optional[str]]
    but are assigned from [dictionaries] without validation, so they hold
    an arbitrary value. *)
Record TopologicVertex : Type := {
  v_id : string;
  v_coordinates : spec_float * spec_float * spec_float;
  v_dictionaries : gmap string pyval;
  v_ifc_type : pyval;
  v_ifc_guid : pyval;
  v_ifc_name : pyval
}.

(** The constructor call [TopologicVertex(coordinates=..., dictionaries=...)]
    with a given fresh identifier. *)
Definition new_vertex (id : string) (coords : spec_float * spec_float * spec_float)
    (dictionaries : gmap string pyval) : TopologicVertex :=
  {| v_id := id; v_coordinates := coords; v_dictionaries := dictionaries;
     v_ifc_type := VNone; v_ifc_guid := VNone; v_ifc_name := VNone |}.

(** The loop
    [for key in keys: if key in d: field = d[key]; break]
    leaves [field] alone when it finds nothing. *)
Fixpoint first_present (keys : list string) (d : gmap string pyval) : option pyval :=
  match keys with
  | [] => None
  | key :: keys' =>
      match d !! key with
      | Some value => Some value
      | None => first_present keys' d
      end
  end.

Definition assign_first (keys : list string) (d : gmap string pyval) (field : pyval) : pyval :=
  match first_present keys d with
  | Some value => value
  | None => field
  end.

(** TopologicVertex.extract_ifc_metadata *)
Definition extract_ifc_metadata (v : TopologicVertex) : TopologicVertex :=
  {| v_id := v_id v;
     v_coordinates := v_coordinates v;
     v_dictionaries := v_dictionaries v;
     v_ifc_type := assign_first type_keys (v_dictionaries v) (v_ifc_type v);
     v_ifc_guid := assign_first guid_keys (v_dictionaries v) (v_ifc_guid v);
     v_ifc_name := assign_first name_keys (v_dictionaries v) (v_ifc_name v) |}.

(** class TopologicEdge *)
Record TopologicEdge : Type := {
  e_id : string;
  e_start_vertex_id : string;
  e_end_vertex_id : string;
  e_dictionaries : gmap string pyval;
  e_edge_type : pyval;
  e_connection_type : pyval;
  e_shared_geometry : pyval
}.

Definition assign_if_present (key : string) (d : gmap string pyval) (field : pyval) : pyval :=
  match d !! key with
  | Some value => value
  | None => field
  end.

(** TopologicEdge.extract_connection_metadata *)
Definition extract_connection_metadata (e : TopologicEdge) : TopologicEdge :=
  {| e_id := e_id e;
     e_start_vertex_id := e_start_vertex_id e;
     e_end_vertex_id := e_end_vertex_id e;
     e_dictionaries := e_dictionaries e;
     e_edge_type := assign_if_present "edge_type" (e_dictionaries e) (e_edge_type e);
     e_connection_type :=
       assign_if_present "connection_type" (e_dictionaries e) (e_connection_type e);
     e_shared_geometry :=
       assign_if_present "shared_geometry" (e_dictionaries e) (e_shared_geometry e) |}.

(** class TopologicGraph ([creation_timestamp] is a clock reading and is
    left out). *)
Record TopologicGraph : Type := {
  g_id : string;
  g_vertices : list TopologicVertex;
  g_edges : list TopologicEdge;
  g_file_id : option string;
  g_building_id : option string;
  g_source_file : option string;
  g_filename : option string;
  g_building_name : option string;
  g_ifc_file_info : gmap string pyval;
  g_processing_method : option string;
  g_vertex_count : Z;
  g_edge_count : Z;
  g_ifc_type_counts : valdict Z
}.

(** [TopologicGraph()] with a given fresh identifier. *)
Definition empty_graph (id : string) : TopologicGraph :=
  {| g_id := id; g_vertices := []; g_edges := [];
     g_file_id := None; g_building_id := None; g_source_file := None;
     g_filename := None; g_building_name := None; g_ifc_file_info := ∅;
     g_processing_method := None;
     g_vertex_count := 0; g_edge_count := 0; g_ifc_type_counts := [] |}.

Definition set_counts (g : TopologicGraph) (vc ec : Z) : TopologicGraph :=
  {| g_id := g_id g; g_vertices := g_vertices g; g_edges := g_edges g;
     g_file_id := g_file_id g; g_building_id := g_building_id g;
     g_source_file := g_source_file g; g_filename := g_filename g;
     g_building_name := g_building_name g; g_ifc_file_info := g_ifc_file_info g;
     g_processing_method := g_processing_method g;
     g_vertex_count := vc; g_edge_count := ec;
     g_ifc_type_counts := g_ifc_type_counts g |}.

Definition set_ifc_type_counts (g : TopologicGraph) (c : valdict Z) : TopologicGraph :=
  {| g_id := g_id g; g_vertices := g_vertices g; g_edges := g_edges g;
     g_file_id := g_file_id g; g_building_id := g_building_id g;
     g_source_file := g_source_file g; g_filename := g_filename g;
     g_building_name := g_building_name g; g_ifc_file_info := g_ifc_file_info g;
     g_processing_method := g_processing_method g;
     g_vertex_count := g_vertex_count g; g_edge_count := g_edge_count g;
     g_ifc_type_counts := c |}.

(** The counting loop of [update_statistics]:
    [if vertex.ifc_type: type_counts[t] = type_counts.get(t, 0) + 1]. *)
Fixpoint count_types (vertices : list TopologicVertex) (type_counts : valdict Z)
    : outcome (valdict Z) :=
  match vertices with
  | [] => Ok type_counts
  | vertex :: rest =>
      if truthy (v_ifc_type vertex) then
        bind (valdict_get type_counts (v_ifc_type vertex) 0%Z) (fun n =>
        bind (valdict_set type_counts (v_ifc_type vertex) (n + 1)%Z) (fun type_counts' =>
        count_types rest type_counts'))
      else count_types rest type_counts
  end.

(** TopologicGraph.update_statistics: the graph after the call, and whether
    the call returned or raised. The two counters are assigned before the
    loop, [ifc_type_counts] only after it. *)
Definition update_statistics (g : TopologicGraph) : TopologicGraph * outcome unit :=
  let g1 := set_counts g (Z.of_nat (length (g_vertices g))) (Z.of_nat (length (g_edges g))) in
  match count_types (g_vertices g1) [] with
  | Ok type_counts => (set_ifc_type_counts g1 type_counts, Ok tt)
  | Raise msg => (g1, Raise msg)
  end.

(** class IFCProcessingContext ([start_time] and [end_time] are clock
    readings and are left out). An engine-native graph object is known by
    its identity. *)
Definition handle : Type := nat.

Record IFCProcessingContext : Type := {
  c_file_path : string;
  c_method : string;
  c_include_types : list string;
  c_transfer_dictionaries : bool;
  c_tolerance : spec_float;
  c_current_status : string;
  c_error_messages : list string;
  c_attempted_methods : list string;
  c_current_method : option string;
  c_original_topologic_graph : option handle
}.

Definition new_context (file_path method : string) (include_types : list string)
    (transfer_dictionaries : bool) (tolerance : spec_float) : IFCProcessingContext :=
  {| c_file_path := file_path; c_method := method; c_include_types := include_types;
     c_transfer_dictionaries := transfer_dictionaries; c_tolerance := tolerance;
     c_current_status := "pending"; c_error_messages := [];
     c_attempted_methods := []; c_current_method := None;
     c_original_topologic_graph := None |}.

Definition with_status (c : IFCProcessingContext) (status : string) : IFCProcessingContext :=
  {| c_file_path := c_file_path c; c_method := c_method c;
     c_include_types := c_include_types c;
     c_transfer_dictionaries := c_transfer_dictionaries c; c_tolerance := c_tolerance c;
     c_current_status := status; c_error_messages := c_error_messages c;
     c_attempted_methods := c_attempted_methods c; c_current_method := c_current_method c;
     c_original_topologic_graph := c_original_topologic_graph c |}.

(** IFCProcessingContext.add_error *)
Definition add_error (c : IFCProcessingContext) (message : string) : IFCProcessingContext :=
  {| c_file_path := c_file_path c; c_method := c_method c;
     c_include_types := c_include_types c;
     c_transfer_dictionaries := c_transfer_dictionaries c; c_tolerance := c_tolerance c;
     c_current_status := c_current_status c;
     c_error_messages := c_error_messages c ++ [message];
     c_attempted_methods := c_attempted_methods c; c_current_method := c_current_method c;
     c_original_topologic_graph := c_original_topologic_graph c |}.

(** IFCProcessingContext.start_processing *)
Definition start_processing (c : IFCProcessingContext) : IFCProcessingContext :=
  with_status c "processing".

(** IFCProcessingContext.complete_processing *)
Definition complete_processing (c : IFCProcessingContext) (success : bool)
    : IFCProcessingContext :=
  with_status c (if success then "completed" else "failed").

(** [attempted_methods.append(name); current_method = name] *)
Definition begin_attempt (c : IFCProcessingContext) (name : string) : IFCProcessingContext :=
  {| c_file_path := c_file_path c; c_method := c_method c;
     c_include_types := c_include_types c;
     c_transfer_dictionaries := c_transfer_dictionaries c; c_tolerance := c_tolerance c;
     c_current_status := c_current_status c; c_error_messages := c_error_messages c;
     c_attempted_methods := c_attempted_methods c ++ [name];
     c_current_method := Some name;
     c_original_topologic_graph := c_original_topologic_graph c |}.

(** [original_topologic_graph = h] *)
Definition keep_handle (c : IFCProcessingContext) (h : handle) : IFCProcessingContext :=
  {| c_file_path := c_file_path c; c_method := c_method c;
     c_include_types := c_include_types c;
     c_transfer_dictionaries := c_transfer_dictionaries c; c_tolerance := c_tolerance c;
     c_current_status := c_current_status c; c_error_messages := c_error_messages c;
     c_attempted_methods := c_attempted_methods c; c_current_method := c_current_method c;
     c_original_topologic_graph := Some h |}.

End TopologicModels.
Import TopologicModels.

(* ===================================================================== *)
(** * src/models/data_models.py *)
(* ===================================================================== *)

Module DataModels.

Inductive ProcessingMethod : Type := DIRECT | TRADITIONAL.

Definition ProcessingMethod_value (m : ProcessingMethod) : string :=
  match m with DIRECT => "direct" | TRADITIONAL => "traditional" end.

Record ProcessingConfig : Type := {
  cfg_method : ProcessingMethod;
  cfg_include_types : option (list string);
  cfg_transfer_dictionaries : bool;
  cfg_tolerance : spec_float;
  cfg_max_file_size_mb : Z
}.

Record GraphStats : Type := {
  gs_vertex_count : Z;
  gs_edge_count : Z;
  gs_ifc_types : valdict Z;
  gs_file_size_mb : spec_float
}.

(** class ProcessingResult ([processing_time] is a difference of clock
    readings and is left out). *)
Record ProcessingResult : Type := {
  success : bool;
  message : string;
  stats : option GraphStats;
  error_details : option string
}.

End DataModels.
Import DataModels.

(* ===================================================================== *)
(** * src/services/ifc_processor.py *)
(* ===================================================================== *)

Module IFCProcessor.

Definition coords : Type := spec_float * spec_float * spec_float.

(** ** The collaborators

    The geometry engine (TopologicPy) is a black box. A call
    [Graph.ByIFCPath(path=, includeTypes=, transferDictionaries=)] is an
    [IfcRequest]; its answer may depend on the request and on how many
    requests were made before. What the engine lets the processor read
    from a graph object is given per handle. *)

Record IfcRequest : Type := {
  req_path : string;
  req_includeTypes : option (list string);
  req_transferDictionaries : bool
}.

(** The dictionary attached to a topology, as the reading loop sees it:
    [Raise] when [Topology.Dictionary] or [Dictionary.Keys] throws, else
    the keys in order, each with what [Dictionary.ValueAtKey] does. A
    missing dictionary is the empty list. *)
Definition EngineDictionary : Type := outcome (list (string * outcome pyval)).

Record EngineVertex : Type := {
  ev_coordinates : coords;
  ev_dictionary : EngineDictionary
}.

(** [ee_endpoints] are the coordinates of [Edge.Vertices(edge)]. *)
Record EngineEdge : Type := {
  ee_endpoints : list coords;
  ee_dictionary : EngineDictionary
}.

(** [ByIFCPath] answers with a graph object ([Some h], a truthy object),
    with [None], or throws. In the two listings an element [Raise msg]
    stands for an element whose reading ([Vertex.X], [Edge.Vertices], ...)
    throws; a listing that is [None] or empty is the empty list. *)
Record Engine : Type := {
  ByIFCPath : nat -> IfcRequest -> outcome (option handle);
  Graph_Vertices : handle -> outcome (list (outcome EngineVertex));
  Graph_Edges : handle -> outcome (list (outcome EngineEdge))
}.

(** The host: [uuid.uuid4] (the n-th identifier drawn), [pathlib], and
    the text of the ValidationError that pydantic raises when [GraphStats]
    is given the listed keys, which are no strings, in [ifc_types]. *)
Record Host : Type := {
  uuid4 : nat -> string;
  path_exists : string -> outcome bool;
  path_suffix : string -> string;
  stat_size : string -> outcome Z;
  stats_error : list pyval -> string
}.

(** The state a run threads: its context object, the requests sent to the
    engine so far and the number of identifiers drawn so far. *)
Record Run : Type := {
  run_context : IFCProcessingContext;
  run_requests : list IfcRequest;
  run_uuids : nat
}.

Definition with_context (r : Run) (f : IFCProcessingContext -> IFCProcessingContext) : Run :=
  {| run_context := f (run_context r);
     run_requests := run_requests r;
     run_uuids := run_uuids r |}.

Definition with_uuids (r : Run) (n : nat) : Run :=
  {| run_context := run_context r; run_requests := run_requests r; run_uuids := n |}.

(** One call of [Graph.ByIFCPath]. *)
Definition call_ByIFCPath (eng : Engine) (req : IfcRequest) (r : Run)
    : outcome (option handle) * Run :=
  (ByIFCPath eng (length (run_requests r)) req,
   {| run_context := run_context r;
      run_requests := run_requests r ++ [req];
      run_uuids := run_uuids r |}).

Definition default_ifc_types : list string :=
  ["IfcWall"; "IfcSlab"; "IfcBeam"; "IfcColumn"; "IfcDoor"; "IfcWindow";
   "IfcSpace"; "IfcRoom"; "IfcBuildingStorey"; "IfcBuilding"].

(** [x or None] / [x if x else None] on a list *)
Definition list_or_None (l : list string) : option (list string) :=
  match l with [] => None | _ => Some l end.

(** [x or default] on a list *)
Definition list_or (l default : list string) : list string :=
  match l with [] => default | _ => l end.

(** ** Vertex and edge extraction *)

(** The loop [for key in dict_keys: dictionaries[key] = ValueAtKey(...)]
    inside its [try]: an exception keeps what was read so far. *)
Fixpoint read_entries (entries : list (string * outcome pyval))
    (dictionaries : gmap string pyval) : gmap string pyval :=
  match entries with
  | [] => dictionaries
  | (key, Ok value) :: rest => read_entries rest (<[key := value]> dictionaries)
  | (_, Raise _) :: _ => dictionaries
  end.

Definition read_dictionary (d : EngineDictionary) : gmap string pyval :=
  match d with
  | Ok entries => read_entries entries ∅
  | Raise _ => ∅
  end.

Fixpoint extract_vertices_loop (host : Host) (graph_vertices : list (outcome EngineVertex))
    (drawn : nat) (vertices : list TopologicVertex)
    : outcome (list TopologicVertex) * nat :=
  match graph_vertices with
  | [] => (Ok vertices, drawn)
  | Raise msg :: _ => (Raise msg, drawn)
  | Ok vertex :: rest =>
      let topo_vertex :=
        extract_ifc_metadata
          (new_vertex (uuid4 host drawn) (ev_coordinates vertex)
                      (read_dictionary (ev_dictionary vertex))) in
      extract_vertices_loop host rest (S drawn) (vertices ++ [topo_vertex])
  end.

(** _extract_vertices: exceptions are logged and re-raised. *)
Definition _extract_vertices (eng : Engine) (host : Host) (h : handle) (drawn : nat)
    : outcome (list TopologicVertex) * nat :=
  match Graph_Vertices eng h with
  | Raise msg => (Raise msg, drawn)
  | Ok graph_vertices => extract_vertices_loop host graph_vertices drawn []
  end.

(** _coordinates_match, with [all(abs(a - b) < tolerance ...)] *)
Definition _coordinates_match (coords1 coords2 : coords) (tolerance : spec_float) : bool :=
  let '(a1, a2, a3) := coords1 in
  let '(b1, b2, b3) := coords2 in
  SFltb (SFabs (f64_sub a1 b1)) tolerance
  && SFltb (SFabs (f64_sub a2 b2)) tolerance
  && SFltb (SFabs (f64_sub a3 b3)) tolerance.

(** The default [tolerance=1e-6] *)
Definition default_tolerance : spec_float := f64_decimal 1 6.

Fixpoint find_from (target_coords : coords) (vertices : list TopologicVertex) (i : nat)
    : option nat :=
  match vertices with
  | [] => None
  | vertex :: rest =>
      if _coordinates_match (v_coordinates vertex) target_coords default_tolerance
      then Some i
      else find_from target_coords rest (S i)
  end.

(** _find_vertex_index *)
Definition _find_vertex_index (target_coords : coords) (vertices : list TopologicVertex)
    : option nat :=
  find_from target_coords vertices 0.

Definition new_edge (id start_vertex_id end_vertex_id : string)
    (dictionaries : gmap string pyval) : TopologicEdge :=
  {| e_id := id; e_start_vertex_id := start_vertex_id; e_end_vertex_id := end_vertex_id;
     e_dictionaries := dictionaries;
     e_edge_type := VNone; e_connection_type := VNone; e_shared_geometry := VNone |}.

Fixpoint extract_edges_loop (host : Host) (graph_edges : list (outcome EngineEdge))
    (vertices : list TopologicVertex) (drawn : nat) (edges : list TopologicEdge)
    : list TopologicEdge * nat :=
  match graph_edges with
  | [] => (edges, drawn)
  | Raise _ :: _ => (edges, drawn)
  | Ok edge :: rest =>
      match ee_endpoints edge with
      | p0 :: p1 :: _ =>
          match _find_vertex_index p0 vertices, _find_vertex_index p1 vertices with
          | Some start_idx, Some end_idx =>
              match vertices !! start_idx, vertices !! end_idx with
              | Some vs, Some ve =>
                  let topo_edge :=
                    extract_connection_metadata
                      (new_edge (uuid4 host drawn) (v_id vs) (v_id ve)
                                (read_dictionary (ee_dictionary edge))) in
                  extract_edges_loop host rest vertices (S drawn) (edges ++ [topo_edge])
              | _, _ => (edges, drawn)
              end
          | _, _ => extract_edges_loop host rest vertices drawn edges
          end
      | _ => extract_edges_loop host rest vertices drawn edges
      end
  end.

(** _extract_edges: exceptions are logged and swallowed, the edges read so
    far are returned. *)
Definition _extract_edges (eng : Engine) (host : Host) (h : handle)
    (vertices : list TopologicVertex) (drawn : nat) : list TopologicEdge * nat :=
  match Graph_Edges eng h with
  | Raise _ => ([], drawn)
  | Ok graph_edges => extract_edges_loop host graph_edges vertices drawn []
  end.

(** _extract_graph_data *)
Definition _extract_graph_data (eng : Engine) (host : Host) (h : handle) (r : Run)
    : outcome TopologicGraph * Run :=
  let r1 := with_context r (fun c => keep_handle c h) in
  match _extract_vertices eng host h (run_uuids r1) with
  | (Raise msg, drawn) => (Raise msg, with_uuids r1 drawn)
  | (Ok vertices, drawn) =>
      let '(edges, drawn') := _extract_edges eng host h vertices drawn in
      let graph :=
        {| g_id := uuid4 host drawn'; g_vertices := vertices; g_edges := edges;
           g_file_id := None; g_building_id := None;
           g_source_file := Some (c_file_path (run_context r1));
           g_filename := None; g_building_name := None; g_ifc_file_info := ∅;
           g_processing_method := c_current_method (run_context r1);
           g_vertex_count := 0; g_edge_count := 0; g_ifc_type_counts := [] |} in
      let r2 := with_uuids r1 (S drawn') in
      match update_statistics graph with
      | (graph', Ok _) => (Ok graph', r2)
      | (_, Raise msg) => (Raise msg, r2)
      end
  end.

(** ** The four strategies *)

Definition strategy : Type := Run -> outcome TopologicGraph * Run.

(** The log lines of the first strategy evaluate [Path(p).exists()] and,
    when it holds, [Path(p).stat()]. *)
Definition log_probe (host : Host) (path : string) : outcome unit :=
  bind (path_exists host path) (fun ex =>
  if ex then bind (stat_size host path) (fun _ => Ok tt) else Ok tt).

(** _process_direct_with_dictionaries *)
Definition _process_direct_with_dictionaries (eng : Engine) (host : Host) : strategy :=
  fun r =>
  let context := run_context r in
  let include_types := list_or_None (c_include_types context) in
  match log_probe host (c_file_path context) with
  | Raise msg => (Raise msg, r)
  | Ok _ =>
      match call_ByIFCPath eng
              {| req_path := c_file_path context; req_includeTypes := include_types;
                 req_transferDictionaries := true |} r with
      | (Raise e, r1) => (Raise ("Graph.ByIFCPath failed with exception: " +:+ e), r1)
      | (Ok (Some topologic_graph), r1) => _extract_graph_data eng host topologic_graph r1
      | (Ok None, r1) =>
          match call_ByIFCPath eng
                  {| req_path := c_file_path context; req_includeTypes := None;
                     req_transferDictionaries := true |} r1 with
          | (Raise e, r2) => (Raise ("Graph.ByIFCPath fallback failed: " +:+ e), r2)
          | (Ok (Some topologic_graph), r2) =>
              _extract_graph_data eng host topologic_graph r2
          | (Ok None, r2) =>
              (Raise ("Graph.ByIFCPath returned None even without type filtering. "
                      +:+ "File may be corrupted or unsupported: "
                      +:+ c_file_path context), r2)
          end
      end
  end.

(** The common shape of the three remaining strategies. *)
Definition request_then_extract (eng : Engine) (host : Host) (req : IfcRequest)
    (none_message : string) : strategy :=
  fun r =>
  match call_ByIFCPath eng req r with
  | (Raise e, r1) => (Raise e, r1)
  | (Ok None, r1) => (Raise none_message, r1)
  | (Ok (Some topologic_graph), r1) => _extract_graph_data eng host topologic_graph r1
  end.

(** _process_direct_without_dictionaries *)
Definition _process_direct_without_dictionaries (eng : Engine) (host : Host) : strategy :=
  fun r =>
  let context := run_context r in
  request_then_extract eng host
    {| req_path := c_file_path context;
       req_includeTypes := list_or_None (c_include_types context);
       req_transferDictionaries := false |}
    "Graph.ByIFCPath without dictionaries returned None" r.

(** _process_traditional_with_types *)
Definition _process_traditional_with_types (eng : Engine) (host : Host) : strategy :=
  fun r =>
  let context := run_context r in
  let include_types := list_or (c_include_types context) default_ifc_types in
  request_then_extract eng host
    {| req_path := c_file_path context;
       req_includeTypes := Some include_types;
       req_transferDictionaries := true |}
    "Traditional processing with types failed" r.

(** _process_traditional_fallback *)
Definition _process_traditional_fallback (eng : Engine) (host : Host) : strategy :=
  fun r =>
  let context := run_context r in
  request_then_extract eng host
    {| req_path := c_file_path context;
       req_includeTypes := None;
       req_transferDictionaries := false |}
    "All fallback methods failed" r.

Definition strategies (eng : Engine) (host : Host) : list (string * strategy) :=
  [ ("direct_with_dictionaries", _process_direct_with_dictionaries eng host);
    ("direct_without_dictionaries", _process_direct_without_dictionaries eng host);
    ("traditional_with_types", _process_traditional_with_types eng host);
    ("traditional_fallback", _process_traditional_fallback eng host) ].

(** [name in l] *)
Definition name_in (name : string) (l : list string) : bool :=
  existsb (String.eqb name) l.

(** The loop of _process_with_fallbacks over a list of strategies. *)
Fixpoint try_strategies (l : list (string * strategy)) (r : Run)
    : option TopologicGraph * Run :=
  match l with
  | [] => (None, r)
  | (strategy_name, strategy_func) :: rest =>
      if name_in strategy_name (c_attempted_methods (run_context r))
      then try_strategies rest r
      else
        let r1 := with_context r (fun c => begin_attempt c strategy_name) in
        match strategy_func r1 with
        | (Ok graph, r2) =>
            if (0 <? length (g_vertices graph))%nat then (Some graph, r2)
            else try_strategies rest r2
        | (Raise e, r2) =>
            try_strategies rest
              (with_context r2 (fun c => add_error c (strategy_name +:+ ": " +:+ e)))
        end
  end.

(** _process_with_fallbacks *)
Definition _process_with_fallbacks (eng : Engine) (host : Host) (r : Run)
    : option TopologicGraph * Run :=
  try_strategies (strategies eng host) r.

(** _validate_ifc_file *)
Definition _validate_ifc_file (host : Host) (file_path : string) : outcome bool :=
  bind (path_exists host file_path) (fun ex =>
  Ok (ex && String.eqb (lower (path_suffix host file_path)) ".ifc")).

(** [isinstance(v, str)] *)
Definition is_str (v : pyval) : bool :=
  match v with VStr _ => true | _ => false end.

(** The keys that the field [ifc_types: Dict[str, int]] of GraphStats does
    not accept: pydantic takes no number, boolean, None or list for a
    [str]. *)
Definition rejected_keys (counts : valdict Z) : list pyval :=
  List.filter (fun k => negb (is_str k)) (map fst counts).

(** _calculate_stats; [st_size / (1024 * 1024)] is the true division of
    two integers. The constructor of GraphStats validates its arguments:
    the counts are [int]s and the size is a [float], so that only the keys
    of [ifc_types] can be refused. *)
Definition _calculate_stats (host : Host) (graph : TopologicGraph) (file_path : string)
    : outcome GraphStats :=
  bind (stat_size host file_path) (fun size =>
  match rejected_keys (g_ifc_type_counts graph) with
  | [] =>
      Ok {| gs_vertex_count := g_vertex_count graph;
            gs_edge_count := g_edge_count graph;
            gs_ifc_types := g_ifc_type_counts graph;
            gs_file_size_mb := f64_div (f64_of_Z size) (f64_of_Z (1024 * 1024)) |}
  | keys => Raise (stats_error host keys)
  end).

(** [str(x)] for an [Optional[str]] inside an f-string *)
Definition str_of_optional (o : option string) : string :=
  match o with Some s => s | None => "None" end.

(** The [except Exception as e] branch of process_ifc_file. The context it
    updates is local to the call and dies with it. *)
Definition failed (host : Host) (r : Run) (e : string)
    : (TopologicGraph * ProcessingResult * option handle) * Run :=
  let r1 := with_context r (fun c => complete_processing (add_error c e) false) in
  ((empty_graph (uuid4 host (run_uuids r1)),
    {| success := false;
       message := "Failed to process IFC file: " +:+ e;
       stats := None;
       error_details := Some e |},
    None),
   with_uuids r1 (S (run_uuids r1))).

(** The context process_ifc_file creates and starts
    ([include_types=config.include_types or []]), in a run that begins when
    [requests] have already been sent to the engine and [drawn] identifiers
    have been drawn. *)
Definition initial_run (requests : list IfcRequest) (drawn : nat)
    (file_path : string) (config : ProcessingConfig) : Run :=
  {| run_context :=
       start_processing
         (new_context file_path (ProcessingMethod_value (cfg_method config))
            (match cfg_include_types config with Some l => l | None => [] end)
            (cfg_transfer_dictionaries config) (cfg_tolerance config));
     run_requests := requests;
     run_uuids := drawn |}.

(** The body of the [try:] block of process_ifc_file, from the run that
    holds the started context: the triple the block returns, or the
    exception that reaches the [except] clause. *)
Definition process_ifc_file_try (eng : Engine) (host : Host) (file_path : string) (r : Run)
    : outcome (TopologicGraph * ProcessingResult * option handle) * Run :=
  match _validate_ifc_file host file_path with
  | Raise e => (Raise e, r)
  | Ok false => (Raise ("Invalid IFC file: " +:+ file_path), r)
  | Ok true =>
      match _process_with_fallbacks eng host r with
      | (Some graph, r1) =>
          let r2 := with_context r1 (fun c => complete_processing c true) in
          match _calculate_stats host graph file_path with
          | Raise e => (Raise e, r2)
          | Ok graph_stats =>
              (Ok (graph,
                   {| success := true;
                      message := "Successfully processed IFC file using "
                                 +:+ str_of_optional (c_current_method (run_context r2));
                      stats := Some graph_stats;
                      error_details := None |},
                   c_original_topologic_graph (run_context r2)),
               r2)
          end
      | (None, r1) => (Raise "All processing methods failed", r1)
      end
  end.

(** A call of process_ifc_file as its caller meets it: [Ok] with the
    returned triple, or [Raise] with an exception that leaves the method.
    The context is built and started before the [try:]; its constructor
    accepts a file path that is a [str] and a configuration whose fields
    have their declared types, which is what [file_path] and [config]
    are here. The [except Exception as e] clause takes every exception of
    the block to [failed]. ([Raise] stands for an [Exception]; a
    [KeyboardInterrupt] or [SystemExit] is not one.) *)
Definition process_ifc_file_call (eng : Engine) (host : Host)
    (requests : list IfcRequest) (drawn : nat)
    (file_path : string) (config : ProcessingConfig)
    : outcome (TopologicGraph * ProcessingResult * option handle) * Run :=
  let r := initial_run requests drawn file_path config in
  match process_ifc_file_try eng host file_path r with
  | (Ok returned, r1) => (Ok returned, r1)
  | (Raise e, r1) => let '(returned, r2) := failed host r1 e in (Ok returned, r2)
  end.

(** process_ifc_file: what a call returns. Next to the returned triple the
    final state of the run is given, for inspection: the caller does not
    receive it. *)
Definition process_ifc_file (eng : Engine) (host : Host)
    (requests : list IfcRequest) (drawn : nat)
    (file_path : string) (config : ProcessingConfig)
    : (TopologicGraph * ProcessingResult * option handle) * Run :=
  let r := initial_run requests drawn file_path config in
  match _validate_ifc_file host file_path with
  | Raise e => failed host r e
  | Ok false => failed host r ("Invalid IFC file: " +:+ file_path)
  | Ok true =>
      match _process_with_fallbacks eng host r with
      | (Some graph, r1) =>
          let r2 := with_context r1 (fun c => complete_processing c true) in
          match _calculate_stats host graph file_path with
          | Raise e => failed host r2 e
          | Ok graph_stats =>
              ((graph,
                {| success := true;
                   message := "Successfully processed IFC file using "
                              +:+ str_of_optional (c_current_method (run_context r2));
                   stats := Some graph_stats;
                   error_details := None |},
                c_original_topologic_graph (run_context r2)),
               r2)
          end
      | (None, r1) => failed host r1 "All processing methods failed"
      end
  end.

End IFCProcessor.
Import IFCProcessor.

(* ===================================================================== *)
(** * src/models/blockchain_models.py *)
(* ===================================================================== *)

Module BlockchainModels.

(** class IFCComponentToken: the identifying fields. *)
Record IFCComponentToken : Type := {
  topologic_vertex_id : string;
  kuzu_element_id : string;
  ifc_guid : string;
  ifc_type : string;
  ifc_name : option string;
  file_id : string;
  building_id : option string;
  building_name : option string;
  token_uri : option string
}.

(** IFCComponentToken.generate_token_uri; [if base_url:] holds for a
    non-empty string. *)
Definition generate_token_uri (self : IFCComponentToken) (base_url : option string) : string :=
  match base_url with
  | Some (String c u) =>
      String c u +:+ "/element/" +:+ kuzu_element_id self
      +:+ "?topologic=" +:+ topologic_vertex_id self +:+ "&ifc=" +:+ ifc_guid self
  | _ =>
      "kuzu://" +:+ kuzu_element_id self +:+ "/topologic/" +:+ topologic_vertex_id self
      +:+ "/ifc/" +:+ ifc_guid self
  end.

(** ** [re.match] for patterns made of literals and capturing groups of the
    form [(cls+)]

    The match is anchored at the start of the subject only. A group is
    greedy: it takes as many characters as it can and gives them back one
    at a time while the rest of the pattern fails. *)
Inductive regex_item : Type :=
| Literal (s : string)
| GroupPlus (cls : ascii -> bool).

Fixpoint strip_prefix (p s : string) : option string :=
  match p, s with
  | EmptyString, _ => Some s
  | String a p', String b s' => if Ascii.eqb a b then strip_prefix p' s' else None
  | String _ _, EmptyString => None
  end.

Fixpoint match_plus (cls : ascii -> bool) (k : string -> option (list string))
    (taken : string) (s : string) : option (list string) :=
  match s with
  | EmptyString => None
  | String c s' =>
      if cls c then
        let taken' := taken +:+ String c EmptyString in
        match match_plus cls k taken' s' with
        | Some groups => Some groups
        | None =>
            match k s' with
            | Some groups => Some (taken' :: groups)
            | None => None
            end
        end
      else None
  end.

Fixpoint re_match (pattern : list regex_item) (s : string) : option (list string) :=
  match pattern with
  | [] => Some []
  | Literal l :: rest =>
      match strip_prefix l s with
      | Some s' => re_match rest s'
      | None => None
      end
  | GroupPlus cls :: rest => match_plus cls (re_match rest) EmptyString s
  end.

(** [[^/]] *)
Definition not_slash (c : ascii) : bool := negb (Ascii.eqb c "/").
(** [.] without DOTALL: anything but a line feed *)
Definition not_newline (c : ascii) : bool := negb (Ascii.eqb c "010").

(** r"kuzu://([^/]+)/topologic/([^/]+)/ifc/(.+)" *)
Definition kuzu_pattern : list regex_item :=
  [ Literal "kuzu://"; GroupPlus not_slash; Literal "/topologic/"; GroupPlus not_slash;
    Literal "/ifc/"; GroupPlus not_newline ].

(** What the HTTP branch reads through [urllib.parse]:
    [urlparse(u).path.split('/')] and, for a key [k],
    [parse_qs(urlparse(u).query).get(k, [None])[0]]. *)
Record Urllib : Type := {
  url_path_parts : string -> list string;
  url_query_first : string -> string -> option string
}.

Definition parsed_uri (kuzu_id topologic_id guid : string) : gmap string string :=
  <["kuzu_id" := kuzu_id]> (<["topologic_id" := topologic_id]> (<["ifc_guid" := guid]> ∅)).

Definition nonempty (s : string) : bool := negb (String.eqb s "").

(** IFCComponentToken.parse_token_uri *)
Definition parse_token_uri (urllib : Urllib) (token_uri : string)
    : outcome (gmap string string) :=
  let unable := Raise ("Unable to parse token URI: " +:+ token_uri) in
  if startswith "kuzu://" token_uri then
    match re_match kuzu_pattern token_uri with
    | Some [g1; g2; g3] => Ok (parsed_uri g1 g2 g3)
    | _ => unable
    end
  else if startswith "http://" token_uri || startswith "https://" token_uri then
    let path_parts := url_path_parts urllib token_uri in
    match last path_parts,
          url_query_first urllib token_uri "topologic",
          url_query_first urllib token_uri "ifc" with
    | Some kuzu_id, Some topologic_id, Some guid =>
        if nonempty kuzu_id && nonempty topologic_id && nonempty guid
        then Ok (parsed_uri kuzu_id topologic_id guid)
        else unable
    | _, _, _ => unable
    end
  else unable.

End BlockchainModels.
Import BlockchainModels.

(* ===================================================================== *)
(** * src/services/kuzu_service.py (the part the export reads) *)
(* ===================================================================== *)

Module KuzuService.

(** A row of [RETURN n.id, n.ifc_type, n.name, n.x, n.y, n.z, n.ifc_guid,
    n.building_id]; a NULL column is [None]. *)
Record ElementRow : Type := {
  row_id : string;
  row_ifc_type : option string;
  row_name : option string;
  row_x : option spec_float;
  row_y : option spec_float;
  row_z : option spec_float;
  row_ifc_guid : option string;
  row_building_id : option string
}.

(** A row of [RETURN a.id, b.id, r.connection_type, r.edge_type,
    r.properties]. [er_properties] is [str(properties)] when the column is
    present and truthy. *)
Record EdgeRow : Type := {
  er_from_id : string;
  er_to_id : string;
  er_connection_type : option string;
  er_edge_type : option string;
  er_properties : option string
}.

(** A query either fails in [execute] or yields rows; fetching a row can
    fail as well. *)
Definition query_result (R : Type) : Type := outcome (list (outcome R)).

Record Connection : Type := {
  execute_elements : string -> query_result ElementRow;
  execute_edges : string -> query_result EdgeRow
}.

(** The dictionary describing one stored element. Every key may be absent
    ([dict.get] with a default is used throughout). *)
Record KuzuVertex : Type := {
  kv_id : option string;
  kv_ifc_type : option string;
  kv_name : option string;
  kv_x : option spec_float;
  kv_y : option spec_float;
  kv_z : option spec_float;
  kv_ifc_guid : option string;
  kv_building_id : option string;
  kv_file_id : option string
}.

(** [s or default] for an optional string *)
Definition str_or (o : option string) (default : string) : string :=
  match o with
  | Some (String c s) => String c s
  | _ => default
  end.

(** [f or 0.0] for an optional float: a zero of either sign is falsy *)
Definition float_or_zero (o : option spec_float) : spec_float :=
  match o with
  | Some (S754_zero _) | None => S754_zero false
  | Some f => f
  end.

Definition vertex_of_row (file_id : string) (row : ElementRow) : KuzuVertex :=
  {| kv_id := Some (row_id row);
     kv_ifc_type := Some (str_or (row_ifc_type row) "Unknown");
     kv_name := Some (str_or (row_name row) "Unnamed");
     kv_x := Some (float_or_zero (row_x row));
     kv_y := Some (float_or_zero (row_y row));
     kv_z := Some (float_or_zero (row_z row));
     kv_ifc_guid := Some (str_or (row_ifc_guid row) "");
     kv_building_id := Some (str_or (row_building_id row) "");
     kv_file_id := Some file_id |}.

Fixpoint fetch_all {R : Type} (rows : list (outcome R)) : outcome (list R) :=
  match rows with
  | [] => Ok []
  | Raise e :: _ => Raise e
  | Ok row :: rest => bind (fetch_all rest) (fun l => Ok (row :: l))
  end.

(** KuzuService.get_vertices_by_file: unavailable store and failed query
    both give the empty list. *)
Definition kuzu_get_vertices_by_file (is_available : bool) (connection : Connection)
    (file_id : string) : list KuzuVertex :=
  if negb is_available then []
  else
    match bind (execute_elements connection file_id) fetch_all with
    | Ok rows => map (vertex_of_row file_id) rows
    | Raise _ => []
    end.

(** What the export service uses of the [kuzu_service] object it is given
    (a KuzuService, or a stand-in with the same two members). *)
Record Store : Type := {
  get_vertices_by_file : string -> outcome (list KuzuVertex);
  connection : Connection
}.

Definition kuzu_service (is_available : bool) (conn : Connection) : Store :=
  {| get_vertices_by_file := fun file_id =>
       Ok (kuzu_get_vertices_by_file is_available conn file_id);
     connection := conn |}.

End KuzuService.
Import KuzuService.

(* ===================================================================== *)
(** * src/services/blockchain_service.py *)
(* ===================================================================== *)

Module BlockchainService.

(** class TokenType(Enum) *)
Inductive TokenType : Type := PROJECT | BUILDING | STOREY | SPACE | COMPONENT.

Definition TokenType_value (t : TokenType) : Z :=
  match t with
  | PROJECT => 0 | BUILDING => 1 | STOREY => 2 | SPACE => 3 | COMPONENT => 4
  end%Z.

(** _determine_token_type *)
Definition _determine_token_type (ifc_type : string) : TokenType :=
  let ifc_type_lower := lower ifc_type in
  if contains "project" ifc_type_lower then PROJECT
  else if contains "building" ifc_type_lower && negb (contains "storey" ifc_type_lower)
  then BUILDING
  else if contains "storey" ifc_type_lower || contains "floor" ifc_type_lower
  then STOREY
  else if contains "space" ifc_type_lower || contains "room" ifc_type_lower
          || contains "zone" ifc_type_lower
  then SPACE
  else COMPONENT.

(** _string_to_bytes32 *)
Definition _string_to_bytes32 (text : string) : string :=
  match text with
  | EmptyString => "0x" +:+ String.concat "" (replicate 32 "00")
  | _ =>
      let text_bytes := take_bytes 32 text in
      let padded := ljust_zero 32 text_bytes in
      "0x" +:+ hex padded
  end.

(** [int(vertex.get(k, 0.0) * 1000)] *)
Definition scale_coordinate (c : option spec_float) : outcome Z :=
  let value := match c with Some f => f | None => S754_zero false end in
  int_of_float (f64_mul value (f64_of_Z 1000)).

Definition get_or (o : option string) (default : string) : string :=
  match o with Some s => s | None => default end.

(** _convert_vertex_to_graph_node; the GraphNodeMetadata dict. *)
Definition _convert_vertex_to_graph_node (vertex : KuzuVertex) (file_id : string)
    : outcome (gmap string pyval) :=
  let ifc_type := lower (get_or (kv_ifc_type vertex) "") in
  let token_type := _determine_token_type ifc_type in
  bind (scale_coordinate (kv_x vertex)) (fun x =>
  bind (scale_coordinate (kv_y vertex)) (fun y =>
  bind (scale_coordinate (kv_z vertex)) (fun z =>
  let file_id_bytes32 := _string_to_bytes32 file_id in
  let building_id_bytes32 := _string_to_bytes32 (get_or (kv_building_id vertex) "") in
  Ok (list_to_map
        [ ("tokenType", VInt (TokenType_value token_type));
          ("kuzuElementId", VStr (get_or (kv_id vertex) ""));
          ("topologicVertexId", VStr (get_or (kv_id vertex) ""));
          ("ifcGuid", VStr (get_or (kv_ifc_guid vertex) ""));
          ("ifcType", VStr (get_or (kv_ifc_type vertex) "Unknown"));
          ("name", VStr (get_or (kv_name vertex) "Unnamed"));
          ("x", VInt x);
          ("y", VInt y);
          ("z", VInt z);
          ("fileId", VStr file_id_bytes32);
          ("buildingId", VStr building_id_bytes32);
          ("parentTokenId", VInt 0);
          ("childTokenIds", VList []);
          ("status", VInt 0);
          ("mintedAt", VInt 0);
          ("exists", VBool false) ])))).

(** The GraphEdge dict built for one row. *)
Definition graph_edge (from_index to_index : nat) (connection_type : string)
    (properties : option string) (edge_counter : nat) : gmap string pyval :=
  list_to_map
    [ ("fromTokenId", VInt 0);
      ("toTokenId", VInt 0);
      ("fromIndex", VInt (Z.of_nat from_index));
      ("toIndex", VInt (Z.of_nat to_index));
      ("connectionType", VStr connection_type);
      ("edgeProperties", VStr (get_or properties "{}"));
      ("kuzuEdgeId", VStr (_string_to_bytes32 ("edge_" +:+ pretty edge_counter)));
      ("bidirectional", VBool true) ].

(** The [while result.has_next()] loop of _get_edges_for_file. *)
Fixpoint edges_loop (rows : list (outcome EdgeRow)) (vertex_id_to_index : gmap string nat)
    (edge_counter : nat) (edges : list (gmap string pyval)) : list (gmap string pyval) :=
  match rows with
  | [] => edges
  | Raise _ :: _ => edges
  | Ok row :: rest =>
      let connection_type := str_or (er_connection_type row) "topological" in
      match vertex_id_to_index !! er_from_id row, vertex_id_to_index !! er_to_id row with
      | Some from_index, Some to_index =>
          edges_loop rest vertex_id_to_index (S edge_counter)
            (edges ++ [graph_edge from_index to_index connection_type
                         (er_properties row) edge_counter])
      | _, _ => edges_loop rest vertex_id_to_index edge_counter edges
      end
  end.

(** _get_edges_for_file: a failure is logged and the edges built so far are
    returned. *)
Definition _get_edges_for_file (store : Store) (file_id : string)
    (vertex_id_to_index : gmap string nat) : list (gmap string pyval) :=
  match execute_edges (connection store) file_id with
  | Raise _ => []
  | Ok rows => edges_loop rows vertex_id_to_index 0 []
  end.

(** The type filter of export_building_for_minting. *)
Definition filter_by_types (include_types : option (list string)) (vertices : list KuzuVertex)
    : list KuzuVertex :=
  match include_types with
  | Some (t :: ts) =>
      let normalized_types := map lower (t :: ts) in
      filter (fun v => name_in (lower (get_or (kv_ifc_type v) "")) normalized_types = true)
             vertices
  | _ => vertices
  end.

(** The conversion loop; [vertex['id']] raises KeyError on a missing key. *)
Fixpoint nodes_loop (vertices : list KuzuVertex) (file_id : string) (idx : nat)
    (nodes : list (gmap string pyval)) (vertex_id_to_index : gmap string nat)
    : outcome (list (gmap string pyval) * gmap string nat) :=
  match vertices with
  | [] => Ok (nodes, vertex_id_to_index)
  | vertex :: rest =>
      bind (_convert_vertex_to_graph_node vertex file_id) (fun node =>
      match kv_id vertex with
      | None => Raise "'id'"
      | Some id =>
          nodes_loop rest file_id (S idx) (nodes ++ [node]) (<[id := idx]> vertex_id_to_index)
      end)
  end.

(** export_building_for_minting *)
Definition export_building_for_minting (store : Store) (file_id : string)
    (include_types : option (list string))
    : list (gmap string pyval) * list (gmap string pyval) :=
  match get_vertices_by_file store file_id with
  | Raise _ => ([], [])
  | Ok [] => ([], [])
  | Ok vertices =>
      match nodes_loop (filter_by_types include_types vertices) file_id 0 [] ∅ with
      | Raise _ => ([], [])
      | Ok (nodes, vertex_id_to_index) =>
          (nodes, _get_edges_for_file store file_id vertex_id_to_index)
      end
  end.

(** ** Validation *)

(** The messages of validate_export_data:
    - [NoNodes]: "No nodes provided"
    - [MissingField idx f]: "Node idx: Missing required field 'f'"
    - [MissingCoordinate idx c]: "Node idx: Missing coordinate 'c'"
    - [CoordinateNotInt idx c]: "Node idx: Coordinate 'c' must be int256"
    - [FromNotFound idx v]: "Edge idx: fromKuzuId 'v' not found in nodes"
    - [ToNotFound idx v]: "Edge idx: toKuzuId 'v' not found in nodes"
    - [MissingConnectionType idx]: "Edge idx: Missing connectionType" *)
Inductive ValidationError : Type :=
| NoNodes
| MissingField (idx : nat) (field : string)
| MissingCoordinate (idx : nat) (coord : string)
| CoordinateNotInt (idx : nat) (coord : string)
| FromNotFound (idx : nat) (from_id : pyval)
| ToNotFound (idx : nat) (to_id : pyval)
| MissingConnectionType (idx : nat).

(** [not d.get(key)] *)
Definition missing_or_falsy (d : gmap string pyval) (key : string) : bool :=
  match d !! key with
  | Some v => negb (truthy v)
  | None => true
  end.

Definition required_fields : list string := ["kuzuElementId"; "ifcGuid"; "ifcType"; "name"].

Definition required_field_errors (idx : nat) (node : gmap string pyval) : list ValidationError :=
  flat_map (fun field => if missing_or_falsy node field then [MissingField idx field] else [])
           required_fields.

Definition coordinate_errors (idx : nat) (node : gmap string pyval) : list ValidationError :=
  flat_map (fun coord =>
              match node !! coord with
              | None => [MissingCoordinate idx coord]
              | Some v => if isinstance_int v then [] else [CoordinateNotInt idx coord]
              end)
           ["x"; "y"; "z"].

(** [kuzu_ids.add(v)] on a set kept as a list *)
Definition set_add (s : list pyval) (v : pyval) : outcome (list pyval) :=
  if hashable v then Ok (if existsb (py_eqb v) s then s else s ++ [v])
  else Raise "unhashable type: 'list'".

(** [v in kuzu_ids] *)
Definition set_mem (v : pyval) (s : list pyval) : outcome bool :=
  if hashable v then Ok (existsb (py_eqb v) s)
  else Raise "unhashable type: 'list'".

Fixpoint validate_nodes (nodes : list (gmap string pyval)) (idx : nat)
    (kuzu_ids : list pyval) (errors : list ValidationError)
    : outcome (list pyval * list ValidationError) :=
  match nodes with
  | [] => Ok (kuzu_ids, errors)
  | node :: rest =>
      let errors1 := errors ++ required_field_errors idx node in
      bind (match node !! "kuzuElementId" with
            | Some kuzu_id => if truthy kuzu_id then set_add kuzu_ids kuzu_id else Ok kuzu_ids
            | None => Ok kuzu_ids
            end) (fun kuzu_ids' =>
      validate_nodes rest (S idx) kuzu_ids' (errors1 ++ coordinate_errors idx node))
  end.

(** [if ref and ref not in kuzu_ids: errors.append(...)] *)
Definition endpoint_errors (mk : pyval -> ValidationError) (ref : option pyval)
    (kuzu_ids : list pyval) : outcome (list ValidationError) :=
  match ref with
  | Some v =>
      if truthy v then
        bind (set_mem v kuzu_ids) (fun found => Ok (if found then [] else [mk v]))
      else Ok []
  | None => Ok []
  end.

Fixpoint validate_edges (edges : list (gmap string pyval)) (idx : nat)
    (kuzu_ids : list pyval) (errors : list ValidationError)
    : outcome (list ValidationError) :=
  match edges with
  | [] => Ok errors
  | edge :: rest =>
      bind (endpoint_errors (FromNotFound idx) (edge !! "fromKuzuId") kuzu_ids) (fun e1 =>
      bind (endpoint_errors (ToNotFound idx) (edge !! "toKuzuId") kuzu_ids) (fun e2 =>
      let e3 := if missing_or_falsy edge "connectionType"
                then [MissingConnectionType idx] else [] in
      validate_edges rest (S idx) kuzu_ids (errors ++ e1 ++ e2 ++ e3)))
  end.

(** validate_export_data *)
Definition validate_export_data (nodes edges : list (gmap string pyval))
    : outcome (bool * list ValidationError) :=
  match nodes with
  | [] => Ok (false, [NoNodes])
  | _ =>
      bind (validate_nodes nodes 0 [] []) (fun '(kuzu_ids, errors) =>
      bind (validate_edges edges 0 kuzu_ids errors) (fun errors' =>
      Ok (match errors' with [] => true | _ => false end, errors')))
  end.

End BlockchainService.
Import BlockchainService.

(* ===================================================================== *)
(** * Notions used to state the properties *)
(* ===================================================================== *)

Module Statements.

(** The classification as the specification words it: an ordered list of
    rules over the lower-cased type string; the first rule that applies
    decides, and COMPONENT is the default. *)
Definition classification_rules : list ((string -> bool) * TokenType) :=
  [ (fun s => contains "project" s, PROJECT);
    (fun s => contains "building" s && negb (contains "storey" s), BUILDING);
    (fun s => contains "storey" s || contains "floor" s, STOREY);
    (fun s => contains "space" s || contains "room" s || contains "zone" s, SPACE) ].

Fixpoint first_rule (rules : list ((string -> bool) * TokenType)) (s : string) : TokenType :=
  match rules with
  | [] => COMPONENT
  | (applies, t) :: rules' => if applies s then t else first_rule rules' s
  end.

Definition classify_by_rules (ifc_type : string) : TokenType :=
  first_rule classification_rules (lower ifc_type).

(** A float that [int] and [round] accept. *)
Definition is_finite (f : spec_float) : bool :=
  match f with
  | S754_zero _ | S754_finite _ _ _ => true
  | _ => false
  end.

(** [n] is the float [f] with its fractional part dropped: the magnitude
    [k] of [n] is the integer with [k <= |f| < k + 1], where
    [|f| = m * 2^e], and [n] has the sign of [f]. *)
Definition truncates_to (f : spec_float) (n : Z) : Prop :=
  match f with
  | S754_zero _ => n = 0%Z
  | S754_finite s m e =>
      exists k : Z,
        n = cond_Zopp s k /\
        if (0 <=? e)%Z then k = (Z.pos m * 2 ^ e)%Z
        else (k * 2 ^ (- e) <= Z.pos m < (k + 1) * 2 ^ (- e))%Z
  | _ => False
  end.

(** [vertex.get(k, 0.0) * 1000] *)
Definition scaled (c : option spec_float) : spec_float :=
  f64_mul (match c with Some f => f | None => S754_zero false end) (f64_of_Z 1000).

(** A stored element with given type and coordinates. *)
Definition stored_element (id ifc_type : string) (x y z : spec_float) : KuzuVertex :=
  {| kv_id := Some id; kv_ifc_type := Some ifc_type; kv_name := Some "Room 101";
     kv_x := Some x; kv_y := Some y; kv_z := Some z;
     kv_ifc_guid := Some "1A2B3C4D5E6F7G8H9I0J1K"; kv_building_id := Some "building-1";
     kv_file_id := Some "file-123" |}.

(** [ifc_type is not None] *)
Definition non_null (v : pyval) : bool :=
  match v with VNone => false | _ => true end.

(** A vertex that [update_statistics] counts: [if vertex.ifc_type:]. *)
Definition counted (vertex : TopologicVertex) : Prop := truthy (v_ifc_type vertex) = true.

#[global] Instance counted_dec (vertex : TopologicVertex) : Decision (counted vertex) :=
  bool_eq_dec (truthy (v_ifc_type vertex)) true.

(** Every character of [s] is in the class [cls]. *)
Fixpoint all_chars (cls : ascii -> bool) (s : string) : bool :=
  match s with
  | EmptyString => true
  | String c s' => cls c && all_chars cls s'
  end.

(** [s] is empty or starts with a character outside [cls]. *)
Definition stops (cls : ascii -> bool) (s : string) : bool :=
  match s with
  | EmptyString => true
  | String c _ => negb (cls c)
  end.

(** A token with the three identifiers of its URI. *)
Definition token_with_ids (kuzu_id vertex_id guid : string) : IFCComponentToken :=
  {| topologic_vertex_id := vertex_id; kuzu_element_id := kuzu_id; ifc_guid := guid;
     ifc_type := "IfcWall"; ifc_name := None; file_id := "file-123";
     building_id := None; building_name := None; token_uri := None |}.

(** A stand-in for [urllib.parse] that finds nothing. *)
Definition no_urllib : Urllib :=
  {| url_path_parts := fun _ => []; url_query_first := fun _ _ => None |}.

(** An engine that throws on every request. *)
Definition crashing_engine : Engine :=
  {| ByIFCPath := fun _ _ => Raise "engine crashed";
     Graph_Vertices := fun _ => Ok [];
     Graph_Edges := fun _ => Ok [] |}.

(** A host on which every path exists, is small and ends in ".ifc". *)
Definition plain_host : Host :=
  {| uuid4 := fun n => "uuid-" +:+ pretty n;
     path_exists := fun _ => Ok true;
     path_suffix := fun _ => ".ifc";
     stat_size := fun _ => Ok 1024%Z;
     stats_error := fun _ => "1 validation error for GraphStats" |}.

(** [ProcessingConfig(include_types=types)] *)
Definition config_with_types (types : option (list string)) : ProcessingConfig :=
  {| cfg_method := DIRECT; cfg_include_types := types;
     cfg_transfer_dictionaries := true; cfg_tolerance := f64_decimal 1 3;
     cfg_max_file_size_mb := 100 |}.

(** The three parts of what process_ifc_file returns. *)
Definition returned_graph (out : (TopologicGraph * ProcessingResult * option handle) * Run)
    : TopologicGraph := fst (fst (fst out)).
Definition returned_result (out : (TopologicGraph * ProcessingResult * option handle) * Run)
    : ProcessingResult := snd (fst (fst out)).
Definition returned_handle (out : (TopologicGraph * ProcessingResult * option handle) * Run)
    : option handle := snd (fst out).





(** An edge dictionary as _get_edges_for_file builds them. *)
Definition exported_edge (edge : gmap string pyval) : Prop :=
  exists (from_index to_index : nat) (connection_type : string)
         (properties : option string) (edge_counter : nat),
    connection_type <> ""
    /\ edge = graph_edge from_index to_index connection_type properties edge_counter.

End Statements.
Import Statements.

(* ===================================================================== *)
(** * src/models/topologic_models.py: the queries of TopologicGraph *)
(* ===================================================================== *)

Module GraphQueries.

(** TopologicGraph.get_vertices_by_type: [v.ifc_type == ifc_type] for a
    string [ifc_type]. *)
Definition get_vertices_by_type (g : TopologicGraph) (ifc_type : string)
    : list TopologicVertex :=
  filter (fun v => py_eqb (v_ifc_type v) (VStr ifc_type) = true) (g_vertices g).

(** TopologicGraph.get_vertex_by_id:
    [next((v for v in self.vertices if v.id == vertex_id), None)] *)
Definition get_vertex_by_id (g : TopologicGraph) (vertex_id : string)
    : option TopologicVertex :=
  List.find (fun v => String.eqb (v_id v) vertex_id) (g_vertices g).

(** TopologicGraph.get_edges_for_vertex *)
Definition get_edges_for_vertex (g : TopologicGraph) (vertex_id : string)
    : list TopologicEdge :=
  filter (fun e => String.eqb (e_start_vertex_id e) vertex_id
                   || String.eqb (e_end_vertex_id e) vertex_id = true)
         (g_edges g).

End GraphQueries.
Import GraphQueries.

(* ===================================================================== *)
(** * src/models/blockchain_models.py: tokens, collections and mappings *)
(* ===================================================================== *)

Module Tokenization.

(** class TokenStandard *)
Inductive TokenStandard : Type := ERC721 | ERC1155 | ERC998.

(** class TokenizationStatus *)
Inductive TokenizationStatus : Type :=
| PENDING | MINTING | MINTED | TRANSFERRED | BURNED | FAILED.

Definition status_eqb (a b : TokenizationStatus) : bool :=
  match a, b with
  | PENDING, PENDING | MINTING, MINTING | MINTED, MINTED
  | TRANSFERRED, TRANSFERRED | BURNED, BURNED | FAILED, FAILED => true
  | _, _ => false
  end.

(** An IFCComponentToken with the fields next to the identifying ones
    ([created_at], [minted_at] and [last_transfer_at] are clock readings
    and are left out). *)
Record ComponentToken : Type := {
  tk_id : string;
  tk_fields : IFCComponentToken;
  tk_token_id : option Z;
  tk_contract_address : option string;
  tk_token_standard : TokenStandard;
  tk_chain_id : Z;
  tk_metadata_hash : option string;
  tk_owner_address : option string;
  tk_minter_address : option string;
  tk_status : TokenizationStatus;
  tk_mint_tx_hash : option string;
  tk_transfer_tx_hashes : list string
}.

(** pydantic gathers the [ValueError]s of the field validators, as pairs
    of field name and message, into one ValidationError; the text of that
    exception is pydantic's and is taken as given. *)
Record Pydantic : Type := {
  validation_error : list (string * string) -> string
}.

(** validate_ifc_guid: [if not v or len(v) < 1: raise ValueError(...)] *)
Definition validate_ifc_guid (v : string) : list (string * string) :=
  match v with
  | EmptyString => [("ifc_guid", "IFC GUID cannot be empty")]
  | _ => []
  end.

(** A byte that continues a character in UTF-8: [10xxxxxx]. *)
Definition is_continuation (c : ascii) : bool :=
  let n := nat_of_ascii c in (128 <=? n)%nat && (n <? 192)%nat.

(** [len(s)]: the number of characters of the [str] whose UTF-8 bytes are
    [s], one for each byte that does not continue a character. *)
Fixpoint char_length (s : string) : nat :=
  match s with
  | EmptyString => 0%nat
  | String c s' => ((if is_continuation c then 0 else 1) + char_length s')%nat
  end.

(** Every character of the text is an ASCII character. *)
Fixpoint is_ascii (s : string) : bool :=
  match s with
  | EmptyString => true
  | String c s' => (nat_of_ascii c <? 128)%nat && is_ascii s'
  end.

(** [str.lower] on text that is not all ASCII follows the Unicode tables of
    the interpreter, which are taken as given. *)
Record Unicode : Type := {
  unicode_lower : string -> string
}.

(** [s.lower()]: on ASCII text the letters A to Z are replaced, and nothing
    else is. *)
Definition py_lower (uni : Unicode) (s : string) : string :=
  if is_ascii s then lower s else unicode_lower uni s.

(** validate_ethereum_address, for the field [field]: the checked value
    ([v.lower()]) or the error. [len(v)] counts characters. *)
Definition validate_ethereum_address (uni : Unicode) (field : string) (v : option string)
    : option string * list (string * string) :=
  match v with
  | None => (None, [])
  | Some a =>
      if negb (startswith "0x" a) || negb (char_length a =? 42)%nat
      then (None, [(field, "Invalid Ethereum address format: " +:+ a)])
      else (Some (py_lower uni a), [])
  end.

(** The constructor call
    [IFCComponentToken(topologic_vertex_id=, kuzu_element_id=, ifc_guid=,
     ifc_type=, ifc_name=, file_id=, building_id=, building_name=,
     contract_address=, token_standard=, chain_id=, status=)]
    with a given fresh identifier: the field validators run in the order
    of the fields. *)
Definition new_token (uni : Unicode) (pyd : Pydantic) (id : string)
    (fields : IFCComponentToken)
    (contract_address : option string) (token_standard : TokenStandard) (chain_id : Z)
    (status : TokenizationStatus) : outcome ComponentToken :=
  let '(address, address_errors) :=
    validate_ethereum_address uni "contract_address" contract_address in
  match validate_ifc_guid (ifc_guid fields) ++ address_errors with
  | [] =>
      Ok {| tk_id := id; tk_fields := fields; tk_token_id := None;
            tk_contract_address := address; tk_token_standard := token_standard;
            tk_chain_id := chain_id; tk_metadata_hash := None;
            tk_owner_address := None; tk_minter_address := None;
            tk_status := status; tk_mint_tx_hash := None;
            tk_transfer_tx_hashes := [] |}
  | errors => Raise (validation_error pyd errors)
  end.

(** [token.token_uri = uri] *)
Definition set_token_uri (t : ComponentToken) (uri : string) : ComponentToken :=
  {| tk_id := tk_id t;
     tk_fields :=
       {| topologic_vertex_id := topologic_vertex_id (tk_fields t);
          kuzu_element_id := kuzu_element_id (tk_fields t);
          ifc_guid := ifc_guid (tk_fields t);
          ifc_type := ifc_type (tk_fields t);
          ifc_name := ifc_name (tk_fields t);
          file_id := file_id (tk_fields t);
          building_id := building_id (tk_fields t);
          building_name := building_name (tk_fields t);
          token_uri := Some uri |};
     tk_token_id := tk_token_id t;
     tk_contract_address := tk_contract_address t;
     tk_token_standard := tk_token_standard t;
     tk_chain_id := tk_chain_id t;
     tk_metadata_hash := tk_metadata_hash t;
     tk_owner_address := tk_owner_address t;
     tk_minter_address := tk_minter_address t;
     tk_status := tk_status t;
     tk_mint_tx_hash := tk_mint_tx_hash t;
     tk_transfer_tx_hashes := tk_transfer_tx_hashes t |}.

(** class BuildingTokenCollection ([deployed_at] is a clock reading and is
    left out). *)
Record BuildingTokenCollection : Type := {
  bc_id : string;
  bc_file_id : string;
  bc_building_id : option string;
  bc_building_name : string;
  bc_ifc_filename : string;
  bc_collection_name : string;
  bc_collection_symbol : string;
  bc_collection_description : option string;
  bc_contract_address : option string;
  bc_deployer_address : option string;
  bc_chain_id : Z;
  bc_component_tokens : list ComponentToken;
  bc_total_components : Z;
  bc_minted_count : Z;
  bc_pending_count : Z;
  bc_deployment_tx_hash : option string;
  bc_base_uri : option string;
  bc_contract_uri : option string
}.

Definition with_tokens_and_counts (c : BuildingTokenCollection)
    (tokens : list ComponentToken) (total minted pending : Z) : BuildingTokenCollection :=
  {| bc_id := bc_id c; bc_file_id := bc_file_id c; bc_building_id := bc_building_id c;
     bc_building_name := bc_building_name c; bc_ifc_filename := bc_ifc_filename c;
     bc_collection_name := bc_collection_name c;
     bc_collection_symbol := bc_collection_symbol c;
     bc_collection_description := bc_collection_description c;
     bc_contract_address := bc_contract_address c;
     bc_deployer_address := bc_deployer_address c;
     bc_chain_id := bc_chain_id c;
     bc_component_tokens := tokens;
     bc_total_components := total; bc_minted_count := minted; bc_pending_count := pending;
     bc_deployment_tx_hash := bc_deployment_tx_hash c;
     bc_base_uri := bc_base_uri c; bc_contract_uri := bc_contract_uri c |}.

(** [sum(1 for t in tokens if t.status == status)] *)
Fixpoint count_status (status : TokenizationStatus) (tokens : list ComponentToken) : Z :=
  match tokens with
  | [] => 0%Z
  | t :: rest =>
      ((if status_eqb (tk_status t) status then 1 else 0) + count_status status rest)%Z
  end.

(** BuildingTokenCollection.update_statistics *)
Definition collection_update_statistics (c : BuildingTokenCollection)
    : BuildingTokenCollection :=
  with_tokens_and_counts c (bc_component_tokens c)
    (Z.of_nat (length (bc_component_tokens c)))
    (count_status MINTED (bc_component_tokens c))
    (count_status PENDING (bc_component_tokens c)).

(** BuildingTokenCollection.get_tokens_by_type *)
Definition get_tokens_by_type (c : BuildingTokenCollection) (t : string)
    : list ComponentToken :=
  filter (fun tk => String.eqb (ifc_type (tk_fields tk)) t = true) (bc_component_tokens c).

(** BuildingTokenCollection.get_tokens_by_status *)
Definition get_tokens_by_status (c : BuildingTokenCollection) (status : TokenizationStatus)
    : list ComponentToken :=
  filter (fun tk => status_eqb (tk_status tk) status = true) (bc_component_tokens c).

(** [collection.component_tokens.append(token)] *)
Definition append_token (c : BuildingTokenCollection) (token : ComponentToken)
    : BuildingTokenCollection :=
  with_tokens_and_counts c (bc_component_tokens c ++ [token])
    (bc_total_components c) (bc_minted_count c) (bc_pending_count c).

(** class TokenizationMapping ([created_at] and [updated_at] are clock
    readings and are left out). The collections of the list are taken to
    be distinct objects. *)
Record TokenizationMapping : Type := {
  tm_id : string;
  tm_name : string;
  tm_description : option string;
  tm_file_id : string;
  tm_building_collections : list BuildingTokenCollection;
  tm_topologic_to_token : gmap string string;
  tm_kuzu_to_token : gmap string string;
  tm_ifc_guid_to_token : gmap string string;
  tm_token_id_to_component : gmap Z string;
  tm_total_mapped_components : Z;
  tm_total_collections : Z;
  tm_total_minted : Z
}.

(** [sum(len(c.component_tokens) for c in collections)] *)
Fixpoint total_tokens (collections : list BuildingTokenCollection) : Z :=
  match collections with
  | [] => 0%Z
  | c :: rest => (Z.of_nat (length (bc_component_tokens c)) + total_tokens rest)%Z
  end.

(** [sum(sum(1 for t in c.component_tokens if t.status == MINTED) for c in
    collections)] *)
Fixpoint total_minted (collections : list BuildingTokenCollection) : Z :=
  match collections with
  | [] => 0%Z
  | c :: rest => (count_status MINTED (bc_component_tokens c) + total_minted rest)%Z
  end.

(** TokenizationMapping.update_statistics *)
Definition mapping_update_statistics (m : TokenizationMapping) : TokenizationMapping :=
  {| tm_id := tm_id m; tm_name := tm_name m; tm_description := tm_description m;
     tm_file_id := tm_file_id m;
     tm_building_collections := tm_building_collections m;
     tm_topologic_to_token := tm_topologic_to_token m;
     tm_kuzu_to_token := tm_kuzu_to_token m;
     tm_ifc_guid_to_token := tm_ifc_guid_to_token m;
     tm_token_id_to_component := tm_token_id_to_component m;
     tm_total_mapped_components := total_tokens (tm_building_collections m);
     tm_total_collections := Z.of_nat (length (tm_building_collections m));
     tm_total_minted := total_minted (tm_building_collections m) |}.

(** The first collection with the given id gets the token appended:
    [None] when there is none. *)
Fixpoint append_to_collection (collections : list BuildingTokenCollection)
    (collection_id : string) (token : ComponentToken)
    : option (list BuildingTokenCollection) :=
  match collections with
  | [] => None
  | c :: rest =>
      if String.eqb (bc_id c) collection_id then Some (append_token c token :: rest)
      else
        match append_to_collection rest collection_id token with
        | Some rest' => Some (c :: rest')
        | None => None
        end
  end.

(** TokenizationMapping.add_component_token: the mapping after the call
    and whether the call returned or raised. *)
Definition add_component_token (m : TokenizationMapping) (token : ComponentToken)
    (collection_id : string) : TokenizationMapping * outcome unit :=
  match append_to_collection (tm_building_collections m) collection_id token with
  | None => (m, Raise ("Collection " +:+ collection_id +:+ " not found"))
  | Some collections =>
      (mapping_update_statistics
         {| tm_id := tm_id m; tm_name := tm_name m; tm_description := tm_description m;
            tm_file_id := tm_file_id m;
            tm_building_collections := collections;
            tm_topologic_to_token :=
              <[topologic_vertex_id (tk_fields token) := tk_id token]>
                (tm_topologic_to_token m);
            tm_kuzu_to_token :=
              <[kuzu_element_id (tk_fields token) := tk_id token]> (tm_kuzu_to_token m);
            tm_ifc_guid_to_token :=
              <[ifc_guid (tk_fields token) := tk_id token]> (tm_ifc_guid_to_token m);
            tm_token_id_to_component :=
              match tk_token_id token with
              | Some n => <[n := tk_id token]> (tm_token_id_to_component m)
              | None => tm_token_id_to_component m
              end;
            tm_total_mapped_components := tm_total_mapped_components m;
            tm_total_collections := tm_total_collections m;
            tm_total_minted := tm_total_minted m |},
       Ok tt)
  end.

(** The nested loops
    [for collection in collections: for token in collection.component_tokens:
       if token.id == token_id: return token] *)
Fixpoint find_token (collections : list BuildingTokenCollection) (token_id : string)
    : option ComponentToken :=
  match collections with
  | [] => None
  | c :: rest =>
      match List.find (fun t => String.eqb (tk_id t) token_id) (bc_component_tokens c) with
      | Some t => Some t
      | None => find_token rest token_id
      end
  end.

(** The common body of the two lookups: [if not token_id: return None]. *)
Definition lookup_token (index : gmap string string) (key : string)
    (collections : list BuildingTokenCollection) : option ComponentToken :=
  match index !! key with
  | Some (String c s) => find_token collections (String c s)
  | _ => None
  end.

(** TokenizationMapping.get_token_by_topologic_id *)
Definition get_token_by_topologic_id (m : TokenizationMapping) (topologic_id : string)
    : option ComponentToken :=
  lookup_token (tm_topologic_to_token m) topologic_id (tm_building_collections m).

(** TokenizationMapping.get_token_by_ifc_guid *)
Definition get_token_by_ifc_guid (m : TokenizationMapping) (guid : string)
    : option ComponentToken :=
  lookup_token (tm_ifc_guid_to_token m) guid (tm_building_collections m).

End Tokenization.
Import Tokenization.

(* ===================================================================== *)
(** * src/services/blockchain_service.py: mapping, batch data and sync *)
(* ===================================================================== *)

Module Minting.

(** A dictionary of KuzuService.get_all_files; its other keys are not
    read here. *)
Record FileData : Type := {
  fd_id : string;
  fd_filename : option string
}.

(** The members of the [kuzu_service] object that
    create_tokenization_mapping uses next to those of [Store]. *)
Record Catalog : Type := {
  get_all_files : outcome (list FileData)
}.

(** The loop [for vertex in vertices] of create_tokenization_mapping, with
    [drawn] identifiers drawn so far. *)
Fixpoint tokens_loop (uni : Unicode) (pyd : Pydantic) (uuid4 : nat -> string)
    (vertices : list KuzuVertex)
    (file_id building_name : string) (contract_address : option string) (chain_id : Z)
    (drawn : nat) (tokens : list ComponentToken) : outcome (list ComponentToken) :=
  match vertices with
  | [] => Ok tokens
  | vertex :: rest =>
      match kv_id vertex with
      | None => Raise "'id'"
      | Some id =>
          bind (new_token uni pyd (uuid4 drawn)
                  {| topologic_vertex_id := id;
                     kuzu_element_id := id;
                     ifc_guid := get_or (kv_ifc_guid vertex) "";
                     ifc_type := get_or (kv_ifc_type vertex) "Unknown";
                     ifc_name := Some (get_or (kv_name vertex) "Unnamed");
                     file_id := file_id;
                     building_id := Some (get_or (kv_building_id vertex) "");
                     building_name := Some building_name;
                     token_uri := None |}
                  contract_address ERC998 chain_id PENDING) (fun token =>
          let token' := set_token_uri token (generate_token_uri (tk_fields token) None) in
          tokens_loop uni pyd uuid4 rest file_id building_name contract_address chain_id
            (S drawn) (tokens ++ [token']))
      end
  end.

(** create_tokenization_mapping; the exception it logs is raised again.
    [drawn] identifiers have been drawn before the call. *)
Definition create_tokenization_mapping (uni : Unicode) (pyd : Pydantic)
    (uuid4 : nat -> string)
    (catalog : Catalog) (store : Store) (drawn : nat)
    (file_id building_name : string) (contract_address : option string) (chain_id : Z)
    : outcome BuildingTokenCollection :=
  bind (get_all_files catalog) (fun files =>
  match List.find (fun f => String.eqb (fd_id f) file_id) files with
  | None => Raise ("File " +:+ file_id +:+ " not found in database")
  | Some file_data =>
      let filename := get_or (fd_filename file_data) "unknown.ifc" in
      bind (get_vertices_by_file store file_id) (fun vertices =>
      let collection :=
        {| bc_id := uuid4 drawn; bc_file_id := file_id; bc_building_id := None;
           bc_building_name := building_name; bc_ifc_filename := filename;
           bc_collection_name := building_name +:+ " Digital Twin";
           bc_collection_symbol := "BLDG";
           bc_collection_description :=
             Some ("Tokenized building components from " +:+ filename);
           bc_contract_address := contract_address;
           bc_deployer_address := None;
           bc_chain_id := chain_id;
           bc_component_tokens := [];
           bc_total_components := 0; bc_minted_count := 0; bc_pending_count := 0;
           bc_deployment_tx_hash := None; bc_base_uri := None; bc_contract_uri := None |} in
      bind (tokens_loop uni pyd uuid4 vertices file_id building_name contract_address
              chain_id
              (S drawn) []) (fun tokens =>
      Ok (collection_update_statistics
            (with_tokens_and_counts collection tokens 0 0 0))))
  end).

(** The dictionary prepare_batch_mint_data returns. *)
Record MintData : Type := {
  md_fileId : string;
  md_projectName : string;
  md_nodes : list (gmap string pyval);
  md_edges : list (gmap string pyval);
  md_nodeCount : Z;
  md_edgeCount : Z
}.

(** prepare_batch_mint_data; the exception it logs is raised again. *)
Definition prepare_batch_mint_data (store : Store) (file_id building_name : string)
    : outcome MintData :=
  let '(nodes, edges) := export_building_for_minting store file_id None in
  match nodes with
  | [] => Raise ("No nodes found for file_id: " +:+ file_id)
  | _ =>
      Ok {| md_fileId := _string_to_bytes32 file_id;
            md_projectName := building_name;
            md_nodes := nodes;
            md_edges := edges;
            md_nodeCount := Z.of_nat (length nodes);
            md_edgeCount := Z.of_nat (length edges) |}
  end.

(** The update query of sync_token_ids_to_kuzu, for an element id, a file
    id and [str(token_id)]: [result.has_next()], or the exception of
    [execute]. (The timestamp parameter is a clock reading.) *)
Definition update_query : Type := string -> string -> string -> outcome bool.

(** The loop [for kuzu_id, token_id in kuzu_id_to_token_id.items()]; an
    update that raises is logged and skipped. *)
Fixpoint sync_loop (execute : update_query) (file_id : string)
    (items : list (string * Z)) (updated_count : Z) : Z :=
  match items with
  | [] => updated_count
  | (kuzu_id, token_id) :: rest =>
      match execute kuzu_id file_id (pretty token_id) with
      | Ok true => sync_loop execute file_id rest (updated_count + 1)%Z
      | Ok false => sync_loop execute file_id rest updated_count
      | Raise _ => sync_loop execute file_id rest updated_count
      end
  end.

(** sync_token_ids_to_kuzu, on the items of the dictionary in order. *)
Definition sync_token_ids_to_kuzu (execute : update_query) (file_id : string)
    (kuzu_id_to_token_id : list (string * Z)) : Z :=
  sync_loop execute file_id kuzu_id_to_token_id 0%Z.

End Minting.
Import Minting.

(* ===================================================================== *)
(** * Further notions used to state properties *)
(* ===================================================================== *)

Module Notions.

(** The names of the four strategies, in the order of the chain. *)
Definition strategy_names : list string :=
  ["direct_with_dictionaries"; "direct_without_dictionaries";
   "traditional_with_types"; "traditional_fallback"].





(** What a strategy leaves alone in the context: everything but the
    engine handle. *)
Definition settings_kept (c c' : IFCProcessingContext) : Prop :=
  c_file_path c' = c_file_path c
  /\ c_include_types c' = c_include_types c
  /\ c_attempted_methods c' = c_attempted_methods c
  /\ c_error_messages c' = c_error_messages c
  /\ c_current_method c' = c_current_method c.

(** Every edge of the graph starts and ends at a vertex of the graph. *)
Definition edges_closed (graph : TopologicGraph) : Prop :=
  Forall (fun e => e_start_vertex_id e ∈ (v_id <$> g_vertices graph)
                   /\ e_end_vertex_id e ∈ (v_id <$> g_vertices graph))
         (g_edges graph).

(** The graph is what _extract_graph_data builds in the run [r]. *)
Definition extracted_in (r : Run) (graph : TopologicGraph) : Prop :=
  g_vertex_count graph = Z.of_nat (length (g_vertices graph))
  /\ g_edge_count graph = Z.of_nat (length (g_edges graph))
  /\ g_processing_method graph = c_current_method (run_context r)
  /\ g_source_file graph = Some (c_file_path (run_context r))
  /\ edges_closed graph.

(** A strategy that keeps the settings, only adds requests, and on success
    returns an extracted graph and leaves a handle in the context. *)
Definition strategy_ok (f : strategy) : Prop :=
  forall r : Run,
    settings_kept (run_context r) (run_context (snd (f r)))
    /\ (exists added, run_requests (snd (f r)) = run_requests r ++ added)
    /\ (forall graph, fst (f r) = Ok graph ->
          extracted_in r graph
          /\ exists h, c_original_topologic_graph (run_context (snd (f r))) = Some h).

Definition finite_coords (c : coords) : bool :=
  let '(x, y, z) := c in is_finite x && is_finite y && is_finite z.

Definition is_nan (f : spec_float) : bool :=
  match f with S754_nan => true | _ => false end.

Definition has_nan (c : coords) : bool :=
  let '(x, y, z) := c in is_nan x || is_nan y || is_nan z.

(** An engine that answers every request with a graph of one wall. *)
Definition one_wall_engine : Engine :=
  {| ByIFCPath := fun _ _ => Ok (Some 7);
     Graph_Vertices := fun _ =>
       Ok [ Ok {| ev_coordinates := (f64_of_Z 1, f64_of_Z 2, S754_zero false);
                  ev_dictionary := Ok [("IFC_type", Ok (VStr "IfcWall"))] |} ];
     Graph_Edges := fun _ =>
       Ok [ Ok {| ee_endpoints := [ (f64_of_Z 1, f64_of_Z 2, S754_zero false);
                                    (f64_of_Z 1, f64_of_Z 2, S754_zero false) ];
                  ee_dictionary := Ok [] |} ] |}.

(** An engine that answers every request with a graph of one vertex whose
    IFC_type is the number 5. *)
Definition numbered_type_engine : Engine :=
  {| ByIFCPath := fun _ _ => Ok (Some 7);
     Graph_Vertices := fun _ =>
       Ok [ Ok {| ev_coordinates := (f64_of_Z 1, f64_of_Z 2, S754_zero false);
                  ev_dictionary := Ok [("IFC_type", Ok (VInt 5))] |} ];
     Graph_Edges := fun _ => Ok [] |}.

(** A host on which no path exists. *)
Definition empty_host : Host :=
  {| uuid4 := fun n => "uuid-" +:+ pretty n;
     path_exists := fun _ => Ok false;
     path_suffix := fun _ => ".ifc";
     stat_size := fun _ => Raise "No such file or directory";
     stats_error := fun _ => "1 validation error for GraphStats" |}.

(** [d.get(k, 0)] on the counts, for a string key. *)
Definition count_of (counts : valdict Z) (t : string) : Z :=
  match valdict_find counts (VStr t) with Some n => n | None => 0%Z end.

(** A vertex with a given type. *)
Definition typed_vertex (id : string) (t : pyval) : TopologicVertex :=
  {| v_id := id; v_coordinates := (S754_zero false, S754_zero false, S754_zero false);
     v_dictionaries := ∅; v_ifc_type := t; v_ifc_guid := VNone; v_ifc_name := VNone |}.

(** A graph with given vertices and no statistics yet. *)
Definition graph_of (vertices : list TopologicVertex) : TopologicGraph :=
  {| g_id := "g"; g_vertices := vertices; g_edges := [];
     g_file_id := None; g_building_id := None; g_source_file := None;
     g_filename := None; g_building_name := None; g_ifc_file_info := ∅;
     g_processing_method := None;
     g_vertex_count := 0; g_edge_count := 0; g_ifc_type_counts := [] |}.

End Notions.
Import Notions.

(* ===================================================================== *)
(** * Notions for the export, the validation and the tokens *)
(* ===================================================================== *)

Module ExportNotions.

(** A lower-case hexadecimal digit. *)
Definition is_hex_char (c : ascii) : bool :=
  let n := nat_of_ascii c in
  ((48 <=? n)%nat && (n <=? 57)%nat) || ((97 <=? n)%nat && (n <=? 102)%nat).

(** The text holds no NUL byte. *)
Definition no_nul (s : string) : Prop := has_char zero s = false.

(** [n] NUL bytes. *)
Definition zeros (n : nat) : string :=
  String.concat "" (replicate n (String zero EmptyString)).

Definition is_empty (s : string) : bool := String.eqb s "".

(** A stored element that exports to a node with all required fields: its
    id and GUID are present and non-empty, and its type and name are not
    the empty string. *)
Definition complete_element (v : KuzuVertex) : Prop :=
  is_empty (get_or (kv_id v) "") = false
  /\ kv_id v <> None
  /\ is_empty (get_or (kv_ifc_guid v) "") = false
  /\ kv_ifc_type v <> Some ""
  /\ kv_name v <> Some "".

(** A node that validation accepts without a message. *)
Definition clean_node (node : gmap string pyval) : Prop :=
  (exists s, s <> "" /\ node !! "kuzuElementId" = Some (VStr s))
  /\ (exists s, s <> "" /\ node !! "ifcGuid" = Some (VStr s))
  /\ (exists s, s <> "" /\ node !! "ifcType" = Some (VStr s))
  /\ (exists s, s <> "" /\ node !! "name" = Some (VStr s))
  /\ (exists x, node !! "x" = Some (VInt x))
  /\ (exists y, node !! "y" = Some (VInt y))
  /\ (exists z, node !! "z" = Some (VInt z)).

(** One of the element's coordinates is an infinity or NaN. *)
Definition has_non_finite (v : KuzuVertex) : bool :=
  existsb (fun c => match c with Some f => negb (is_finite f) | None => false end)
          [kv_x v; kv_y v; kv_z v].

(** A stored element with a given x coordinate. *)
Definition element_row_at (id : string) (x : spec_float) : ElementRow :=
  {| row_id := id; row_ifc_type := Some "IfcWall"; row_name := Some "Wall";
     row_x := Some x; row_y := Some (f64_of_Z 10); row_z := Some (S754_zero false);
     row_ifc_guid := Some "guid"; row_building_id := Some "building-1" |}.

(** The update for the entry returned a row. *)
Definition returned_a_row (execute : update_query) (file_id : string)
    (item : string * Z) : bool :=
  match execute (fst item) file_id (pretty (snd item)) with
  | Ok true => true
  | _ => false
  end.

(** The identifier a dictionary holds under [key] is usable in a set:
    absent, falsy, or hashable. *)
Definition usable_id (key : string) (d : gmap string pyval) : Prop :=
  match d !! key with
  | Some v => truthy v = false \/ hashable v = true
  | None => True
  end.

(** A store that holds the given elements and relationship rows. *)
Definition store_of (elements : list ElementRow) (rows : list EdgeRow) : Store :=
  kuzu_service true
    {| execute_elements := fun _ => Ok (Ok <$> elements);
       execute_edges := fun _ => Ok (Ok <$> rows) |}.

Definition wall_row (id guid : string) : ElementRow :=
  {| row_id := id; row_ifc_type := Some "IfcWall"; row_name := Some "Wall";
     row_x := Some (f64_of_Z 5); row_y := Some (f64_of_Z 10);
     row_z := Some (S754_zero false);
     row_ifc_guid := Some guid; row_building_id := Some "building-1" |}.

Definition edge_row (from_id to_id : string) : EdgeRow :=
  {| er_from_id := from_id; er_to_id := to_id; er_connection_type := None;
     er_edge_type := None; er_properties := None |}.

(** A token of a collection, for the statements about statistics. *)
Definition token_with_status (id : string) (status : TokenizationStatus) : ComponentToken :=
  {| tk_id := id; tk_fields := token_with_ids "elem" "vertex" "guid";
     tk_token_id := None; tk_contract_address := None; tk_token_standard := ERC998;
     tk_chain_id := 31337; tk_metadata_hash := None; tk_owner_address := None;
     tk_minter_address := None; tk_status := status; tk_mint_tx_hash := None;
     tk_transfer_tx_hashes := [] |}.

(** A token for a given vertex. *)
Definition token_for_vertex (id vertex_id : string) : ComponentToken :=
  {| tk_id := id; tk_fields := token_with_ids vertex_id vertex_id "guid-2";
     tk_token_id := None; tk_contract_address := None; tk_token_standard := ERC998;
     tk_chain_id := 31337; tk_metadata_hash := None; tk_owner_address := None;
     tk_minter_address := None; tk_status := PENDING; tk_mint_tx_hash := None;
     tk_transfer_tx_hashes := [] |}.

Definition collection_of (id : string) (tokens : list ComponentToken)
    : BuildingTokenCollection :=
  {| bc_id := id; bc_file_id := "file-123"; bc_building_id := None;
     bc_building_name := "HQ"; bc_ifc_filename := "hq.ifc";
     bc_collection_name := "HQ Digital Twin"; bc_collection_symbol := "BLDG";
     bc_collection_description := None; bc_contract_address := None;
     bc_deployer_address := None; bc_chain_id := 31337;
     bc_component_tokens := tokens;
     bc_total_components := 0; bc_minted_count := 0; bc_pending_count := 0;
     bc_deployment_tx_hash := None; bc_base_uri := None; bc_contract_uri := None |}.

Definition mapping_of (collections : list BuildingTokenCollection) : TokenizationMapping :=
  {| tm_id := "m"; tm_name := "mapping"; tm_description := None; tm_file_id := "file-123";
     tm_building_collections := collections;
     tm_topologic_to_token := ∅; tm_kuzu_to_token := ∅; tm_ifc_guid_to_token := ∅;
     tm_token_id_to_component := ∅;
     tm_total_mapped_components := 0; tm_total_collections := 0; tm_total_minted := 0 |}.

(** A mapping whose index by vertex id is given. *)
Definition indexed_mapping (collections : list BuildingTokenCollection)
    (by_vertex : gmap string string) : TokenizationMapping :=
  {| tm_id := "m"; tm_name := "mapping"; tm_description := None; tm_file_id := "file-123";
     tm_building_collections := collections;
     tm_topologic_to_token := by_vertex; tm_kuzu_to_token := ∅; tm_ifc_guid_to_token := ∅;
     tm_token_id_to_component := ∅;
     tm_total_mapped_components := 0; tm_total_collections := 0; tm_total_minted := 0 |}.

(** No token of the collections has the given id. *)
Definition fresh_token_id (collections : list BuildingTokenCollection) (id : string) : Prop :=
  Forall (fun c => Forall (fun t => tk_id t <> id) (bc_component_tokens c)) collections.

(** An address the validator of the token accepts: none, or "0x" and 42
    characters in all. *)
Definition well_formed_address (a : option string) : Prop :=
  match a with
  | None => True
  | Some a => startswith "0x" a = true /\ char_length a = 42%nat
  end.

(** The token create_tokenization_mapping builds for a stored element. *)
Definition created_from (uni : Unicode) (fid : string) (bname : string)
    (contract_address : option string)
    (chain_id : Z) (v : KuzuVertex) (t : ComponentToken) : Prop :=
  kv_id v = Some (kuzu_element_id (tk_fields t))
  /\ topologic_vertex_id (tk_fields t) = kuzu_element_id (tk_fields t)
  /\ ifc_guid (tk_fields t) = get_or (kv_ifc_guid v) ""
  /\ ifc_guid (tk_fields t) <> ""
  /\ ifc_type (tk_fields t) = get_or (kv_ifc_type v) "Unknown"
  /\ ifc_name (tk_fields t) = Some (get_or (kv_name v) "Unnamed")
  /\ file_id (tk_fields t) = fid
  /\ building_name (tk_fields t) = Some bname
  /\ token_uri (tk_fields t)
     = Some ("kuzu://" +:+ kuzu_element_id (tk_fields t) +:+ "/topologic/"
             +:+ kuzu_element_id (tk_fields t) +:+ "/ifc/" +:+ ifc_guid (tk_fields t))
  /\ tk_status t = PENDING
  /\ tk_token_standard t = ERC998
  /\ tk_chain_id t = chain_id
  /\ tk_token_id t = None
  /\ tk_contract_address t = py_lower uni <$> contract_address.

(** Identifiers "uuid-0", "uuid-1", ... *)
Definition counted_uuid4 (n : nat) : string := "uuid-" +:+ pretty n.

Definition file_entry (id filename : string) : FileData :=
  {| fd_id := id; fd_filename := Some filename |}.

(** A stand-in for the Unicode tables that leaves other text as it is. *)
Definition plain_unicode : Unicode := {| unicode_lower := fun s => s |}.

(** [n] copies of a text. *)
Fixpoint copies (n : nat) (s : string) : string :=
  match n with
  | O => EmptyString
  | S n' => s +:+ copies n' s
  end.

(** The letter e with an acute accent: two bytes in UTF-8. *)
Definition e_acute : string := String "195" (String "169" EmptyString).

(** A stand-in for pydantic's error text. *)
Definition plain_pydantic : Pydantic :=
  {| validation_error := fun errors =>
       String.concat "; " (map (fun e => fst e +:+ ": " +:+ snd e) errors) |}.

Definition catalog_of (files : list FileData) : Catalog :=
  {| get_all_files := Ok files |}.

End ExportNotions.
Import ExportNotions.


(* ===================================================================== *)
(** * Token-type classification *)
(* ===================================================================== *)

(** C5. Token-type classification is a total function of the lower-cased
    IFC type string, evaluated in the fixed order project,
    building-and-not-storey, storey-or-floor, space-or-room-or-zone,
    otherwise COMPONENT; "IfcBuildingStorey" is a STOREY, and every string
    receives one of the five token types. *)
Theorem C5_token_type_classification :
  (forall ifc_type : string, _determine_token_type ifc_type = classify_by_rules ifc_type)
  /\ _determine_token_type "IfcBuildingStorey" = STOREY
  /\ _determine_token_type "IfcBuildingStorey" <> BUILDING
  /\ (forall ifc_type : string,
        _determine_token_type ifc_type ∈ [PROJECT; BUILDING; STOREY; SPACE; COMPONENT]).
Proof.
  split; [| split; [| split]].
  - intros ifc_type. unfold _determine_token_type, classify_by_rules. cbn [first_rule classification_rules].
    reflexivity.
  - vm_compute. reflexivity.
  - vm_compute. discriminate.
  - intros ifc_type. destruct (_determine_token_type ifc_type); set_solver.
Qed.

(* ===================================================================== *)
(** * Coordinate scaling *)
(* ===================================================================== *)

Lemma int_of_float_truncates (f : spec_float) (n : Z) :
  int_of_float f = Ok n -> truncates_to f n.
Proof.
  destruct f as [s | s | | s m e]; cbn; intros H; try discriminate.
  - congruence.
  - injection H as <-. exists (Z.shiftl (Z.pos m) e). split; [reflexivity |].
    destruct (Z.leb_spec 0 e) as [He | He].
    + apply Z.shiftl_mul_pow2. assumption.
    + rewrite Z.shiftl_div_pow2 by lia.
      assert (Hd : (0 < 2 ^ (- e))%Z) by (apply Z.pow_pos_nonneg; lia).
      split.
      * rewrite Z.mul_comm. apply Z.mul_div_le. assumption.
      * rewrite Z.mul_comm. apply Z.mul_succ_div_gt. assumption.
Qed.

Lemma int_of_float_finite (f : spec_float) :
  is_finite f = true -> exists n, int_of_float f = Ok n.
Proof.
  destruct f; cbn; intros H; try discriminate; eauto.
Qed.

(** C1, as the code has it. A vertex whose scaled coordinates are finite is
    exported, and the node's x, y and z are integers: the double-precision
    product coordinate * 1000 with its fractional part dropped (truncated
    toward zero, not rounded to nearest). Exporting (10.5, 20.3, 3.2)
    yields (10500, 20300, 3200). *)
Theorem C1_coordinates_are_truncated_products :
  (forall (vertex : KuzuVertex) (file_id : string),
      is_finite (scaled (kv_x vertex)) = true ->
      is_finite (scaled (kv_y vertex)) = true ->
      is_finite (scaled (kv_z vertex)) = true ->
      exists (node : gmap string pyval) (x y z : Z),
        _convert_vertex_to_graph_node vertex file_id = Ok node
        /\ node !! "x" = Some (VInt x) /\ truncates_to (scaled (kv_x vertex)) x
        /\ node !! "y" = Some (VInt y) /\ truncates_to (scaled (kv_y vertex)) y
        /\ node !! "z" = Some (VInt z) /\ truncates_to (scaled (kv_z vertex)) z)
  /\ (exists node : gmap string pyval,
        _convert_vertex_to_graph_node
          (stored_element "vertex-3" "IfcSpace"
             (f64_decimal 105 1) (f64_decimal 203 1) (f64_decimal 32 1)) "file-123"
        = Ok node
        /\ node !! "x" = Some (VInt 10500)
        /\ node !! "y" = Some (VInt 20300)
        /\ node !! "z" = Some (VInt 3200)).
Proof.
  split.
  - intros vertex file_id Hx Hy Hz.
    destruct (int_of_float_finite _ Hx) as [x Ex].
    destruct (int_of_float_finite _ Hy) as [y Ey].
    destruct (int_of_float_finite _ Hz) as [z Ez].
    unfold _convert_vertex_to_graph_node, scale_coordinate.
    change (int_of_float (f64_mul (match kv_x vertex with Some f => f | None => S754_zero false end)
                                  (f64_of_Z 1000))) with (int_of_float (scaled (kv_x vertex))).
    change (int_of_float (f64_mul (match kv_y vertex with Some f => f | None => S754_zero false end)
                                  (f64_of_Z 1000))) with (int_of_float (scaled (kv_y vertex))).
    change (int_of_float (f64_mul (match kv_z vertex with Some f => f | None => S754_zero false end)
                                  (f64_of_Z 1000))) with (int_of_float (scaled (kv_z vertex))).
    rewrite Ex, Ey, Ez. cbn [bind].
    eexists _, x, y, z. split; [reflexivity |].
    repeat split; try (apply int_of_float_truncates; assumption); reflexivity.
  - eexists. split; [vm_compute; reflexivity |]. repeat split; vm_compute; reflexivity.
Qed.

(** The theorem at the element (10.5, 20.3, 3.2). *)
Lemma C1_witness :
  exists (node : gmap string pyval) (x y z : Z),
    _convert_vertex_to_graph_node
      (stored_element "vertex-3" "IfcSpace"
         (f64_decimal 105 1) (f64_decimal 203 1) (f64_decimal 32 1)) "file-123" = Ok node
    /\ node !! "x" = Some (VInt x)
    /\ truncates_to (scaled (Some (f64_decimal 105 1))) x
    /\ node !! "y" = Some (VInt y)
    /\ truncates_to (scaled (Some (f64_decimal 203 1))) y
    /\ node !! "z" = Some (VInt z)
    /\ truncates_to (scaled (Some (f64_decimal 32 1))) z.
Proof.
  apply (proj1 C1_coordinates_are_truncated_products
           (stored_element "vertex-3" "IfcSpace"
              (f64_decimal 105 1) (f64_decimal 203 1) (f64_decimal 32 1)) "file-123");
    vm_compute; reflexivity.
Defined.

(** C1 as stated fails: the coordinate 1.001 has the product
    1000.9999999999999, which is exported as 1000 while
    round(coordinate * 1000) is 1001. *)
Lemma C1_counterexample :
  exists node : gmap string pyval,
    _convert_vertex_to_graph_node
      (stored_element "vertex-3" "IfcSpace"
         (f64_decimal 1001 3) (f64_decimal 203 1) (f64_decimal 32 1)) "file-123" = Ok node
    /\ node !! "x" = Some (VInt 1000)
    /\ round_float (f64_mul (f64_decimal 1001 3) (f64_of_Z 1000)) = Ok 1001%Z.
Proof.
  eexists. split; [vm_compute; reflexivity |]. split; vm_compute; reflexivity.
Qed.

(* ===================================================================== *)
(** * Metadata extraction *)
(* ===================================================================== *)

Lemma first_present_none (keys : list string) (d : gmap string pyval) :
  first_present keys d = None <-> (forall k, k ∈ keys -> d !! k = None).
Proof.
  induction keys as [| key keys IH]; cbn.
  - split; [intros _ k Hk; inversion Hk | reflexivity].
  - destruct (d !! key) as [value |] eqn:E.
    + split; [discriminate |]. intros H. specialize (H key (list_elem_of_here _ _)). congruence.
    + rewrite IH. split.
      * intros H k Hk. apply elem_of_cons in Hk as [-> | Hk]; auto.
      * intros H k Hk. apply H. apply list_elem_of_further. assumption.
Qed.

Lemma first_present_first (pre post : list string) (key : string) (value : pyval)
    (d : gmap string pyval) :
  (forall k, k ∈ pre -> d !! k = None) ->
  d !! key = Some value ->
  first_present (pre ++ key :: post) d = Some value.
Proof.
  induction pre as [| k0 pre IH]; cbn; intros Hpre Hkey.
  - rewrite Hkey. reflexivity.
  - rewrite (Hpre k0 (list_elem_of_here _ _)). apply IH; [| assumption].
    intros k Hk. apply Hpre. apply list_elem_of_further. assumption.
Qed.

Lemma first_present_in (keys : list string) (d : gmap string pyval) (value : pyval) :
  first_present keys d = Some value -> exists k, k ∈ keys /\ d !! k = Some value.
Proof.
  induction keys as [| key keys IH]; cbn; [discriminate |].
  destruct (d !! key) as [v |] eqn:E.
  - intros [= ->]. exists key. split; [apply list_elem_of_here | assumption].
  - intros H. destruct (IH H) as (k & Hk & Hv). exists k.
    split; [apply list_elem_of_further |]; assumption.
Qed.

(** C6, as the code has it. After metadata extraction the ifc_type field
    holds the value stored under the first alias key (in the order
    IFC_type, ifc_type, IFCType, type, Entity) that is present in the
    dictionaries, and is left as it was when none is present. Hence, for a
    vertex whose ifc_type was None before the extraction and whose
    dictionaries store no None under an alias key, ifc_type is None
    afterwards exactly when no alias key is present. *)
Theorem C6_first_present_alias_wins (v : TopologicVertex) :
  (forall (pre post : list string) (key : string) (value : pyval),
      type_keys = pre ++ key :: post ->
      (forall k, k ∈ pre -> v_dictionaries v !! k = None) ->
      v_dictionaries v !! key = Some value ->
      v_ifc_type (extract_ifc_metadata v) = value)
  /\ ((forall k, k ∈ type_keys -> v_dictionaries v !! k = None) ->
      v_ifc_type (extract_ifc_metadata v) = v_ifc_type v)
  /\ (v_ifc_type v = VNone ->
      (forall k, k ∈ type_keys -> v_dictionaries v !! k <> Some VNone) ->
      (v_ifc_type (extract_ifc_metadata v) = VNone
       <-> forall k, k ∈ type_keys -> v_dictionaries v !! k = None)).
Proof.
  split; [| split].
  - intros pre post key value Hkeys Hpre Hkey.
    cbn [extract_ifc_metadata v_ifc_type]. unfold assign_first.
    rewrite Hkeys, (first_present_first pre post key value _ Hpre Hkey). reflexivity.
  - intros Hnone. cbn [extract_ifc_metadata v_ifc_type]. unfold assign_first.
    apply first_present_none in Hnone. rewrite Hnone. reflexivity.
  - intros Hfresh Hvalues. cbn [extract_ifc_metadata v_ifc_type]. unfold assign_first.
    rewrite <- first_present_none.
    destruct (first_present type_keys (v_dictionaries v)) as [value |] eqn:E.
    + split; [| discriminate]. intros ->.
      destruct (first_present_in _ _ _ E) as (k & Hk & Hv).
      exfalso. exact (Hvalues k Hk Hv).
    + split; [reflexivity | intros _; assumption].
Qed.

(** The theorem at a vertex that carries two aliases: "ifc_type" comes
    before "type" in the list and wins. *)
Lemma C6_witness :
  v_ifc_type
    (extract_ifc_metadata
       (new_vertex "v-1" (S754_zero false, S754_zero false, S754_zero false)
          (<["type" := VStr "IfcDoor"]> (<["ifc_type" := VStr "IfcWall"]> ∅))))
  = VStr "IfcWall".
Proof.
  apply (proj1 (C6_first_present_alias_wins
                  (new_vertex "v-1" (S754_zero false, S754_zero false, S754_zero false)
                     (<["type" := VStr "IfcDoor"]> (<["ifc_type" := VStr "IfcWall"]> ∅))))
               ["IFC_type"] ["IFCType"; "type"; "Entity"] "ifc_type" (VStr "IfcWall")).
  - reflexivity.
  - intros k Hk. apply list_elem_of_singleton in Hk as ->. vm_compute. reflexivity.
  - vm_compute. reflexivity.
Defined.

(** C6 as stated fails in both directions: an alias key that is present
    with the value None leaves ifc_type None, and a vertex built with an
    ifc_type keeps it when its dictionaries hold no alias key. *)
Lemma C6_counterexample :
  (let v := new_vertex "v-1" (S754_zero false, S754_zero false, S754_zero false)
              (<["IFC_type" := VNone]> ∅) in
   v_ifc_type (extract_ifc_metadata v) = VNone
   /\ "IFC_type" ∈ type_keys
   /\ v_dictionaries v !! "IFC_type" = Some VNone)
  /\ (let v := {| v_id := "v-2";
                  v_coordinates := (S754_zero false, S754_zero false, S754_zero false);
                  v_dictionaries := ∅;
                  v_ifc_type := VStr "IfcWall"; v_ifc_guid := VNone; v_ifc_name := VNone |} in
      v_ifc_type (extract_ifc_metadata v) = VStr "IfcWall"
      /\ forall k, k ∈ type_keys -> v_dictionaries v !! k = None).
Proof.
  split.
  - cbn zeta. split; [vm_compute; reflexivity |].
    split; [unfold type_keys; set_solver | vm_compute; reflexivity].
  - cbn zeta. split; [vm_compute; reflexivity |]. intros k _. apply lookup_empty.
Qed.

(* ===================================================================== *)
(** * Graph statistics *)
(* ===================================================================== *)

Lemma valdict_store_total (d : valdict Z) (k : pyval) (v : Z) :
  valdict_total (valdict_store d k v)
  = (valdict_total d - (match valdict_find d k with Some n => n | None => 0 end) + v)%Z.
Proof.
  induction d as [| [k' n'] d IH]; cbn [valdict_store valdict_find].
  - unfold valdict_total. cbn. lia.
  - destruct (py_eqb k' k); unfold valdict_total in *; cbn [fold_right snd] in *.
    + lia.
    + rewrite IH. lia.
Qed.

Lemma count_types_total (vertices : list TopologicVertex) (d d' : valdict Z) :
  count_types vertices d = Ok d' ->
  valdict_total d' = (valdict_total d + Z.of_nat (length (filter counted vertices)))%Z.
Proof.
  revert d. induction vertices as [| vertex rest IH]; intros d; cbn [count_types].
  - intros [= <-]. cbn. lia.
  - destruct (truthy (v_ifc_type vertex)) eqn:Et.
    + rewrite filter_cons_True by exact Et.
      unfold valdict_get, valdict_set.
      destruct (hashable (v_ifc_type vertex)); cbn [bind]; [| discriminate].
      intros H. apply IH in H. rewrite H, valdict_store_total. cbn [length]. lia.
    + rewrite filter_cons_False by (unfold counted; rewrite Et; discriminate). apply IH.
Qed.

Lemma count_types_returns (vertices : list TopologicVertex) (d : valdict Z) :
  Forall (fun vertex => hashable (v_ifc_type vertex) = true) vertices ->
  exists d', count_types vertices d = Ok d'.
Proof.
  intros H. revert d. induction H as [| vertex rest Hh _ IH]; intros d; cbn [count_types].
  - eauto.
  - destruct (truthy (v_ifc_type vertex)); [| apply IH].
    unfold valdict_get, valdict_set. rewrite Hh. cbn [bind]. apply IH.
Qed.

(** C9, as the code has it. update_statistics returns on every graph whose
    ifc_type values are hashable (None or strings, for instance). Whenever
    it returns, vertex_count is the number of vertices, edge_count the
    number of edges, the values of ifc_type_counts sum to the number of
    vertices whose ifc_type is truthy (neither None nor empty), and a
    second call changes nothing. *)
Theorem C9_update_statistics (g : TopologicGraph) :
  (Forall (fun vertex => hashable (v_ifc_type vertex) = true) (g_vertices g) ->
   snd (update_statistics g) = Ok tt)
  /\ (snd (update_statistics g) = Ok tt ->
      let g' := fst (update_statistics g) in
      g_vertices g' = g_vertices g
      /\ g_edges g' = g_edges g
      /\ g_vertex_count g' = Z.of_nat (length (g_vertices g))
      /\ g_edge_count g' = Z.of_nat (length (g_edges g))
      /\ valdict_total (g_ifc_type_counts g')
         = Z.of_nat (length (filter counted (g_vertices g)))
      /\ update_statistics g' = (g', Ok tt)).
Proof.
  unfold update_statistics. cbn [set_counts g_vertices g_edges]. split.
  - intros H. destruct (count_types_returns _ [] H) as [d' ->]. reflexivity.
  - destruct (count_types (g_vertices g) []) as [d' | msg] eqn:E; cbn [snd fst]; [| discriminate].
    intros _. cbn [set_ifc_type_counts set_counts g_vertices g_edges g_vertex_count
                   g_edge_count g_ifc_type_counts].
    repeat split.
    + rewrite (count_types_total _ _ _ E). cbn. lia.
    + rewrite E. reflexivity.
Qed.

(** The theorem at a graph of two walls and a vertex without type. *)
Lemma C9_witness :
  let vertex t := {| v_id := "v"; v_coordinates := (S754_zero false, S754_zero false, S754_zero false);
                     v_dictionaries := ∅; v_ifc_type := t; v_ifc_guid := VNone;
                     v_ifc_name := VNone |} in
  let g := {| g_id := "g";
              g_vertices := [vertex (VStr "IfcWall"); vertex VNone; vertex (VStr "IfcWall")];
              g_edges := [];
              g_file_id := None; g_building_id := None; g_source_file := None;
              g_filename := None; g_building_name := None; g_ifc_file_info := ∅;
              g_processing_method := None;
              g_vertex_count := 0; g_edge_count := 0; g_ifc_type_counts := [] |} in
  let g' := fst (update_statistics g) in
  g_vertices g' = g_vertices g
  /\ g_edges g' = g_edges g
  /\ g_vertex_count g' = 3%Z
  /\ g_edge_count g' = 0%Z
  /\ valdict_total (g_ifc_type_counts g') = Z.of_nat (length (filter counted (g_vertices g)))
  /\ update_statistics g' = (g', Ok tt).
Proof.
  intros vertex g.
  apply (proj2 (C9_update_statistics g)). vm_compute. reflexivity.
Defined.

(** C9 as stated fails: a vertex whose ifc_type is the empty string has a
    non-null ifc_type and is not counted. *)
Lemma C9_counterexample :
  let vertex := {| v_id := "v"; v_coordinates := (S754_zero false, S754_zero false, S754_zero false);
                   v_dictionaries := <["type" := VStr ""]> ∅;
                   v_ifc_type := VStr ""; v_ifc_guid := VNone; v_ifc_name := VNone |} in
  let g := {| g_id := "g"; g_vertices := [vertex]; g_edges := [];
              g_file_id := None; g_building_id := None; g_source_file := None;
              g_filename := None; g_building_name := None; g_ifc_file_info := ∅;
              g_processing_method := None;
              g_vertex_count := 0; g_edge_count := 0; g_ifc_type_counts := [] |} in
  snd (update_statistics g) = Ok tt
  /\ valdict_total (g_ifc_type_counts (fst (update_statistics g))) = 0%Z
  /\ length (filter (fun v => non_null (v_ifc_type v) = true) (g_vertices g)) = 1.
Proof.
  cbn zeta. repeat split.
Qed.

(* ===================================================================== *)
(** * Token URIs *)
(* ===================================================================== *)

Lemma append_nil (b : string) : "" +:+ b = b.
Proof. reflexivity. Qed.

Lemma append_cons (c : ascii) (a b : string) : String c a +:+ b = String c (a +:+ b).
Proof. reflexivity. Qed.

Lemma append_assoc (a b c : string) : (a +:+ b) +:+ c = a +:+ (b +:+ c).
Proof.
  induction a as [| x a IH]; [reflexivity |].
  rewrite !append_cons, IH. reflexivity.
Qed.

Lemma append_empty_r (a : string) : a +:+ "" = a.
Proof.
  induction a as [| x a IH]; [reflexivity |].
  rewrite append_cons, IH. reflexivity.
Qed.

Lemma strip_prefix_append (p s : string) : strip_prefix p (p +:+ s) = Some s.
Proof.
  induction p as [| x p IH]; [destruct s; reflexivity |].
  rewrite append_cons. cbn [strip_prefix].
  rewrite Ascii.eqb_refl. exact IH.
Qed.

Lemma prefix_append (p s : string) : String.prefix p (p +:+ s) = true.
Proof.
  induction p as [| x p IH]; [destruct s; reflexivity |].
  rewrite append_cons. cbn [String.prefix].
  destruct (ascii_dec x x); [exact IH | congruence].
Qed.

Lemma has_char_all_chars (c : ascii) (s : string) :
  has_char c s = false -> all_chars (fun d => negb (Ascii.eqb d c)) s = true.
Proof.
  induction s as [| d s IH]; cbn; [reflexivity |].
  intros H. apply orb_false_elim in H as [Hd Hs].
  rewrite Ascii.eqb_sym, Hd. cbn. apply IH. exact Hs.
Qed.

(** A greedy group takes exactly [a] when every character of [a] is in the
    class, the subject stops or leaves the class right after [a], and the
    rest of the pattern matches from there. *)
Lemma match_plus_exact (cls : ascii -> bool) (k : string -> option (list string))
    (a rest taken : string) (groups : list string) :
  a <> "" ->
  all_chars cls a = true ->
  stops cls rest = true ->
  k rest = Some groups ->
  match_plus cls k taken (a +:+ rest) = Some ((taken +:+ a) :: groups).
Proof.
  intros Ha Hall Hstop Hk. revert taken.
  induction a as [| c a IH]; [congruence |]. intros taken.
  cbn in Hall. apply andb_prop in Hall as [Hc Hall].
  rewrite append_cons. cbn [match_plus]. rewrite Hc.
  destruct a as [| c' a'].
  - rewrite append_nil.
    assert (Hnone : match_plus cls k (taken +:+ String c "") rest = None).
    { destruct rest as [| d rest']; [reflexivity |]. cbn in Hstop |- *.
      apply negb_true_iff in Hstop. rewrite Hstop. reflexivity. }
    rewrite Hnone, Hk. reflexivity.
  - rewrite IH by (congruence || assumption).
    rewrite append_assoc. reflexivity.
Qed.

(** C8, as the code has it. For every token whose kuzu_element_id and
    topologic_vertex_id are non-empty and contain no "/", and whose
    ifc_guid is non-empty and contains no line feed, parsing the kuzu://
    URI produced by generate_token_uri recovers exactly the three
    identifiers. *)
Theorem C8_token_uri_round_trip (urllib : Urllib) (t : IFCComponentToken) :
  kuzu_element_id t <> "" ->
  topologic_vertex_id t <> "" ->
  ifc_guid t <> "" ->
  has_char "/" (kuzu_element_id t) = false ->
  has_char "/" (topologic_vertex_id t) = false ->
  has_char "010" (ifc_guid t) = false ->
  parse_token_uri urllib (generate_token_uri t None)
  = Ok (parsed_uri (kuzu_element_id t) (topologic_vertex_id t) (ifc_guid t)).
Proof.
  intros Hk Ht Hg Sk St Sg.
  apply has_char_all_chars in Sk, St, Sg.
  unfold generate_token_uri, parse_token_uri. cbv beta iota.
  set (K := kuzu_element_id t) in *. set (T := topologic_vertex_id t) in *.
  set (G := ifc_guid t) in *.
  unfold startswith. rewrite prefix_append.
  assert (H3 : re_match [GroupPlus not_newline] G = Some [G]).
  { cbn [re_match]. rewrite <- (append_empty_r G) at 1.
    rewrite (match_plus_exact not_newline _ G "" "" []); try reflexivity; assumption. }
  assert (H2 : re_match [Literal "/ifc/"; GroupPlus not_newline] ("/ifc/" +:+ G) = Some [G]).
  { change (re_match [Literal "/ifc/"; GroupPlus not_newline] ("/ifc/" +:+ G))
      with (match strip_prefix "/ifc/" ("/ifc/" +:+ G) with
            | Some s' => re_match [GroupPlus not_newline] s'
            | None => None
            end).
    rewrite strip_prefix_append. exact H3. }
  assert (H1 : re_match [GroupPlus not_slash; Literal "/ifc/"; GroupPlus not_newline]
                 (T +:+ "/ifc/" +:+ G) = Some [T; G]).
  { cbn [re_match].
    rewrite (match_plus_exact not_slash _ T ("/ifc/" +:+ G) "" [G]);
      try reflexivity; try assumption. }
  assert (H0 : re_match [GroupPlus not_slash; Literal "/topologic/"; GroupPlus not_slash;
                         Literal "/ifc/"; GroupPlus not_newline]
                 (K +:+ "/topologic/" +:+ T +:+ "/ifc/" +:+ G) = Some [K; T; G]).
  { cbn [re_match].
    rewrite (match_plus_exact not_slash _ K ("/topologic/" +:+ T +:+ "/ifc/" +:+ G) "" [T; G]);
      try reflexivity; try assumption. }
  unfold kuzu_pattern.
  change (re_match (Literal "kuzu://" :: ?p) ?s)
    with (match strip_prefix "kuzu://" s with Some s' => re_match p s' | None => None end).
  rewrite strip_prefix_append, H0. reflexivity.
Qed.

(** The theorem at the token of the docstring example. *)
Lemma C8_witness :
  parse_token_uri no_urllib
    (generate_token_uri (token_with_ids "elem123" "vertex456" "guid789") None)
  = Ok (parsed_uri "elem123" "vertex456" "guid789").
Proof.
  apply (C8_token_uri_round_trip no_urllib (token_with_ids "elem123" "vertex456" "guid789"));
    (discriminate || reflexivity).
Defined.

(** C8 as stated fails: an identifier containing "/" gives a URI that the
    parser rejects. *)
Lemma C8_counterexample :
  kuzu_element_id (token_with_ids "wall/1" "vertex456" "guid789") <> ""
  /\ topologic_vertex_id (token_with_ids "wall/1" "vertex456" "guid789") <> ""
  /\ ifc_guid (token_with_ids "wall/1" "vertex456" "guid789") <> ""
  /\ generate_token_uri (token_with_ids "wall/1" "vertex456" "guid789") None
     = "kuzu://wall/1/topologic/vertex456/ifc/guid789"
  /\ parse_token_uri no_urllib
       (generate_token_uri (token_with_ids "wall/1" "vertex456" "guid789") None)
     = Raise "Unable to parse token URI: kuzu://wall/1/topologic/vertex456/ifc/guid789".
Proof.
  repeat split; try discriminate; vm_compute; reflexivity.
Qed.

(* ===================================================================== *)
(** * The fallback chain *)
(* ===================================================================== *)

Lemma extract_graph_data_requests (eng : Engine) (host : Host) (h : handle) (r : Run) :
  run_requests (snd (_extract_graph_data eng host h r)) = run_requests r.
Proof.
  unfold _extract_graph_data.
  destruct (_extract_vertices eng host h _) as [[vertices | msg] drawn]; [| reflexivity].
  destruct (_extract_edges eng host h vertices drawn) as [edges drawn'].
  destruct (update_statistics _) as [graph' [[] | msg]]; reflexivity.
Qed.

Lemma request_then_extract_requests (eng : Engine) (host : Host) (req : IfcRequest)
    (none_message : string) (r : Run) :
  run_requests (snd (request_then_extract eng host req none_message r))
  = run_requests r ++ [req].
Proof.
  unfold request_then_extract, call_ByIFCPath.
  destruct (ByIFCPath eng _ req) as [[h |] | msg]; try reflexivity.
  rewrite extract_graph_data_requests. reflexivity.
Qed.

(** C4, as the code has it. For every processing context, the third
    strategy (traditional_with_types) sends the engine exactly one request,
    for the context's file, with dictionary transfer enabled and with the
    caller's type filter when one was supplied; the hard-coded default set
    of types is substituted only when the caller's filter is empty. *)
Theorem C4_traditional_with_types_request (eng : Engine) (host : Host) (r : Run) :
  run_requests (snd (_process_traditional_with_types eng host r))
  = run_requests r ++
      [ {| req_path := c_file_path (run_context r);
           req_includeTypes :=
             Some (match c_include_types (run_context r) with
                   | [] => default_ifc_types
                   | t :: ts => t :: ts
                   end);
           req_transferDictionaries := true |} ].
Proof.
  unfold _process_traditional_with_types.
  rewrite request_then_extract_requests. unfold list_or.
  destruct (c_include_types (run_context r)); reflexivity.
Qed.

(** C4 as stated fails: with the caller's filter ["IfcSlab"], the request
    of the third strategy carries ["IfcSlab"], not the default set. *)
Lemma C4_counterexample :
  let r := initial_run [] 0 "model.ifc" (config_with_types (Some ["IfcSlab"])) in
  run_requests (snd (_process_traditional_with_types crashing_engine plain_host r))
  = [ {| req_path := "model.ifc"; req_includeTypes := Some ["IfcSlab"];
         req_transferDictionaries := true |} ]
  /\ Some ["IfcSlab"] <> Some default_ifc_types.
Proof.
  cbn zeta. split; [vm_compute; reflexivity | discriminate].
Qed.


Lemma try_strategies_nonempty (l : list (string * strategy)) (r : Run) (graph : TopologicGraph) :
  fst (try_strategies l r) = Some graph -> g_vertices graph <> [].
Proof.
  revert r. induction l as [| [name func] rest IH]; intros r; cbn [try_strategies].
  - discriminate.
  - destruct (name_in name _); [apply IH |].
    destruct (func _) as [[g | e] r2]; [| apply IH].
    destruct (0 <? length (g_vertices g))%nat eqn:E; [| apply IH].
    cbn [fst]. intros [= <-]. apply Nat.ltb_lt in E.
    destruct (g_vertices g); [cbn in E; lia | discriminate].
Qed.

(** C10. For every file path and configuration, a call of
    process_ifc_file does not raise: it returns the triple that
    [process_ifc_file] gives, whatever the engine and the host do; an
    exception that leaves the [try] block is reported in the result, as
    success=False with its text as error detail, and goes no further. And
    whenever the result has success=False the accompanying graph has no
    vertices and no edges, its statistics are zero, and the engine-native
    graph handle is None. *)
Theorem C10_failure_returns_empty_graph (eng : Engine) (host : Host)
    (requests : list IfcRequest) (drawn : nat) (file_path : string)
    (config : ProcessingConfig) :
  let out := process_ifc_file eng host requests drawn file_path config in
  process_ifc_file_call eng host requests drawn file_path config = (Ok (fst out), snd out)
  /\ (forall e,
        fst (process_ifc_file_try eng host file_path
               (initial_run requests drawn file_path config)) = Raise e ->
        success (returned_result out) = false
        /\ error_details (returned_result out) = Some e)
  /\ (success (returned_result out) = false ->
      g_vertices (returned_graph out) = []
      /\ g_edges (returned_graph out) = []
      /\ g_vertex_count (returned_graph out) = 0%Z
      /\ g_edge_count (returned_graph out) = 0%Z
      /\ g_ifc_type_counts (returned_graph out) = []
      /\ returned_handle out = None).
Proof.
  cbn zeta. unfold process_ifc_file_call, process_ifc_file, process_ifc_file_try.
  destruct (_validate_ifc_file host file_path) as [[|] | e0].
  - destruct (_process_with_fallbacks eng host _) as [[graph |] r1].
    + destruct (_calculate_stats host graph file_path) as [graph_stats | e0].
      * split; [reflexivity |]. split; [intros e He; discriminate He |].
        cbn. discriminate.
      * split; [reflexivity |]. split; [| intros _; repeat split].
        intros e [= <-]. split; reflexivity.
    + split; [reflexivity |]. split; [| intros _; repeat split].
      intros e [= <-]. split; reflexivity.
  - split; [reflexivity |]. split; [| intros _; repeat split].
    intros e [= <-]. split; reflexivity.
  - split; [reflexivity |]. split; [| intros _; repeat split].
    intros e [= <-]. split; reflexivity.
Qed.

(** The theorem at an engine whose graph has a vertex with the number 5 as
    IFC_type: the statistics of the extracted graph are refused, and the
    run fails with an empty graph and no handle. *)
Lemma C10_witness :
  let out := process_ifc_file numbered_type_engine plain_host [] 0 "model.ifc"
               (config_with_types None) in
  process_ifc_file_call numbered_type_engine plain_host [] 0 "model.ifc"
    (config_with_types None)
  = (Ok (fst out), snd out)
  /\ success (returned_result out) = false
  /\ error_details (returned_result out) = Some (stats_error plain_host [VInt 5])
  /\ g_vertices (returned_graph out) = []
  /\ g_edges (returned_graph out) = []
  /\ g_vertex_count (returned_graph out) = 0%Z
  /\ g_edge_count (returned_graph out) = 0%Z
  /\ g_ifc_type_counts (returned_graph out) = []
  /\ returned_handle out = None.
Proof.
  destruct (C10_failure_returns_empty_graph numbered_type_engine plain_host [] 0 "model.ifc"
              (config_with_types None)) as (Hcall & Htry & Hfail).
  split; [exact Hcall |].
  destruct (Htry (stats_error plain_host [VInt 5])) as [Hs Hd]; [vm_compute; reflexivity |].
  split; [exact Hs |]. split; [exact Hd |]. exact (Hfail Hs).
Defined.

(* ===================================================================== *)
(** * Export and validation *)
(* ===================================================================== *)

Lemma str_or_nonempty (o : option string) (default : string) :
  default <> "" -> str_or o default <> "".
Proof. intros H. destruct o as [[| c s] |]; cbn; congruence. Qed.

Lemma edges_loop_exported (rows : list (outcome EdgeRow)) (index : gmap string nat)
    (edge_counter : nat) (edges : list (gmap string pyval)) :
  Forall exported_edge edges ->
  Forall exported_edge (edges_loop rows index edge_counter edges).
Proof.
  revert edge_counter edges.
  induction rows as [| [row | e] rows IH]; intros edge_counter edges H; cbn [edges_loop];
    try assumption.
  destruct (index !! er_from_id row) as [from_index |]; [| apply IH; assumption].
  destruct (index !! er_to_id row) as [to_index |]; [| apply IH; assumption].
  apply IH. apply Forall_app. split; [assumption |].
  constructor; [| constructor].
  exists from_index, to_index, (str_or (er_connection_type row) "topological"),
    (er_properties row), edge_counter.
  split; [apply str_or_nonempty; discriminate | reflexivity].
Qed.

Lemma get_edges_exported (store : Store) (file_id : string) (index : gmap string nat) :
  Forall exported_edge (_get_edges_for_file store file_id index).
Proof.
  unfold _get_edges_for_file.
  destruct (execute_edges (connection store) file_id); [| constructor].
  apply edges_loop_exported. constructor.
Qed.

Lemma exported_edge_lookups (edge : gmap string pyval) :
  exported_edge edge ->
  edge !! "fromKuzuId" = None
  /\ edge !! "toKuzuId" = None
  /\ missing_or_falsy edge "connectionType" = false.
Proof.
  intros (i & j & c & p & n & Hc & ->). unfold missing_or_falsy, graph_edge.
  repeat split; try reflexivity.
  change (negb (truthy (VStr c)) = false). cbn.
  destruct c; [congruence | reflexivity].
Qed.

Lemma validate_edges_exported (edges : list (gmap string pyval)) (idx : nat)
    (kuzu_ids : list pyval) (errors : list ValidationError) :
  Forall exported_edge edges ->
  validate_edges edges idx kuzu_ids errors = Ok errors.
Proof.
  intros H. revert idx errors.
  induction H as [| edge edges He _ IH]; intros idx errors; cbn [validate_edges].
  - reflexivity.
  - destruct (exported_edge_lookups edge He) as (-> & -> & ->).
    cbn [endpoint_errors bind]. rewrite !app_nil_r. apply IH.
Qed.

Lemma validate_edges_extends (edges : list (gmap string pyval)) (idx : nat)
    (kuzu_ids : list pyval) (errors final : list ValidationError) :
  validate_edges edges idx kuzu_ids errors = Ok final ->
  exists more, final = errors ++ more.
Proof.
  revert idx errors.
  induction edges as [| edge rest IH]; intros idx errors; cbn [validate_edges].
  - intros [= <-]. exists []. rewrite app_nil_r. reflexivity.
  - destruct (endpoint_errors _ (edge !! "fromKuzuId") kuzu_ids) as [e1 | m]; cbn [bind];
      [| discriminate].
    destruct (endpoint_errors _ (edge !! "toKuzuId") kuzu_ids) as [e2 | m]; cbn [bind];
      [| discriminate].
    intros H. apply IH in H as [more ->]. eexists. rewrite <- app_assoc. reflexivity.
Qed.

(** On the keys it reads, the validator does report an unknown endpoint:
    an edge whose fromKuzuId is a non-empty string that is not among the
    collected identifiers gets its message. *)
Lemma validate_edges_reports_unknown_from (edge : gmap string pyval)
    (rest : list (gmap string pyval)) (idx : nat) (kuzu_ids : list pyval)
    (errors final : list ValidationError) (from_id : string) :
  edge !! "fromKuzuId" = Some (VStr from_id) ->
  from_id <> "" ->
  existsb (py_eqb (VStr from_id)) kuzu_ids = false ->
  validate_edges (edge :: rest) idx kuzu_ids errors = Ok final ->
  FromNotFound idx (VStr from_id) ∈ final.
Proof.
  intros Hfrom Hne Hmem. cbn [validate_edges]. rewrite Hfrom.
  unfold endpoint_errors at 1. cbn [truthy].
  destruct from_id as [| c from_id']; [congruence |].
  cbn [String.eqb negb]. unfold set_mem. cbn [hashable bind]. rewrite Hmem.
  destruct (endpoint_errors _ (edge !! "toKuzuId") kuzu_ids) as [e2 | m]; cbn [bind];
    [| discriminate].
  intros H. apply validate_edges_extends in H as [more ->].
  rewrite !elem_of_app. left. right. left. apply list_elem_of_here.
Qed.

(** C2 fails on the code. The edges that _get_edges_for_file builds carry
    fromIndex and toIndex and no fromKuzuId or toKuzuId, which are the
    keys validate_export_data reads: validation never adds a message for
    an exported edge, whatever node identifiers were collected. At the
    failing input, the node of "vertex-1" alone with the exported edge
    from index 0 to index 1 (an element that is not among the nodes) is
    reported valid, with no error. *)
Theorem C2_exported_edges_are_never_checked :
  (forall (store : Store) (file_id : string) (index : gmap string nat)
          (idx : nat) (kuzu_ids : list pyval) (errors : list ValidationError),
      validate_edges (_get_edges_for_file store file_id index) idx kuzu_ids errors
      = Ok errors)
  /\ (exists node : gmap string pyval,
        _convert_vertex_to_graph_node
          (stored_element "vertex-1" "IfcProject"
             (S754_zero false) (S754_zero false) (S754_zero false)) "file-123" = Ok node
        /\ node !! "kuzuElementId" = Some (VStr "vertex-1")
        /\ graph_edge 0 1 "topological" None 0 !! "toIndex" = Some (VInt 1)
        /\ graph_edge 0 1 "topological" None 0 !! "fromKuzuId" = None
        /\ graph_edge 0 1 "topological" None 0 !! "toKuzuId" = None
        /\ validate_export_data [node] [graph_edge 0 1 "topological" None 0]
           = Ok (true, [])).
Proof.
  split.
  - intros store file_id index idx kuzu_ids errors.
    apply validate_edges_exported, get_edges_exported.
  - eexists. split; [vm_compute; reflexivity |].
    repeat split; vm_compute; reflexivity.
Qed.





(* ===================================================================== *)
(** * The fallback chain: what a run leaves behind *)
(* ===================================================================== *)

Lemma settings_kept_refl (c : IFCProcessingContext) : settings_kept c c.
Proof. unfold settings_kept. auto. Qed.

Lemma settings_kept_trans (a b c : IFCProcessingContext) :
  settings_kept a b -> settings_kept b c -> settings_kept a c.
Proof.
  intros (H1 & H2 & H3 & H4 & H5) (K1 & K2 & K3 & K4 & K5).
  unfold settings_kept. repeat split; congruence.
Qed.

Lemma extract_edges_loop_closed (host : Host) (graph_edges : list (outcome EngineEdge))
    (vertices : list TopologicVertex) (drawn : nat) (edges : list TopologicEdge) :
  Forall (fun e => e_start_vertex_id e ∈ (v_id <$> vertices)
                   /\ e_end_vertex_id e ∈ (v_id <$> vertices)) edges ->
  Forall (fun e => e_start_vertex_id e ∈ (v_id <$> vertices)
                   /\ e_end_vertex_id e ∈ (v_id <$> vertices))
         (fst (extract_edges_loop host graph_edges vertices drawn edges)).
Proof.
  revert drawn edges.
  induction graph_edges as [| [edge | e] rest IH]; intros drawn edges H;
    cbn [extract_edges_loop]; try assumption.
  destruct (ee_endpoints edge) as [| p0 [| p1 ps]]; try (apply IH; assumption).
  destruct (_find_vertex_index p0 vertices) as [i |]; [| apply IH; assumption].
  destruct (_find_vertex_index p1 vertices) as [j |]; [| apply IH; assumption].
  destruct (vertices !! i) as [vs |] eqn:Ei; [| assumption].
  destruct (vertices !! j) as [ve |] eqn:Ej; [| assumption].
  apply IH. apply Forall_app. split; [assumption |].
  constructor; [| constructor]. cbn. split.
  - apply list_elem_of_fmap. exists vs. split; [reflexivity |].
    apply list_elem_of_lookup. eauto.
  - apply list_elem_of_fmap. exists ve. split; [reflexivity |].
    apply list_elem_of_lookup. eauto.
Qed.

Lemma extract_edges_closed (eng : Engine) (host : Host) (h : handle)
    (vertices : list TopologicVertex) (drawn : nat) :
  Forall (fun e => e_start_vertex_id e ∈ (v_id <$> vertices)
                   /\ e_end_vertex_id e ∈ (v_id <$> vertices))
         (fst (_extract_edges eng host h vertices drawn)).
Proof.
  unfold _extract_edges. destruct (Graph_Edges eng h); [| constructor].
  apply extract_edges_loop_closed. constructor.
Qed.

Lemma extract_graph_data_ok (eng : Engine) (host : Host) (h : handle) (r : Run) :
  settings_kept (run_context r) (run_context (snd (_extract_graph_data eng host h r)))
  /\ c_original_topologic_graph (run_context (snd (_extract_graph_data eng host h r)))
     = Some h
  /\ (forall graph, fst (_extract_graph_data eng host h r) = Ok graph ->
        extracted_in r graph).
Proof.
  unfold _extract_graph_data.
  destruct (_extract_vertices eng host h _) as [[vertices | msg] drawn].
  2: { split; [unfold settings_kept; cbn; auto |]. split; [reflexivity |].
       intros g Hg. cbn in Hg. discriminate. }
  pose proof (extract_edges_closed eng host h vertices drawn) as Hclosed.
  destruct (_extract_edges eng host h vertices drawn) as [edges drawn'].
  cbn [fst] in Hclosed.
  unfold update_statistics. cbn [set_counts g_vertices g_edges].
  destruct (count_types vertices []) as [counts | msg].
  2: { split; [unfold settings_kept; cbn; auto |]. split; [reflexivity |].
       intros g Hg. cbn in Hg. discriminate. }
  split; [unfold settings_kept; cbn; auto |]. split; [reflexivity |].
  cbn [fst]. intros g [= <-]. unfold extracted_in, edges_closed. cbn.
  repeat split; try reflexivity. exact Hclosed.
Qed.

(** X1. The graph that _extract_graph_data returns is closed: the two
    endpoint ids of every extracted edge are ids of extracted vertices;
    and its statistics agree with its lists. *)
Theorem extracted_graph_edges_reference_vertices (eng : Engine) (host : Host)
    (h : handle) (r : Run) (graph : TopologicGraph) :
  fst (_extract_graph_data eng host h r) = Ok graph ->
  (forall e, e ∈ g_edges graph ->
     (exists vs, vs ∈ g_vertices graph /\ v_id vs = e_start_vertex_id e)
     /\ (exists ve, ve ∈ g_vertices graph /\ v_id ve = e_end_vertex_id e))
  /\ g_vertex_count graph = Z.of_nat (length (g_vertices graph))
  /\ g_edge_count graph = Z.of_nat (length (g_edges graph)).
Proof.
  intros H. destruct (extract_graph_data_ok eng host h r) as (_ & _ & Hok).
  destruct (Hok graph H) as (Hv & He & _ & _ & Hclosed).
  split; [| split; assumption].
  intros e Hin. unfold edges_closed in Hclosed.
  rewrite Forall_forall in Hclosed. destruct (Hclosed e Hin) as [Hs Ht].
  apply list_elem_of_fmap in Hs as (vs & Es & Hvs).
  apply list_elem_of_fmap in Ht as (ve & Ee & Hve).
  split; [exists vs | exists ve]; split; congruence.
Qed.

(** The theorem at the engine whose graph has one wall and one edge from
    the wall to itself. *)
Lemma extracted_graph_edges_reference_vertices_witness :
  exists graph,
    fst (_extract_graph_data one_wall_engine plain_host 7
           (initial_run [] 0 "model.ifc" (config_with_types None))) = Ok graph
    /\ length (g_edges graph) = 1
    /\ (forall e, e ∈ g_edges graph ->
          (exists vs, vs ∈ g_vertices graph /\ v_id vs = e_start_vertex_id e)
          /\ (exists ve, ve ∈ g_vertices graph /\ v_id ve = e_end_vertex_id e)).
Proof.
  destruct (fst (_extract_graph_data one_wall_engine plain_host 7
                   (initial_run [] 0 "model.ifc" (config_with_types None))))
    as [graph | msg] eqn:E; [| vm_compute in E; discriminate].
  exists graph. split; [reflexivity |]. split.
  - vm_compute in E. injection E as <-. reflexivity.
  - apply (extracted_graph_edges_reference_vertices one_wall_engine plain_host 7
             (initial_run [] 0 "model.ifc" (config_with_types None)) graph E).
Defined.

Lemma extracted_in_same_context (r r' : Run) (graph : TopologicGraph) :
  run_context r' = run_context r -> extracted_in r' graph -> extracted_in r graph.
Proof. unfold extracted_in. intros ->. auto. Qed.

Lemma request_then_extract_ok (eng : Engine) (host : Host)
    (mk : IFCProcessingContext -> IfcRequest) (none_message : string) :
  strategy_ok (fun r => request_then_extract eng host (mk (run_context r)) none_message r).
Proof.
  intros r. unfold request_then_extract, call_ByIFCPath. cbv beta.
  destruct (ByIFCPath eng _ _) as [[h |] | msg]; cbv beta iota.
  - match goal with |- context [_extract_graph_data eng host h ?x] => set (r1 := x) end.
    destruct (extract_graph_data_ok eng host h r1) as (Hk & Hh & Hok).
    split; [exact Hk |]. split.
    + eexists. rewrite (extract_graph_data_requests eng host h r1). subst r1. cbn [run_requests].
      reflexivity.
    + intros g Hg. split; [| eauto].
      apply (extracted_in_same_context r r1); [reflexivity | auto].
  - split; [apply settings_kept_refl |]. split; [eexists; reflexivity |].
    intros g Hg. cbn in Hg. discriminate.
  - split; [apply settings_kept_refl |]. split; [eexists; reflexivity |].
    intros g Hg. cbn in Hg. discriminate.
Qed.

Lemma direct_with_dictionaries_ok (eng : Engine) (host : Host) :
  strategy_ok (_process_direct_with_dictionaries eng host).
Proof.
  intros r. unfold _process_direct_with_dictionaries.
  destruct (log_probe host _) as [[] | msg].
  2: { split; [apply settings_kept_refl |]. split; [exists []; rewrite app_nil_r; reflexivity |].
       intros g Hg. cbn in Hg. discriminate. }
  unfold call_ByIFCPath. cbv beta.
  destruct (ByIFCPath eng (length (run_requests r)) _) as [[h |] | msg]; cbv beta iota.
  - match goal with |- context [_extract_graph_data eng host h ?x] => set (r1 := x) end.
    destruct (extract_graph_data_ok eng host h r1) as (Hk & Hh & Hok).
    split; [exact Hk |]. split.
    + eexists. rewrite (extract_graph_data_requests eng host h r1). subst r1. cbn [run_requests].
      reflexivity.
    + intros g Hg. split; [| eauto].
      apply (extracted_in_same_context r r1); [reflexivity | auto].
  - cbn [run_requests run_context run_uuids].
    destruct (ByIFCPath eng _ _) as [[h |] | msg]; cbv beta iota.
    + match goal with |- context [_extract_graph_data eng host h ?x] => set (r1 := x) end.
      destruct (extract_graph_data_ok eng host h r1) as (Hk & Hh & Hok).
      split; [exact Hk |]. split.
      * eexists. rewrite (extract_graph_data_requests eng host h r1). subst r1. cbn [run_requests].
        rewrite <- app_assoc. reflexivity.
      * intros g Hg. split; [| eauto].
        apply (extracted_in_same_context r r1); [reflexivity | auto].
    + split; [apply settings_kept_refl |]. split.
      * eexists. cbn [snd run_requests]. rewrite <- app_assoc. reflexivity.
      * intros g Hg. cbn in Hg. discriminate.
    + split; [apply settings_kept_refl |]. split.
      * eexists. cbn [snd run_requests]. rewrite <- app_assoc. reflexivity.
      * intros g Hg. cbn in Hg. discriminate.
  - split; [apply settings_kept_refl |]. split; [eexists; reflexivity |].
    intros g Hg. cbn in Hg. discriminate.
Qed.

Lemma strategies_ok (eng : Engine) (host : Host) :
  Forall (fun p => strategy_ok (snd p)) (strategies eng host).
Proof.
  unfold strategies.
  constructor; [exact (direct_with_dictionaries_ok eng host) |].
  constructor;
    [exact (request_then_extract_ok eng host
              (fun c => {| req_path := c_file_path c;
                           req_includeTypes := list_or_None (c_include_types c);
                           req_transferDictionaries := false |})
              "Graph.ByIFCPath without dictionaries returned None") |].
  constructor;
    [exact (request_then_extract_ok eng host
              (fun c => {| req_path := c_file_path c;
                           req_includeTypes :=
                             Some (list_or (c_include_types c) default_ifc_types);
                           req_transferDictionaries := true |})
              "Traditional processing with types failed") |].
  constructor;
    [exact (request_then_extract_ok eng host
              (fun c => {| req_path := c_file_path c;
                           req_includeTypes := None;
                           req_transferDictionaries := false |})
              "All fallback methods failed") |].
  constructor.
Qed.

Lemma try_strategies_success (l : list (string * strategy)) (r r' : Run)
    (graph : TopologicGraph) :
  Forall (fun p => strategy_ok (snd p)) l ->
  try_strategies l r = (Some graph, r') ->
  g_vertices graph <> []
  /\ g_vertex_count graph = Z.of_nat (length (g_vertices graph))
  /\ g_edge_count graph = Z.of_nat (length (g_edges graph))
  /\ edges_closed graph
  /\ (exists name, name ∈ (fst <$> l)
        /\ g_processing_method graph = Some name
        /\ c_current_method (run_context r') = Some name)
  /\ (exists h, c_original_topologic_graph (run_context r') = Some h).
Proof.
  intros Hl. revert r. induction Hl as [| [name func] rest Hf _ IH]; intros r;
    cbn [try_strategies]; [discriminate |].
  assert (Hrest : forall r0,
            try_strategies rest r0 = (Some graph, r') ->
            g_vertices graph <> []
            /\ g_vertex_count graph = Z.of_nat (length (g_vertices graph))
            /\ g_edge_count graph = Z.of_nat (length (g_edges graph))
            /\ edges_closed graph
            /\ (exists n, n ∈ (fst <$> (name, func) :: rest)
                  /\ g_processing_method graph = Some n
                  /\ c_current_method (run_context r') = Some n)
            /\ (exists h, c_original_topologic_graph (run_context r') = Some h)).
  { intros r0 H0. destruct (IH r0 H0) as (A & B & C & D & (n & Hn & E1 & E2) & F).
    repeat split; try assumption. exists n. split; [| auto].
    cbn. apply list_elem_of_further. exact Hn. }
  destruct (name_in name _); [apply Hrest |].
  cbn [snd] in Hf.
  set (r1 := with_context r (fun c => begin_attempt c name)).
  destruct (Hf r1) as (Hk & _ & Hok).
  destruct (func r1) as [[g | e] r2]; [| apply Hrest].
  destruct (0 <? length (g_vertices g))%nat eqn:E; [| apply Hrest].
  intros [= <- <-]. cbn [fst snd] in *.
  destruct (Hok g eq_refl) as ((Hv & He & Hm & _ & Hc) & Hh).
  destruct Hk as (_ & _ & _ & _ & Hcur).
  apply Nat.ltb_lt in E.
  split; [destruct (g_vertices g); [cbn in E; lia | discriminate] |].
  repeat split; try assumption.
  exists name. split; [cbn; apply list_elem_of_here |].
  split; [rewrite Hm | rewrite Hcur]; reflexivity.
Qed.

(** X2. Whenever process_ifc_file reports success, the returned graph has
    at least one vertex, its counts agree with its lists, every edge joins
    two of its vertices, its processing_method is the name of one of the
    four strategies and is the one the message names, and the engine
    handle is not None. *)
Theorem successful_run_returns_populated_graph (eng : Engine) (host : Host)
    (requests : list IfcRequest) (drawn : nat) (file_path : string)
    (config : ProcessingConfig) :
  let out := process_ifc_file eng host requests drawn file_path config in
  success (returned_result out) = true ->
  g_vertices (returned_graph out) <> []
  /\ g_vertex_count (returned_graph out) = Z.of_nat (length (g_vertices (returned_graph out)))
  /\ g_edge_count (returned_graph out) = Z.of_nat (length (g_edges (returned_graph out)))
  /\ edges_closed (returned_graph out)
  /\ (exists name, name ∈ strategy_names
        /\ g_processing_method (returned_graph out) = Some name
        /\ message (returned_result out)
           = "Successfully processed IFC file using " +:+ name)
  /\ error_details (returned_result out) = None
  /\ returned_handle out <> None.
Proof.
  cbn zeta. unfold process_ifc_file.
  destruct (_validate_ifc_file host file_path) as [[|] | e];
    try (cbn; discriminate).
  unfold _process_with_fallbacks.
  destruct (try_strategies (strategies eng host) _) as [[graph |] r1] eqn:E;
    try (cbn; discriminate).
  destruct (_calculate_stats host graph file_path) as [graph_stats | e];
    try (cbn; discriminate).
  intros _.
  destruct (try_strategies_success _ _ _ _ (strategies_ok eng host) E)
    as (A & B & C & D & (name & Hn & E1 & E2) & (h & Hh)).
  unfold returned_graph, returned_result, returned_handle. cbn.
  repeat split; try assumption.
  - exists name. split; [exact Hn |]. split; [exact E1 |].
    rewrite E2. reflexivity.
  - rewrite Hh. discriminate.
Qed.

(** The theorem at the engine that answers with a graph of one wall. *)
Lemma successful_run_returns_populated_graph_witness :
  let out := process_ifc_file one_wall_engine plain_host [] 0 "model.ifc"
               (config_with_types None) in
  g_vertices (returned_graph out) <> []
  /\ g_vertex_count (returned_graph out) = Z.of_nat (length (g_vertices (returned_graph out)))
  /\ g_edge_count (returned_graph out) = Z.of_nat (length (g_edges (returned_graph out)))
  /\ edges_closed (returned_graph out)
  /\ (exists name, name ∈ strategy_names
        /\ g_processing_method (returned_graph out) = Some name
        /\ message (returned_result out)
           = "Successfully processed IFC file using " +:+ name)
  /\ error_details (returned_result out) = None
  /\ returned_handle out <> None.
Proof.
  apply (successful_run_returns_populated_graph one_wall_engine plain_host [] 0
           "model.ifc" (config_with_types None)).
  vm_compute. reflexivity.
Defined.

(** X3. File validation fails fast: when the path does not exist or its
    suffix is not ".ifc" in any letter case, process_ifc_file sends no
    request to the engine and returns success=False with the detail
    "Invalid IFC file: <path>". *)
Theorem invalid_file_fails_before_any_request (eng : Engine) (host : Host)
    (requests : list IfcRequest) (drawn : nat) (file_path : string)
    (config : ProcessingConfig) (present : bool) :
  path_exists host file_path = Ok present ->
  present = false \/ lower (path_suffix host file_path) <> ".ifc" ->
  let out := process_ifc_file eng host requests drawn file_path config in
  run_requests (snd out) = requests
  /\ success (returned_result out) = false
  /\ error_details (returned_result out) = Some ("Invalid IFC file: " +:+ file_path)
  /\ message (returned_result out)
     = "Failed to process IFC file: Invalid IFC file: " +:+ file_path
  /\ returned_handle out = None.
Proof.
  intros Hex Hbad. cbn zeta. unfold process_ifc_file, _validate_ifc_file.
  rewrite Hex. cbn [bind].
  assert (Hv : present && (lower (path_suffix host file_path) =? ".ifc")%string = false).
  { destruct Hbad as [-> | Hs]; [reflexivity |].
    apply andb_false_iff. right. apply String.eqb_neq. exact Hs. }
  rewrite Hv. repeat split.
Qed.

(** The theorem at a host on which no path exists. *)
Lemma invalid_file_fails_before_any_request_witness :
  let out := process_ifc_file one_wall_engine empty_host [] 0 "missing.ifc"
               (config_with_types None) in
  run_requests (snd out) = []
  /\ success (returned_result out) = false
  /\ error_details (returned_result out) = Some "Invalid IFC file: missing.ifc"
  /\ message (returned_result out)
     = "Failed to process IFC file: Invalid IFC file: missing.ifc"
  /\ returned_handle out = None.
Proof.
  apply (invalid_file_fails_before_any_request one_wall_engine empty_host [] 0
           "missing.ifc" (config_with_types None) false).
  - reflexivity.
  - left. reflexivity.
Defined.

Lemma name_in_false (name : string) (l : list string) :
  name_in name l = false <-> name ∉ l.
Proof.
  unfold name_in. induction l as [| x l IH]; cbn.
  - split; [intros _ H; inversion H | reflexivity].
  - rewrite orb_false_iff, IH, not_elem_of_cons, String.eqb_neq. reflexivity.
Qed.

Lemma try_strategies_exhausted (l : list (string * strategy)) (r r' : Run) :
  Forall (fun p => strategy_ok (snd p)) l ->
  NoDup (fst <$> l) ->
  (forall n, n ∈ (fst <$> l) -> n ∉ c_attempted_methods (run_context r)) ->
  try_strategies l r = (None, r') ->
  c_attempted_methods (run_context r')
  = c_attempted_methods (run_context r) ++ (fst <$> l).
Proof.
  intros Hl. revert r. induction Hl as [| [name func] rest Hf _ IH]; intros r Hnd Hfresh;
    cbn [try_strategies].
  - intros [= <-]. cbn. rewrite app_nil_r. reflexivity.
  - cbn [fmap list_fmap fst] in Hnd, Hfresh. apply NoDup_cons in Hnd as [Hname Hnd].
    assert (Hn : name_in name (c_attempted_methods (run_context r)) = false).
    { apply name_in_false. apply Hfresh. apply list_elem_of_here. }
    rewrite Hn. cbn [snd] in Hf.
    set (r1 := with_context r (fun c => begin_attempt c name)).
    destruct (Hf r1) as ((_ & _ & Hatt & _ & _) & _ & _).
    assert (Hnext : forall r2,
              c_attempted_methods (run_context r2)
              = c_attempted_methods (run_context r) ++ [name] ->
              try_strategies rest r2 = (None, r') ->
              c_attempted_methods (run_context r')
              = c_attempted_methods (run_context r) ++ name :: (fst <$> rest)).
    { intros r2 H2 Htry. rewrite (IH r2 Hnd); [| | exact Htry].
      - rewrite H2, <- app_assoc. reflexivity.
      - intros n Hin. rewrite H2. rewrite not_elem_of_app. split.
        + apply Hfresh. apply list_elem_of_further. exact Hin.
        + rewrite list_elem_of_singleton. intros ->. contradiction. }
    destruct (func r1) as [[g | e] r2]; cbn [snd] in Hatt.
    + destruct (0 <? length (g_vertices g))%nat; [discriminate |].
      apply Hnext. exact Hatt.
    + apply Hnext. cbn. exact Hatt.
Qed.

Lemma try_strategies_all_attempted (l : list (string * strategy)) (r : Run) :
  (forall n, n ∈ (fst <$> l) -> n ∈ c_attempted_methods (run_context r)) ->
  try_strategies l r = (None, r).
Proof.
  induction l as [| [name func] rest IH]; intros H; cbn [try_strategies]; [reflexivity |].
  destruct (name_in name (c_attempted_methods (run_context r))) eqn:E.
  - apply IH. intros n Hn. apply H. cbn. apply list_elem_of_further. exact Hn.
  - apply name_in_false in E. exfalso. apply E, H. cbn. apply list_elem_of_here.
Qed.

Lemma strategy_names_fst (eng : Engine) (host : Host) :
  fst <$> strategies eng host = strategy_names.
Proof. reflexivity. Qed.

Lemma strategy_names_nodup : NoDup strategy_names.
Proof.
  unfold strategy_names.
  repeat (apply NoDup_cons; split; [rewrite ?elem_of_cons, elem_of_nil;
                                    intros H; repeat destruct H as [H | H];
                                    try discriminate H; exact H |]).
  apply NoDup_nil. constructor.
Qed.

(** X4. When _process_with_fallbacks gives up on a context that had
    attempted nothing, it has attempted exactly the four strategies, each
    once, in the order direct_with_dictionaries,
    direct_without_dictionaries, traditional_with_types,
    traditional_fallback; and calling it again on the context it leaves
    attempts nothing more: it returns None at once and sends no request. *)
Theorem exhausted_chain_attempted_all_in_order (eng : Engine) (host : Host) (r : Run) :
  c_attempted_methods (run_context r) = [] ->
  fst (_process_with_fallbacks eng host r) = None ->
  let r' := snd (_process_with_fallbacks eng host r) in
  c_attempted_methods (run_context r') = strategy_names
  /\ _process_with_fallbacks eng host r' = (None, r').
Proof.
  intros Hfresh Hnone. cbn zeta. unfold _process_with_fallbacks in *.
  destruct (try_strategies (strategies eng host) r) as [[g |] r'] eqn:E; [discriminate |].
  cbn [snd].
  assert (Hatt : c_attempted_methods (run_context r') = strategy_names).
  { rewrite (try_strategies_exhausted _ _ _ (strategies_ok eng host)
               ltac:(rewrite strategy_names_fst; apply strategy_names_nodup)
               ltac:(intros n _; rewrite Hfresh; apply not_elem_of_nil) E).
    rewrite Hfresh, strategy_names_fst. reflexivity. }
  split; [exact Hatt |].
  apply try_strategies_all_attempted. intros n Hn.
  rewrite Hatt, <- (strategy_names_fst eng host). exact Hn.
Qed.

(** The theorem at the engine that throws on every request. *)
Lemma exhausted_chain_attempted_all_in_order_witness :
  let r := initial_run [] 0 "model.ifc" (config_with_types None) in
  let r' := snd (_process_with_fallbacks crashing_engine plain_host r) in
  c_attempted_methods (run_context r') = strategy_names
  /\ _process_with_fallbacks crashing_engine plain_host r' = (None, r').
Proof.
  apply (exhausted_chain_attempted_all_in_order crashing_engine plain_host
           (initial_run [] 0 "model.ifc" (config_with_types None)));
    vm_compute; reflexivity.
Defined.

(* ===================================================================== *)
(** * The fallback chain: when every strategy fails *)
(* ===================================================================== *)





(* ===================================================================== *)
(** * Resolving edge endpoints by coordinates *)
(* ===================================================================== *)

Lemma find_from_first (target : coords) (vertices : list TopologicVertex) (start i : nat) :
  find_from target vertices start = Some i ->
  exists k vertex,
    i = start + k
    /\ vertices !! k = Some vertex
    /\ _coordinates_match (v_coordinates vertex) target default_tolerance = true
    /\ forall j earlier, j < k -> vertices !! j = Some earlier ->
         _coordinates_match (v_coordinates earlier) target default_tolerance = false.
Proof.
  revert start. induction vertices as [| v rest IH]; intros start; cbn [find_from];
    [discriminate |].
  destruct (_coordinates_match (v_coordinates v) target default_tolerance) eqn:E.
  - intros [= <-]. exists 0, v. repeat split; [lia | assumption |].
    intros j earlier Hj. lia.
  - intros H. destruct (IH _ H) as (k & vertex & -> & Hk & Hm & Hfirst).
    exists (S k), vertex. repeat split; [lia | assumption | assumption |].
    intros [| j] earlier Hj Hlook.
    + cbn in Hlook. injection Hlook as <-. exact E.
    + cbn in Hlook. apply (Hfirst j); [lia | exact Hlook].
Qed.

Lemma find_from_none (target : coords) (vertices : list TopologicVertex) (start : nat) :
  find_from target vertices start = None <->
  forall vertex, vertex ∈ vertices ->
    _coordinates_match (v_coordinates vertex) target default_tolerance = false.
Proof.
  revert start. induction vertices as [| v rest IH]; intros start; cbn [find_from].
  - split; [intros _ vertex H; inversion H | reflexivity].
  - destruct (_coordinates_match (v_coordinates v) target default_tolerance) eqn:E.
    + split; [discriminate |]. intros H.
      specialize (H v (list_elem_of_here _ _)). congruence.
    + rewrite IH. split.
      * intros H vertex Hin. apply elem_of_cons in Hin as [-> | Hin]; auto.
      * intros H vertex Hin. apply H. apply list_elem_of_further. exact Hin.
Qed.

(** X5. _find_vertex_index resolves an endpoint to the first vertex, in
    list order, whose coordinates match it: the index it returns is in
    range, that vertex matches and no earlier vertex does; and it returns
    None exactly when no vertex matches. *)
Theorem find_vertex_index_is_first_match (target : coords)
    (vertices : list TopologicVertex) :
  (forall i, _find_vertex_index target vertices = Some i ->
     exists vertex,
       vertices !! i = Some vertex
       /\ _coordinates_match (v_coordinates vertex) target default_tolerance = true
       /\ forall j earlier, j < i -> vertices !! j = Some earlier ->
            _coordinates_match (v_coordinates earlier) target default_tolerance = false)
  /\ (_find_vertex_index target vertices = None <->
      forall vertex, vertex ∈ vertices ->
        _coordinates_match (v_coordinates vertex) target default_tolerance = false).
Proof.
  unfold _find_vertex_index. split.
  - intros i H. destruct (find_from_first _ _ _ _ H) as (k & vertex & -> & Hk & Hm & Hf).
    exists vertex. cbn. auto.
  - apply find_from_none.
Qed.

(** The theorem at two vertices with the same coordinates: the first one
    is found. *)
Lemma find_vertex_index_is_first_match_witness :
  exists vertex,
    [typed_vertex "a" VNone; typed_vertex "b" VNone] !! 0 = Some vertex
    /\ _coordinates_match (v_coordinates vertex)
         (S754_zero false, S754_zero false, S754_zero false) default_tolerance = true
    /\ forall j earlier, j < 0 ->
         [typed_vertex "a" VNone; typed_vertex "b" VNone] !! j = Some earlier ->
         _coordinates_match (v_coordinates earlier)
           (S754_zero false, S754_zero false, S754_zero false) default_tolerance = false.
Proof.
  apply (proj1 (find_vertex_index_is_first_match
                  (S754_zero false, S754_zero false, S754_zero false)
                  [typed_vertex "a" VNone; typed_vertex "b" VNone]) 0).
  vm_compute. reflexivity.
Defined.

Lemma f64_sub_self (x : spec_float) :
  is_finite x = true -> f64_sub x x = S754_zero false.
Proof.
  destruct x as [s | s | | s m e]; cbn; intros H; try discriminate.
  - destruct s; reflexivity.
  - rewrite Z.sub_diag. reflexivity.
Qed.

Lemma coordinate_within_tolerance_of_itself (x : spec_float) :
  is_finite x = true -> SFltb (SFabs (f64_sub x x)) default_tolerance = true.
Proof. intros H. rewrite (f64_sub_self x H). vm_compute. reflexivity. Qed.

Lemma nan_matches_nothing (a b : spec_float) :
  is_nan a = true \/ is_nan b = true ->
  SFltb (SFabs (f64_sub a b)) default_tolerance = false.
Proof.
  intros [H | H].
  - destruct a; try discriminate. reflexivity.
  - destruct b; try discriminate. destruct a; reflexivity.
Qed.

(** X6. A vertex with finite coordinates is always found from its own
    coordinates (at its own index or at an earlier vertex that matches
    them), so an engine edge whose endpoints carry the coordinates of
    extracted vertices is never dropped for that reason; whereas target
    coordinates with a NaN component match no vertex at all. *)
Theorem endpoint_resolution_by_coordinates (vertices : list TopologicVertex) :
  (forall k vertex,
     vertices !! k = Some vertex ->
     finite_coords (v_coordinates vertex) = true ->
     exists i, _find_vertex_index (v_coordinates vertex) vertices = Some i /\ i <= k)
  /\ (forall target,
        has_nan target = true -> _find_vertex_index target vertices = None).
Proof.
  split.
  - intros k vertex Hk Hfin.
    assert (Hself : _coordinates_match (v_coordinates vertex) (v_coordinates vertex)
                      default_tolerance = true).
    { destruct (v_coordinates vertex) as [[x y] z]. cbn in Hfin.
      apply andb_prop in Hfin as [Hxy Hz]. apply andb_prop in Hxy as [Hx Hy].
      unfold _coordinates_match.
      rewrite !coordinate_within_tolerance_of_itself by assumption. reflexivity. }
    destruct (_find_vertex_index (v_coordinates vertex) vertices) as [i |] eqn:E.
    + exists i. split; [reflexivity |].
      unfold _find_vertex_index in E.
      destruct (find_from_first _ _ _ _ E) as (k' & v' & -> & _ & _ & Hfirst).
      cbn. destruct (Nat.le_gt_cases k' k) as [Hle | Hgt]; [exact Hle |].
      specialize (Hfirst k vertex Hgt Hk). congruence.
    + exfalso. pose proof (proj1 (find_from_none _ _ 0) E vertex) as Hn.
      rewrite Hn in Hself; [discriminate |].
      apply list_elem_of_lookup. eauto.
  - intros target Hnan. apply find_from_none. intros vertex _.
    destruct (v_coordinates vertex) as [[a1 a2] a3]. destruct target as [[b1 b2] b3].
    cbn in Hnan. unfold _coordinates_match.
    apply orb_prop in Hnan as [Hnan | H3].
    + apply orb_prop in Hnan as [H1 | H2].
      * rewrite (nan_matches_nothing a1 b1) by auto. reflexivity.
      * rewrite (nan_matches_nothing a2 b2) by auto. rewrite andb_false_r. reflexivity.
    + rewrite (nan_matches_nothing a3 b3) by auto. apply andb_false_r.
Qed.

(** The theorem at two vertices at the origin: the second is found at the
    index of the first. *)
Lemma endpoint_resolution_by_coordinates_witness :
  exists i,
    _find_vertex_index (v_coordinates (typed_vertex "b" VNone))
      [typed_vertex "a" VNone; typed_vertex "b" VNone] = Some i
    /\ i <= 1.
Proof.
  apply (proj1 (endpoint_resolution_by_coordinates
                  [typed_vertex "a" VNone; typed_vertex "b" VNone])
           1 (typed_vertex "b" VNone)); reflexivity.
Defined.

(* ===================================================================== *)
(** * Vertex extraction *)
(* ===================================================================== *)

Lemma extract_vertices_loop_ok (host : Host) (listing : list (outcome EngineVertex))
    (drawn : nat) (acc vertices : list TopologicVertex) (drawn' : nat) :
  extract_vertices_loop host listing drawn acc = (Ok vertices, drawn') ->
  exists new,
    vertices = acc ++ new
    /\ length new = length listing
    /\ drawn' = drawn + length listing
    /\ forall i v, new !! i = Some v ->
         v_id v = uuid4 host (drawn + i)
         /\ exists ev, listing !! i = Some (Ok ev)
              /\ v_coordinates v = ev_coordinates ev
              /\ v_dictionaries v = read_dictionary (ev_dictionary ev).
Proof.
  revert drawn acc. induction listing as [| [ev | msg] rest IH]; intros drawn acc;
    cbn [extract_vertices_loop].
  - intros [= <- <-]. exists []. rewrite app_nil_r. cbn.
    split; [reflexivity |]. split; [reflexivity |]. split; [lia |].
    intros i v H. inversion H.
  - intros H. destruct (IH _ _ H) as (new & -> & Hlen & -> & Hpos).
    eexists (_ :: new). rewrite <- app_assoc. cbn [app length].
    split; [reflexivity |]. split; [lia |]. split; [lia |].
    intros [| i] v Hv; cbn in Hv.
    + injection Hv as <-. cbn. rewrite Nat.add_0_r. split; [reflexivity |].
      exists ev. auto.
    + destruct (Hpos i v Hv) as (Hid & ev' & Hl & Hc & Hd).
      split; [rewrite Hid; f_equal; lia |]. exists ev'. auto.
  - discriminate.
Qed.

Lemma extract_vertices_loop_raises (host : Host) (pre : list EngineVertex)
    (msg : string) (post : list (outcome EngineVertex)) (drawn : nat)
    (acc : list TopologicVertex) :
  fst (extract_vertices_loop host ((Ok <$> pre) ++ Raise msg :: post) drawn acc) = Raise msg.
Proof.
  revert drawn acc. induction pre as [| ev pre IH]; intros drawn acc; cbn; [reflexivity |].
  apply IH.
Qed.

(** X7. _extract_vertices builds one vertex per engine vertex, in the
    engine's order: the i-th vertex carries the i-th identifier drawn, the
    coordinates of the i-th engine vertex and what could be read of its
    dictionary, so the identifiers are pairwise distinct when uuid4 does
    not repeat itself. When reading some engine vertex throws, the whole
    extraction raises the first such exception and returns no vertex. *)
Theorem extract_vertices_one_per_engine_vertex (eng : Engine) (host : Host) (h : handle)
    (drawn : nat) (listing : list (outcome EngineVertex)) :
  Graph_Vertices eng h = Ok listing ->
  (forall vertices drawn',
     _extract_vertices eng host h drawn = (Ok vertices, drawn') ->
     length vertices = length listing
     /\ drawn' = drawn + length listing
     /\ (forall i v, vertices !! i = Some v ->
           v_id v = uuid4 host (drawn + i)
           /\ exists ev, listing !! i = Some (Ok ev)
                /\ v_coordinates v = ev_coordinates ev
                /\ v_dictionaries v = read_dictionary (ev_dictionary ev))
     /\ ((forall a b, uuid4 host a = uuid4 host b -> a = b) ->
         NoDup (v_id <$> vertices)))
  /\ (forall pre msg post,
        listing = (Ok <$> pre) ++ Raise msg :: post ->
        fst (_extract_vertices eng host h drawn) = Raise msg).
Proof.
  intros Hl. unfold _extract_vertices. rewrite Hl. split.
  - intros vertices drawn' H.
    destruct (extract_vertices_loop_ok _ _ _ _ _ _ H) as (new & -> & Hlen & -> & Hpos).
    cbn [app]. split; [exact Hlen |]. split; [reflexivity |]. split; [exact Hpos |].
    intros Hinj. apply NoDup_alt. intros i j id Hi Hj.
    rewrite list_lookup_fmap in Hi, Hj.
    destruct (new !! i) as [vi |] eqn:Ei; [| discriminate].
    destruct (new !! j) as [vj |] eqn:Ej; [| discriminate].
    cbn in Hi, Hj. destruct (Hpos i vi Ei) as [Hidi _]. destruct (Hpos j vj Ej) as [Hidj _].
    assert (drawn + i = drawn + j) by (apply Hinj; congruence). lia.
  - intros pre msg post ->. apply extract_vertices_loop_raises.
Qed.

(** The theorem at the engine whose graph has one wall. *)
Lemma extract_vertices_one_per_engine_vertex_witness :
  exists vertices drawn',
    _extract_vertices one_wall_engine plain_host 7 3 = (Ok vertices, drawn')
    /\ length vertices = 1
    /\ drawn' = 3 + 1
    /\ forall i v, vertices !! i = Some v -> v_id v = uuid4 plain_host (3 + i).
Proof.
  destruct (_extract_vertices one_wall_engine plain_host 7 3) as [[vertices | msg] drawn']
    eqn:E; [| vm_compute in E; discriminate].
  exists vertices, drawn'. split; [reflexivity |].
  destruct (proj1 (extract_vertices_one_per_engine_vertex one_wall_engine plain_host 7 3
                     _ eq_refl) vertices drawn' E) as (Hlen & Hd & Hpos & _).
  split; [exact Hlen |]. split; [exact Hd |].
  intros i v Hv. apply (Hpos i v Hv).
Defined.

(* ===================================================================== *)
(** * Statistics and the query by type *)
(* ===================================================================== *)

Lemma py_eqb_str_r (k : pyval) (t : string) : py_eqb k (VStr t) = true <-> k = VStr t.
Proof.
  destruct k as [| b | z | f | s | l]; cbn; try (split; discriminate).
  rewrite String.eqb_eq. split; [intros -> | intros [= ->]]; reflexivity.
Qed.

Lemma py_eqb_str_l (k : pyval) (t : string) : py_eqb (VStr t) k = true <-> k = VStr t.
Proof.
  destruct k as [| b | z | f | s | l]; cbn; try (split; discriminate).
  rewrite String.eqb_eq. split; [intros -> | intros [= ->]]; reflexivity.
Qed.

Lemma valdict_find_store_str (d : valdict Z) (k : pyval) (v : Z) (t : string) :
  valdict_find (valdict_store d k v) (VStr t)
  = if py_eqb k (VStr t) then Some v else valdict_find d (VStr t).
Proof.
  induction d as [| [k' v'] d IH]; cbn [valdict_store valdict_find].
  - destruct (py_eqb k (VStr t)); reflexivity.
  - destruct (py_eqb k' k) eqn:Ek; cbn [valdict_find].
    + destruct (py_eqb k (VStr t)) eqn:E1.
      * apply py_eqb_str_r in E1. subst k. rewrite Ek. reflexivity.
      * destruct (py_eqb k' (VStr t)) eqn:E2; [| reflexivity].
        apply py_eqb_str_r in E2. subst k'. apply py_eqb_str_l in Ek. subst k.
        rewrite (proj2 (py_eqb_str_r (VStr t) t) eq_refl) in E1. discriminate.
    + rewrite IH. destruct (py_eqb k' (VStr t)) eqn:E2; [| reflexivity].
      destruct (py_eqb k (VStr t)) eqn:E1; [| reflexivity].
      apply py_eqb_str_r in E1, E2. subst. 
      rewrite (proj2 (py_eqb_str_r (VStr t) t) eq_refl) in Ek. discriminate.
Qed.

Lemma count_types_per_type (vertices : list TopologicVertex) (d d' : valdict Z)
    (t : string) :
  t <> "" ->
  count_types vertices d = Ok d' ->
  count_of d' t
  = (count_of d t
     + Z.of_nat (length (filter (fun v => py_eqb (v_ifc_type v) (VStr t) = true) vertices)))%Z.
Proof.
  intros Ht. revert d. induction vertices as [| vertex rest IH]; intros d;
    cbn [count_types].
  - intros [= <-]. cbn. lia.
  - destruct (py_eqb (v_ifc_type vertex) (VStr t)) eqn:Et.
    + rewrite filter_cons_True by exact Et.
      apply py_eqb_str_r in Et. rewrite Et. cbn [truthy].
      destruct t as [| c t']; [congruence |]. cbn [String.eqb negb].
      unfold valdict_get, valdict_set. cbn [hashable bind].
      intros H. rewrite (IH _ H). unfold count_of.
      rewrite valdict_find_store_str.
      rewrite (proj2 (py_eqb_str_r (VStr (String c t')) (String c t')) eq_refl).
      cbn [length]. lia.
    + rewrite filter_cons_False by (rewrite Et; discriminate).
      destruct (truthy (v_ifc_type vertex)); [| apply IH].
      unfold valdict_get, valdict_set.
      destruct (hashable (v_ifc_type vertex)); cbn [bind]; [| discriminate].
      intros H. rewrite (IH _ H). unfold count_of.
      rewrite valdict_find_store_str, Et. reflexivity.
Qed.

(** X8. After update_statistics has returned, ifc_type_counts agrees with
    get_vertices_by_type on every non-empty type name: the count stored
    under the name (0 when the name is no key) is the number of vertices
    the query returns. Vertices whose ifc_type is the empty string are
    returned by the query for "" and are counted under no key. *)
Theorem type_counts_agree_with_query_by_type (g : TopologicGraph) :
  snd (update_statistics g) = Ok tt ->
  let g' := fst (update_statistics g) in
  (forall t, t <> "" ->
     count_of (g_ifc_type_counts g') t = Z.of_nat (length (get_vertices_by_type g' t)))
  /\ count_of (g_ifc_type_counts g') "" = 0%Z.
Proof.
  unfold update_statistics. cbn [set_counts g_vertices g_edges].
  destruct (count_types (g_vertices g) []) as [counts | msg] eqn:E; [| discriminate].
  intros _. cbn [fst]. unfold get_vertices_by_type.
  cbn [set_ifc_type_counts set_counts g_vertices g_ifc_type_counts]. split.
  - intros t Ht. rewrite (count_types_per_type _ _ _ t Ht E). reflexivity.
  - clear -E. assert (H : forall vs d d', count_types vs d = Ok d' ->
                           count_of d "" = 0%Z -> count_of d' "" = 0%Z).
    { induction vs as [| v vs IH]; intros d d'; cbn [count_types].
      - intros [= <-]. auto.
      - destruct (truthy (v_ifc_type v)) eqn:Et; [| apply IH].
        unfold valdict_get, valdict_set.
        destruct (hashable (v_ifc_type v)); cbn [bind]; [| discriminate].
        intros H H0. apply (IH _ _ H). unfold count_of.
        rewrite valdict_find_store_str.
        destruct (py_eqb (v_ifc_type v) (VStr "")) eqn:E1; [| exact H0].
        apply py_eqb_str_r in E1. rewrite E1 in Et. discriminate. }
    apply (H _ _ _ E). reflexivity.
Qed.

(** The theorem at a graph of two walls, a door and a vertex without type. *)
Lemma type_counts_agree_with_query_by_type_witness :
  let g := graph_of [typed_vertex "a" (VStr "IfcWall"); typed_vertex "b" (VStr "IfcDoor");
                     typed_vertex "c" VNone; typed_vertex "d" (VStr "IfcWall")] in
  let g' := fst (update_statistics g) in
  (forall t, t <> "" ->
     count_of (g_ifc_type_counts g') t = Z.of_nat (length (get_vertices_by_type g' t)))
  /\ count_of (g_ifc_type_counts g') "" = 0%Z.
Proof.
  intros g.
  apply (type_counts_agree_with_query_by_type g). vm_compute. reflexivity.
Defined.

(* ===================================================================== *)
(** * Fixed-width identifiers *)
(* ===================================================================== *)

Lemma string_length_append (a b : string) :
  String.length (a +:+ b) = String.length a + String.length b.
Proof.
  induction a as [| c a IH]; [reflexivity |].
  rewrite append_cons. cbn [String.length]. rewrite IH. reflexivity.
Qed.

Lemma zeros_S (n : nat) : zeros (S n) = String zero (zeros n).
Proof. destruct n; reflexivity. Qed.

Lemma zeros_length (n : nat) : String.length (zeros n) = n.
Proof.
  induction n as [| n IH]; [reflexivity |].
  rewrite zeros_S. cbn [String.length]. rewrite IH. reflexivity.
Qed.

Lemma take_bytes_length (n : nat) (s : string) :
  String.length (take_bytes n s) <= n.
Proof.
  revert s. induction n as [| n IH]; intros s; [cbn; lia |].
  destruct s as [| c s]; cbn; [lia |]. specialize (IH s). lia.
Qed.

Lemma hex_length (s : string) : String.length (hex s) = 2 * String.length s.
Proof. induction s as [| c s IH]; cbn [hex String.length]; lia. Qed.

Lemma hex_digit_is_hex (n : nat) : n < 16 -> is_hex_char (hex_digit n) = true.
Proof.
  intros H. do 16 (destruct n as [| n]; [reflexivity |]). lia.
Qed.

Lemma hex_all_hex (s : string) : all_chars is_hex_char (hex s) = true.
Proof.
  induction s as [| c s IH]; [reflexivity |].
  cbn [hex all_chars].
  pose proof (nat_ascii_bounded c) as Bc.
  rewrite hex_digit_is_hex by (apply Nat.Div0.div_lt_upper_bound; lia).
  rewrite hex_digit_is_hex by (apply Nat.mod_upper_bound; lia).
  exact IH.
Qed.

Lemma ljust_zero_length (s : string) :
  String.length s <= 32 -> String.length (ljust_zero 32 s) = 32.
Proof.
  intros H. unfold ljust_zero. fold (zeros (32 - String.length s)).
  rewrite string_length_append, zeros_length. lia.
Qed.

Lemma string_to_bytes32_eq (text : string) :
  _string_to_bytes32 text = "0x" +:+ hex (ljust_zero 32 (take_bytes 32 text)).
Proof. destruct text; reflexivity. Qed.

Lemma string_to_bytes32_length (text : string) :
  String.length (_string_to_bytes32 text) = 66.
Proof.
  rewrite string_to_bytes32_eq, string_length_append, hex_length,
    ljust_zero_length by apply take_bytes_length.
  reflexivity.
Qed.

(** X9. _string_to_bytes32 always yields a Solidity bytes32 literal: "0x"
    followed by exactly 64 lower-case hexadecimal digits, 66 characters in
    all, whatever the length of the text. *)
Theorem string_to_bytes32_is_bytes32_literal (text : string) :
  exists digits,
    _string_to_bytes32 text = "0x" +:+ digits
    /\ String.length digits = 64
    /\ all_chars is_hex_char digits = true
    /\ String.length (_string_to_bytes32 text) = 66.
Proof.
  exists (hex (ljust_zero 32 (take_bytes 32 text))).
  rewrite string_to_bytes32_eq.
  assert (H : String.length (hex (ljust_zero 32 (take_bytes 32 text))) = 64).
  { rewrite hex_length, ljust_zero_length by apply take_bytes_length. reflexivity. }
  split; [reflexivity |]. split; [exact H |]. split; [apply hex_all_hex |].
  rewrite string_length_append, H. reflexivity.
Qed.

Lemma hex_digit_inj (i j : nat) :
  i < 16 -> j < 16 -> hex_digit i = hex_digit j -> i = j.
Proof.
  intros Hi Hj.
  do 16 (destruct i as [| i]; [do 16 (destruct j as [| j]; [first [reflexivity | discriminate] |]); lia |]).
  lia.
Qed.

Lemma hex_inj (a b : string) : hex a = hex b -> a = b.
Proof.
  revert b. induction a as [| c a IH]; intros [| d b]; cbn [hex]; try discriminate;
    [reflexivity |].
  pose proof (nat_ascii_bounded c) as Bc. pose proof (nat_ascii_bounded d) as Bd.
  assert (Hhc : nat_of_ascii c / 16 < 16) by (apply Nat.Div0.div_lt_upper_bound; lia).
  assert (Hhd : nat_of_ascii d / 16 < 16) by (apply Nat.Div0.div_lt_upper_bound; lia).
  assert (Hlc : nat_of_ascii c mod 16 < 16) by (apply Nat.mod_upper_bound; lia).
  assert (Hld : nat_of_ascii d mod 16 < 16) by (apply Nat.mod_upper_bound; lia).
  pose proof (Nat.div_mod_eq (nat_of_ascii c) 16) as Dc.
  pose proof (Nat.div_mod_eq (nat_of_ascii d) 16) as Dd.
  remember (nat_of_ascii c / 16) as hc. remember (nat_of_ascii c mod 16) as lc.
  remember (nat_of_ascii d / 16) as hd. remember (nat_of_ascii d mod 16) as ld.
  intros H. injection H as H1 H2 H3.
  apply hex_digit_inj in H1; [| assumption | assumption].
  apply hex_digit_inj in H2; [| assumption | assumption].
  assert (Hn : nat_of_ascii c = nat_of_ascii d) by lia.
  f_equal; [| apply IH; exact H3].
  rewrite <- (ascii_nat_embedding c), <- (ascii_nat_embedding d), Hn. reflexivity.
Qed.

Lemma pad_inj (n : nat) (x y : string) :
  no_nul x -> no_nul y ->
  String.length x <= n -> String.length y <= n ->
  x +:+ zeros (n - String.length x) = y +:+ zeros (n - String.length y) ->
  x = y.
Proof.
  unfold no_nul. revert n y. induction x as [| c x IH]; intros n [| d y] Nx Ny Lx Ly.
  - reflexivity.
  - cbn [String.length] in *. rewrite append_nil, append_cons.
    destruct n as [| n]; [lia |]. cbn [Nat.sub]. rewrite zeros_S.
    intros [= <- _]. cbn in Ny. rewrite ?Ascii.eqb_refl in Ny. discriminate.
  - cbn [String.length] in *. rewrite append_nil, append_cons.
    destruct n as [| n]; [lia |]. cbn [Nat.sub]. rewrite zeros_S.
    intros [= -> _]. cbn in Nx. rewrite ?Ascii.eqb_refl in Nx. discriminate.
  - cbn [String.length] in *. rewrite !append_cons.
    destruct n as [| n]; [lia |]. cbn [Nat.sub].
    intros [= -> H]. f_equal.
    cbn in Nx, Ny. apply orb_false_elim in Nx as [_ Nx]. apply orb_false_elim in Ny as [_ Ny].
    apply (IH n y Nx Ny); [lia | lia | exact H].
Qed.

Lemma take_bytes_no_nul (n : nat) (s : string) : no_nul s -> no_nul (take_bytes n s).
Proof.
  unfold no_nul. revert s. induction n as [| n IH]; intros s; [reflexivity |].
  destruct s as [| c s]; [reflexivity |]. cbn.
  intros H. apply orb_false_elim in H as [Hc Hs]. rewrite Hc. cbn. apply IH. exact Hs.
Qed.

(** X10. The identifier depends on the first 32 bytes of the text only,
    and on nothing less: two texts without NUL bytes get the same
    identifier exactly when their first 32 bytes agree. (Texts longer than
    32 bytes, such as 36-character UUIDs, collide when they differ only
    after byte 32.) *)
Theorem string_to_bytes32_collides_on_first_32_bytes (a b : string) :
  no_nul a -> no_nul b ->
  (_string_to_bytes32 a = _string_to_bytes32 b <-> take_bytes 32 a = take_bytes 32 b).
Proof.
  intros Na Nb. rewrite !string_to_bytes32_eq. split.
  - intros H. injection H as H. apply hex_inj in H. unfold ljust_zero in H.
    apply (pad_inj 32); try apply take_bytes_length; try apply take_bytes_no_nul;
      assumption.
  - intros ->. reflexivity.
Qed.

(** The theorem at two UUID-like file ids that differ in their last
    characters. *)
Lemma string_to_bytes32_collides_on_first_32_bytes_witness :
  _string_to_bytes32 "0f8fad5b-d9cb-469f-a165-70867728950e"
  = _string_to_bytes32 "0f8fad5b-d9cb-469f-a165-70867728ffff".
Proof.
  apply (proj2 (string_to_bytes32_collides_on_first_32_bytes
                  "0f8fad5b-d9cb-469f-a165-70867728950e"
                  "0f8fad5b-d9cb-469f-a165-70867728ffff" eq_refl eq_refl)).
  reflexivity.
Defined.

(* ===================================================================== *)
(** * The export joins edges to nodes *)
(* ===================================================================== *)

Lemma convert_fields (v : KuzuVertex) (file_id : string) (node : gmap string pyval) :
  _convert_vertex_to_graph_node v file_id = Ok node ->
  node !! "kuzuElementId" = Some (VStr (get_or (kv_id v) ""))
  /\ node !! "ifcGuid" = Some (VStr (get_or (kv_ifc_guid v) ""))
  /\ node !! "ifcType" = Some (VStr (get_or (kv_ifc_type v) "Unknown"))
  /\ node !! "name" = Some (VStr (get_or (kv_name v) "Unnamed"))
  /\ (exists x, node !! "x" = Some (VInt x))
  /\ (exists y, node !! "y" = Some (VInt y))
  /\ (exists z, node !! "z" = Some (VInt z)).
Proof.
  unfold _convert_vertex_to_graph_node.
  destruct (scale_coordinate (kv_x v)) as [x | e]; cbn [bind]; [| discriminate].
  destruct (scale_coordinate (kv_y v)) as [y | e]; cbn [bind]; [| discriminate].
  destruct (scale_coordinate (kv_z v)) as [z | e]; cbn [bind]; [| discriminate].
  intros [= <-].
  split; [reflexivity |]. split; [reflexivity |]. split; [reflexivity |].
  split; [reflexivity |].
  split; [exists x; reflexivity |]. split; [exists y; reflexivity |].
  exists z; reflexivity.
Qed.

Lemma convert_wall_row (id guid : string) :
  exists node,
    _convert_vertex_to_graph_node (vertex_of_row "file-123" (wall_row id guid)) "file-123"
    = Ok node.
Proof.
  unfold _convert_vertex_to_graph_node.
  destruct (scale_coordinate (kv_x (vertex_of_row "file-123" (wall_row id guid))))
    as [x |] eqn:Ex; [| vm_compute in Ex; discriminate].
  destruct (scale_coordinate (kv_y (vertex_of_row "file-123" (wall_row id guid))))
    as [y |] eqn:Ey; [| vm_compute in Ey; discriminate].
  destruct (scale_coordinate (kv_z (vertex_of_row "file-123" (wall_row id guid))))
    as [z |] eqn:Ez; [| vm_compute in Ez; discriminate].
  cbn [bind]. eexists. reflexivity.
Qed.

Lemma two_walls_export :
  exists n1 n2,
    export_building_for_minting
      (store_of [wall_row "vertex-1" "guid-1"; wall_row "vertex-2" "guid-2"]
                [edge_row "vertex-1" "vertex-2"]) "file-123" None
    = ([n1; n2], [graph_edge 0 1 "topological" None 0]).
Proof.
  destruct (convert_wall_row "vertex-1" "guid-1") as (n1 & E1).
  destruct (convert_wall_row "vertex-2" "guid-2") as (n2 & E2).
  exists n1, n2.
  unfold export_building_for_minting, store_of, kuzu_service, kuzu_get_vertices_by_file.
  cbn [get_vertices_by_file negb execute_elements fmap list_fmap bind fetch_all map
       filter_by_types nodes_loop].
  rewrite E1. cbn [bind kv_id vertex_of_row wall_row row_id].
  rewrite E2. cbn [bind kv_id vertex_of_row wall_row row_id].
  unfold _get_edges_for_file.
  cbn [connection execute_edges fmap list_fmap edges_loop er_from_id er_to_id edge_row].
  assert (H1 : (<["vertex-2":=1%nat]> (<["vertex-1":=0%nat]> (∅ : gmap string nat)))
               !! "vertex-1" = Some 0%nat) by reflexivity.
  assert (H2 : (<["vertex-2":=1%nat]> (<["vertex-1":=0%nat]> (∅ : gmap string nat)))
               !! "vertex-2" = Some 1%nat) by reflexivity.
  rewrite H1, H2. reflexivity.
Qed.

Lemma nodes_loop_index (vertices : list KuzuVertex) (file_id : string) (idx : nat)
    (nodes nodes' : list (gmap string pyval)) (index index' : gmap string nat) :
  nodes_loop vertices file_id idx nodes index = Ok (nodes', index') ->
  idx = length nodes ->
  (forall id i, index !! id = Some i ->
     exists n, nodes !! i = Some n /\ n !! "kuzuElementId" = Some (VStr id)) ->
  forall id i, index' !! id = Some i ->
    exists n, nodes' !! i = Some n /\ n !! "kuzuElementId" = Some (VStr id).
Proof.
  revert idx nodes index.
  induction vertices as [| vertex rest IH]; intros idx nodes index; cbn [nodes_loop].
  - intros [= <- <-] _ H. exact H.
  - destruct (_convert_vertex_to_graph_node vertex file_id) as [node | e] eqn:Ec;
      cbn [bind]; [| discriminate].
    destruct (kv_id vertex) as [vid |] eqn:Eid; [| discriminate].
    intros Hloop -> Hinv. apply (IH _ _ _ Hloop).
    + rewrite length_app. cbn. lia.
    + intros id i Hi. destruct (decide (vid = id)) as [-> | Hne].
      * rewrite lookup_insert_eq in Hi. injection Hi as <-.
        exists node. split.
        -- rewrite lookup_app_r by lia. rewrite Nat.sub_diag. reflexivity.
        -- destruct (convert_fields _ _ _ Ec) as (Hk & _). rewrite Hk, Eid. reflexivity.
      * rewrite lookup_insert_ne in Hi by exact Hne.
        destruct (Hinv id i Hi) as (n & Hn & Hk). exists n. split; [| exact Hk].
        apply lookup_app_l_Some. exact Hn.
Qed.

Lemma edges_loop_from_rows (Q : gmap string pyval -> Prop) (rows : list (outcome EdgeRow))
    (index : gmap string nat) (edge_counter : nat) (edges : list (gmap string pyval)) :
  Forall Q edges ->
  (forall row i j k,
     Ok row ∈ rows ->
     index !! er_from_id row = Some i ->
     index !! er_to_id row = Some j ->
     Q (graph_edge i j (str_or (er_connection_type row) "topological")
          (er_properties row) k)) ->
  Forall Q (edges_loop rows index edge_counter edges).
Proof.
  revert edge_counter edges.
  induction rows as [| [row | e] rows IH]; intros edge_counter edges Hacc HQ;
    cbn [edges_loop]; try assumption.
  assert (HQ' : forall row0 i j k,
            Ok row0 ∈ rows -> index !! er_from_id row0 = Some i ->
            index !! er_to_id row0 = Some j ->
            Q (graph_edge i j (str_or (er_connection_type row0) "topological")
                 (er_properties row0) k)).
  { intros row0 i j k Hin. apply HQ. apply list_elem_of_further. exact Hin. }
  destruct (index !! er_from_id row) as [i |] eqn:Ei; [| apply IH; assumption].
  destruct (index !! er_to_id row) as [j |] eqn:Ej; [| apply IH; assumption].
  apply IH; [| exact HQ'].
  apply Forall_app. split; [assumption |]. constructor; [| constructor].
  apply HQ; [apply list_elem_of_here | assumption | assumption].
Qed.

(** X11. Every edge that export_building_for_minting returns joins two
    exported nodes: its fromIndex and toIndex are positions in the
    returned node list, and the nodes at those positions carry, as
    kuzuElementId, the two element ids of a relationship row of the
    store. No exported edge points outside the node list. *)
Theorem exported_edges_join_exported_nodes (store : Store) (file_id : string)
    (include_types : option (list string))
    (nodes edges : list (gmap string pyval)) :
  export_building_for_minting store file_id include_types = (nodes, edges) ->
  forall edge, edge ∈ edges ->
    exists (i j : nat) (from_node to_node : gmap string pyval) (row : EdgeRow),
      edge !! "fromIndex" = Some (VInt (Z.of_nat i))
      /\ edge !! "toIndex" = Some (VInt (Z.of_nat j))
      /\ nodes !! i = Some from_node
      /\ nodes !! j = Some to_node
      /\ from_node !! "kuzuElementId" = Some (VStr (er_from_id row))
      /\ to_node !! "kuzuElementId" = Some (VStr (er_to_id row))
      /\ exists rows, execute_edges (connection store) file_id = Ok rows /\ Ok row ∈ rows.
Proof.
  unfold export_building_for_minting.
  destruct (get_vertices_by_file store file_id) as [[| v vs] | e];
    try solve [intros [= <- <-] edge H; inversion H].
  destruct (nodes_loop _ file_id 0 [] ∅) as [[nodes0 index] | e] eqn:El;
    [| intros [= <- <-] edge H; inversion H].
  intros [= <- <-]. unfold _get_edges_for_file.
  destruct (execute_edges (connection store) file_id) as [rows | e] eqn:Er;
    [| intros edge H; inversion H].
  apply Forall_forall. apply edges_loop_from_rows; [constructor |].
  intros row i j k Hin Hi Hj.
  pose proof (nodes_loop_index _ _ _ _ _ _ _ El eq_refl) as Hidx.
  destruct (Hidx ltac:(intros id i0 H0; rewrite lookup_empty in H0; discriminate)
              _ _ Hi) as (ni & Hni & Hki).
  destruct (Hidx ltac:(intros id i0 H0; rewrite lookup_empty in H0; discriminate)
              _ _ Hj) as (nj & Hnj & Hkj).
  exists i, j, ni, nj, row.
  split; [reflexivity |]. split; [reflexivity |]. repeat split; try assumption.
  exists rows. split; [reflexivity | exact Hin].
Qed.

(** The theorem at a store with two walls and a relationship between them. *)
Lemma exported_edges_join_exported_nodes_witness :
  exists (nodes edges : list (gmap string pyval)) (edge : gmap string pyval),
    export_building_for_minting
      (store_of [wall_row "vertex-1" "guid-1"; wall_row "vertex-2" "guid-2"]
                [edge_row "vertex-1" "vertex-2"]) "file-123" None = (nodes, edges)
    /\ edge ∈ edges
    /\ exists (i j : nat) (from_node to_node : gmap string pyval) (row : EdgeRow),
      edge !! "fromIndex" = Some (VInt (Z.of_nat i))
      /\ edge !! "toIndex" = Some (VInt (Z.of_nat j))
      /\ nodes !! i = Some from_node
      /\ nodes !! j = Some to_node
      /\ from_node !! "kuzuElementId" = Some (VStr (er_from_id row))
      /\ to_node !! "kuzuElementId" = Some (VStr (er_to_id row))
      /\ exists rows,
           execute_edges
             (connection
                (store_of [wall_row "vertex-1" "guid-1"; wall_row "vertex-2" "guid-2"]
                          [edge_row "vertex-1" "vertex-2"])) "file-123" = Ok rows
           /\ Ok row ∈ rows.
Proof.
  destruct two_walls_export as (n1 & n2 & E).
  exists [n1; n2], [graph_edge 0 1 "topological" None 0],
         (graph_edge 0 1 "topological" None 0).
  split; [exact E |]. split; [apply list_elem_of_here |].
  apply (exported_edges_join_exported_nodes _ _ _ _ _ E). apply list_elem_of_here.
Defined.

(* ===================================================================== *)
(** * Validation of what the export produces *)
(* ===================================================================== *)

Lemma truthy_str (s : string) : truthy (VStr s) = negb (is_empty s).
Proof. reflexivity. Qed.

(** X12. The messages validation has for a node that
    _convert_vertex_to_graph_node built: never one about a coordinate;
    and, for the required fields, one for kuzuElementId exactly when the
    element's id is absent or empty, one for ifcGuid exactly when its GUID
    is absent or empty, and one for ifcType or name only when that key is
    present with the empty string (an absent type or name is exported as
    "Unknown" or "Unnamed"). *)
Theorem messages_for_a_converted_node (v : KuzuVertex) (file_id : string)
    (node : gmap string pyval) (idx : nat) :
  _convert_vertex_to_graph_node v file_id = Ok node ->
  coordinate_errors idx node = []
  /\ required_field_errors idx node
     = (if is_empty (get_or (kv_id v) "") then [MissingField idx "kuzuElementId"] else [])
       ++ (if is_empty (get_or (kv_ifc_guid v) "") then [MissingField idx "ifcGuid"] else [])
       ++ (if is_empty (get_or (kv_ifc_type v) "Unknown")
           then [MissingField idx "ifcType"] else [])
       ++ (if is_empty (get_or (kv_name v) "Unnamed") then [MissingField idx "name"] else []).
Proof.
  intros H.
  destruct (convert_fields _ _ _ H) as (Hk & Hg & Ht & Hn & (x & Hx) & (y & Hy) & (z & Hz)).
  split.
  - unfold coordinate_errors. cbn [flat_map]. rewrite Hx, Hy, Hz. reflexivity.
  - unfold required_field_errors, required_fields, missing_or_falsy. cbn [flat_map].
    rewrite Hk, Hg, Ht, Hn, !truthy_str, !negb_involutive, app_nil_r. reflexivity.
Qed.

(** The theorem at a stored wall without GUID. *)
Lemma messages_for_a_converted_node_witness :
  exists node,
    _convert_vertex_to_graph_node (vertex_of_row "file-123" (wall_row "vertex-4" "")) "file-123"
    = Ok node
    /\ coordinate_errors 0 node = []
    /\ required_field_errors 0 node = [MissingField 0 "ifcGuid"].
Proof.
  destruct (convert_wall_row "vertex-4" "") as (node & E).
  exists node. split; [exact E |].
  apply (messages_for_a_converted_node _ _ _ 0 E).
Defined.

Lemma complete_element_clean_node (v : KuzuVertex) (file_id : string)
    (node : gmap string pyval) :
  complete_element v -> _convert_vertex_to_graph_node v file_id = Ok node -> clean_node node.
Proof.
  intros (Hid & _ & Hguid & Htype & Hname) H.
  destruct (convert_fields _ _ _ H) as (Hk & Hg & Ht & Hn & Hx & Hy & Hz).
  unfold clean_node, is_empty in *.
  split; [eexists; split; [| exact Hk]; apply String.eqb_neq; exact Hid |].
  split; [eexists; split; [| exact Hg]; apply String.eqb_neq; exact Hguid |].
  split; [eexists; split; [| exact Ht] |].
  { destruct (kv_ifc_type v) as [[| c s] |]; cbn; congruence. }
  split; [eexists; split; [| exact Hn] |].
  { destruct (kv_name v) as [[| c s] |]; cbn; congruence. }
  auto.
Qed.

Lemma nodes_loop_clean (vertices : list KuzuVertex) (file_id : string) (idx : nat)
    (nodes nodes' : list (gmap string pyval)) (index index' : gmap string nat) :
  Forall complete_element vertices ->
  Forall clean_node nodes ->
  nodes_loop vertices file_id idx nodes index = Ok (nodes', index') ->
  Forall clean_node nodes'.
Proof.
  intros Hv. revert idx nodes index.
  induction Hv as [| vertex rest Hc _ IH]; intros idx nodes index Hn; cbn [nodes_loop].
  - intros [= <- _]. exact Hn.
  - destruct (_convert_vertex_to_graph_node vertex file_id) as [node | e] eqn:Ec;
      cbn [bind]; [| discriminate].
    destruct (kv_id vertex) as [vid |]; [| discriminate].
    apply IH. apply Forall_app. split; [exact Hn |].
    constructor; [| constructor]. exact (complete_element_clean_node _ _ _ Hc Ec).
Qed.

Lemma clean_node_no_messages (node : gmap string pyval) (idx : nat) :
  clean_node node ->
  required_field_errors idx node = []
  /\ coordinate_errors idx node = []
  /\ exists s, s <> "" /\ node !! "kuzuElementId" = Some (VStr s).
Proof.
  intros ((k & Hk0 & Hk) & (g & Hg0 & Hg) & (t & Ht0 & Ht) & (n & Hn0 & Hn)
          & (x & Hx) & (y & Hy) & (z & Hz)).
  assert (Hne : forall s, s <> "" -> negb (truthy (VStr s)) = false).
  { intros [| c s] Hs; [congruence | reflexivity]. }
  split; [| split; [| eauto]].
  - unfold required_field_errors, required_fields, missing_or_falsy. cbn [flat_map].
    rewrite Hk, Hg, Ht, Hn, !Hne by assumption. reflexivity.
  - unfold coordinate_errors. cbn [flat_map]. rewrite Hx, Hy, Hz. reflexivity.
Qed.

Lemma validate_nodes_clean (nodes : list (gmap string pyval)) (idx : nat)
    (kuzu_ids : list pyval) (errors : list ValidationError) :
  Forall clean_node nodes ->
  exists kuzu_ids', validate_nodes nodes idx kuzu_ids errors = Ok (kuzu_ids', errors).
Proof.
  intros H. revert idx kuzu_ids.
  induction H as [| node rest Hc _ IH]; intros idx kuzu_ids; cbn [validate_nodes].
  - eauto.
  - destruct (clean_node_no_messages node idx Hc) as (Hr & Hco & (s & Hs & Hk)).
    rewrite Hr, Hco, Hk, !app_nil_r.
    destruct s as [| c s]; [congruence |]. cbn [truthy String.eqb negb].
    unfold set_add. cbn [hashable bind]. apply IH.
Qed.

Lemma filter_by_types_keeps (P : KuzuVertex -> Prop) (include_types : option (list string))
    (vertices : list KuzuVertex) :
  Forall P vertices -> Forall P (filter_by_types include_types vertices).
Proof.
  intros H. unfold filter_by_types. destruct include_types as [[| t ts] |]; try exact H.
  cbv zeta. rewrite Forall_forall in *. intros x Hx.
  apply list_elem_of_filter in Hx as [_ Hx]. auto.
Qed.

(** X13. Export and validation compose: when every element the store
    returns for the file has a non-empty id and GUID (and no empty type or
    name), whatever export_building_for_minting returns with at least one
    node passes validate_export_data with no error, for every type filter
    and every set of relationship rows. *)
Theorem export_of_complete_elements_validates (store : Store) (file_id : string)
    (include_types : option (list string)) (vertices : list KuzuVertex) :
  get_vertices_by_file store file_id = Ok vertices ->
  Forall complete_element vertices ->
  fst (export_building_for_minting store file_id include_types) <> [] ->
  validate_export_data
    (fst (export_building_for_minting store file_id include_types))
    (snd (export_building_for_minting store file_id include_types))
  = Ok (true, []).
Proof.
  intros Hget Hall. unfold export_building_for_minting. rewrite Hget.
  destruct vertices as [| v vs]; [cbn; congruence |].
  destruct (nodes_loop _ file_id 0 [] ∅) as [[nodes index] | e] eqn:El;
    [| cbn; congruence].
  cbn [fst snd]. intros Hne.
  assert (Hclean : Forall clean_node nodes).
  { exact (nodes_loop_clean _ _ _ _ _ _ _
             (filter_by_types_keeps _ include_types _ Hall) (Forall_nil_2 _) El). }
  unfold validate_export_data. destruct nodes as [| n ns]; [congruence |].
  destruct (validate_nodes_clean (n :: ns) 0 [] [] Hclean) as (ids & ->).
  cbn [bind]. rewrite (validate_edges_exported _ 0 ids [] (get_edges_exported _ _ _)).
  reflexivity.
Qed.

(** The theorem at a store with two walls and a relationship between them. *)
Lemma export_of_complete_elements_validates_witness :
  validate_export_data
    (fst (export_building_for_minting
            (store_of [wall_row "vertex-1" "guid-1"; wall_row "vertex-2" "guid-2"]
                      [edge_row "vertex-1" "vertex-2"]) "file-123" None))
    (snd (export_building_for_minting
            (store_of [wall_row "vertex-1" "guid-1"; wall_row "vertex-2" "guid-2"]
                      [edge_row "vertex-1" "vertex-2"]) "file-123" None))
  = Ok (true, []).
Proof.
  apply (export_of_complete_elements_validates
           (store_of [wall_row "vertex-1" "guid-1"; wall_row "vertex-2" "guid-2"]
                     [edge_row "vertex-1" "vertex-2"]) "file-123" None
           (map (vertex_of_row "file-123")
                [wall_row "vertex-1" "guid-1"; wall_row "vertex-2" "guid-2"])).
  - reflexivity.
  - repeat constructor; cbn; discriminate.
  - destruct two_walls_export as (n1 & n2 & E). rewrite E. discriminate.
Defined.

(* ===================================================================== *)
(** * The batch for the minting call *)
(* ===================================================================== *)

Lemma scale_coordinate_non_finite (f : spec_float) :
  is_finite f = false -> exists msg, scale_coordinate (Some f) = Raise msg.
Proof.
  destruct f as [s | s | | s m e]; cbn [is_finite]; try discriminate; intros _.
  - destruct s; eexists; vm_compute; reflexivity.
  - eexists; vm_compute; reflexivity.
Qed.

Lemma convert_non_finite (v : KuzuVertex) (file_id : string) :
  has_non_finite v = true -> exists msg, _convert_vertex_to_graph_node v file_id = Raise msg.
Proof.
  unfold has_non_finite, _convert_vertex_to_graph_node. cbn [existsb].
  rewrite orb_false_r. intros H.
  destruct (scale_coordinate (kv_x v)) as [x | m] eqn:Ex; cbn [bind]; [| eauto].
  destruct (scale_coordinate (kv_y v)) as [y | m] eqn:Ey; cbn [bind]; [| eauto].
  destruct (scale_coordinate (kv_z v)) as [z | m] eqn:Ez; cbn [bind]; [| eauto].
  exfalso.
  apply orb_true_iff in H as [H | H]; [| apply orb_true_iff in H as [H | H]].
  - destruct (kv_x v) as [f |]; [| discriminate]. apply negb_true_iff in H.
    destruct (scale_coordinate_non_finite f H) as (m & Hm). congruence.
  - destruct (kv_y v) as [f |]; [| discriminate]. apply negb_true_iff in H.
    destruct (scale_coordinate_non_finite f H) as (m & Hm). congruence.
  - destruct (kv_z v) as [f |]; [| discriminate]. apply negb_true_iff in H.
    destruct (scale_coordinate_non_finite f H) as (m & Hm). congruence.
Qed.

Lemma nodes_loop_all_converted (vertices : list KuzuVertex) (file_id : string) (idx : nat)
    (nodes nodes' : list (gmap string pyval)) (index index' : gmap string nat) :
  nodes_loop vertices file_id idx nodes index = Ok (nodes', index') ->
  Forall (fun v => exists node, _convert_vertex_to_graph_node v file_id = Ok node) vertices.
Proof.
  revert idx nodes index.
  induction vertices as [| vertex rest IH]; intros idx nodes index; cbn [nodes_loop].
  - constructor.
  - destruct (_convert_vertex_to_graph_node vertex file_id) as [node | e] eqn:Ec;
      cbn [bind]; [| discriminate].
    destruct (kv_id vertex) as [vid |]; [| discriminate].
    intros H. constructor; [eauto | exact (IH _ _ _ H)].
Qed.

Lemma export_empty_on_non_finite (store : Store) (file_id : string)
    (vertices : list KuzuVertex) :
  get_vertices_by_file store file_id = Ok vertices ->
  Exists (fun v => has_non_finite v = true) vertices ->
  export_building_for_minting store file_id None = ([], []).
Proof.
  intros Hget Hex. unfold export_building_for_minting. rewrite Hget.
  destruct vertices as [| v vs]; [reflexivity |].
  cbn [filter_by_types].
  destruct (nodes_loop (v :: vs) file_id 0 [] ∅) as [[nodes index] | e] eqn:El;
    [| reflexivity].
  exfalso. apply nodes_loop_all_converted in El.
  apply Exists_exists in Hex as (w & Hin & Hw).
  rewrite Forall_forall in El. destruct (El w Hin) as (node & Hnode).
  destruct (convert_non_finite w file_id Hw) as (msg & Hmsg). congruence.
Qed.

(** X14. One element with an infinite or NaN coordinate empties the whole
    batch: when any element the store returns for the file has such a
    coordinate, prepare_batch_mint_data raises
    "No nodes found for file_id: <file_id>", whatever the other elements
    are; the conversion error is not what the caller sees. *)
Theorem batch_fails_on_one_non_finite_coordinate (store : Store)
    (file_id building_name : string) (vertices : list KuzuVertex) :
  get_vertices_by_file store file_id = Ok vertices ->
  Exists (fun v => has_non_finite v = true) vertices ->
  prepare_batch_mint_data store file_id building_name
  = Raise ("No nodes found for file_id: " +:+ file_id).
Proof.
  intros Hget Hex. unfold prepare_batch_mint_data.
  rewrite (export_empty_on_non_finite _ _ _ Hget Hex). reflexivity.
Qed.

(** The theorem at a store with a sound wall and one whose x is NaN. *)
Lemma batch_fails_on_one_non_finite_coordinate_witness :
  prepare_batch_mint_data
    (store_of [wall_row "vertex-1" "guid-1"; element_row_at "vertex-2" S754_nan] [])
    "file-123" "HQ"
  = Raise "No nodes found for file_id: file-123".
Proof.
  apply (batch_fails_on_one_non_finite_coordinate
           (store_of [wall_row "vertex-1" "guid-1"; element_row_at "vertex-2" S754_nan] [])
           "file-123" "HQ"
           (map (vertex_of_row "file-123")
                [wall_row "vertex-1" "guid-1"; element_row_at "vertex-2" S754_nan])).
  - reflexivity.
  - apply Exists_cons_tl. apply Exists_cons_hd. reflexivity.
Defined.

Lemma graph_edge_indices (i j : nat) (c : string) (p : option string) (k : nat) :
  graph_edge i j c p k !! "fromIndex" = Some (VInt (Z.of_nat i))
  /\ graph_edge i j c p k !! "toIndex" = Some (VInt (Z.of_nat j)).
Proof. split; reflexivity. Qed.

Lemma export_edges_in_range (store : Store) (file_id : string)
    (include_types : option (list string)) (nodes edges : list (gmap string pyval)) :
  export_building_for_minting store file_id include_types = (nodes, edges) ->
  Forall (fun edge => exists i j : nat,
            edge !! "fromIndex" = Some (VInt (Z.of_nat i))
            /\ edge !! "toIndex" = Some (VInt (Z.of_nat j))
            /\ (i < length nodes)%nat /\ (j < length nodes)%nat) edges.
Proof.
  unfold export_building_for_minting.
  destruct (get_vertices_by_file store file_id) as [[| v vs] | e];
    try solve [intros [= <- <-]; constructor].
  destruct (nodes_loop _ file_id 0 [] ∅) as [[nodes0 index] | e] eqn:El;
    [| intros [= <- <-]; constructor].
  intros [= <- <-]. unfold _get_edges_for_file.
  destruct (execute_edges (connection store) file_id) as [rows | e]; [| constructor].
  apply edges_loop_from_rows; [constructor |].
  intros row i j k _ Hi Hj.
  pose proof (nodes_loop_index _ _ _ _ _ _ _ El eq_refl) as Hidx.
  assert (H0 : forall (id : string) (i0 : nat), (∅ : gmap string nat) !! id = Some i0 ->
                 exists n, ([] : list (gmap string pyval)) !! i0 = Some n
                           /\ n !! "kuzuElementId" = Some (VStr id)).
  { intros id i0 H. rewrite lookup_empty in H. discriminate. }
  destruct (Hidx H0 _ _ Hi) as (ni & Hni & _).
  destruct (Hidx H0 _ _ Hj) as (nj & Hnj & _).
  exists i, j. split; [reflexivity |]. split; [reflexivity |].
  split; eapply lookup_lt_Some; eassumption.
Qed.

(** X15. A batch that prepare_batch_mint_data returns is consistent: it has
    at least one node, nodeCount and edgeCount are the lengths of its
    node and edge lists, fileId is a 66-character bytes32 literal, and the
    fromIndex and toIndex of every edge are below nodeCount, so that no
    edge of the batch refers to a node outside the batch. *)
Theorem returned_batch_is_consistent (store : Store) (file_id building_name : string)
    (batch : MintData) :
  prepare_batch_mint_data store file_id building_name = Ok batch ->
  md_nodes batch <> []
  /\ md_nodeCount batch = Z.of_nat (length (md_nodes batch))
  /\ md_edgeCount batch = Z.of_nat (length (md_edges batch))
  /\ md_projectName batch = building_name
  /\ String.length (md_fileId batch) = 66%nat
  /\ forall edge, edge ∈ md_edges batch ->
       exists i j : Z,
         edge !! "fromIndex" = Some (VInt i) /\ edge !! "toIndex" = Some (VInt j)
         /\ (0 <= i < md_nodeCount batch)%Z /\ (0 <= j < md_nodeCount batch)%Z.
Proof.
  unfold prepare_batch_mint_data.
  destruct (export_building_for_minting store file_id None) as [nodes edges] eqn:E.
  pose proof (export_edges_in_range _ _ _ _ _ E) as Hrange.
  destruct nodes as [| n ns]; [discriminate |].
  intros [= <-]. cbn [md_nodes md_edges md_nodeCount md_edgeCount md_projectName md_fileId].
  split; [discriminate |]. split; [reflexivity |]. split; [reflexivity |].
  split; [reflexivity |]. split; [apply string_to_bytes32_length |].
  intros edge Hin. rewrite Forall_forall in Hrange.
  destruct (Hrange edge Hin) as (i & j & Hi & Hj & Li & Lj).
  cbn [length] in *. exists (Z.of_nat i), (Z.of_nat j). repeat split; try assumption; lia.
Qed.

(** The theorem at a store with two walls and a relationship between them. *)
Lemma returned_batch_is_consistent_witness :
  exists batch,
    prepare_batch_mint_data
      (store_of [wall_row "vertex-1" "guid-1"; wall_row "vertex-2" "guid-2"]
                [edge_row "vertex-1" "vertex-2"]) "file-123" "HQ" = Ok batch
    /\ md_nodes batch <> []
    /\ md_nodeCount batch = Z.of_nat (length (md_nodes batch))
    /\ md_edgeCount batch = Z.of_nat (length (md_edges batch))
    /\ md_projectName batch = "HQ"
    /\ String.length (md_fileId batch) = 66%nat
    /\ forall edge, edge ∈ md_edges batch ->
         exists i j : Z,
           edge !! "fromIndex" = Some (VInt i) /\ edge !! "toIndex" = Some (VInt j)
           /\ (0 <= i < md_nodeCount batch)%Z /\ (0 <= j < md_nodeCount batch)%Z.
Proof.
  destruct two_walls_export as (n1 & n2 & E).
  assert (H : prepare_batch_mint_data
                (store_of [wall_row "vertex-1" "guid-1"; wall_row "vertex-2" "guid-2"]
                          [edge_row "vertex-1" "vertex-2"]) "file-123" "HQ"
              = Ok {| md_fileId := _string_to_bytes32 "file-123"; md_projectName := "HQ";
                      md_nodes := [n1; n2];
                      md_edges := [graph_edge 0 1 "topological" None 0];
                      md_nodeCount := 2; md_edgeCount := 1 |}).
  { unfold prepare_batch_mint_data. rewrite E. reflexivity. }
  eexists. split; [exact H |].
  exact (returned_batch_is_consistent _ _ _ _ H).
Defined.

(* ===================================================================== *)
(** * Validation returns *)
(* ===================================================================== *)

Lemma validate_nodes_returns (nodes : list (gmap string pyval)) (idx : nat)
    (kuzu_ids : list pyval) (errors : list ValidationError) :
  Forall (usable_id "kuzuElementId") nodes ->
  exists kuzu_ids' errors', validate_nodes nodes idx kuzu_ids errors = Ok (kuzu_ids', errors').
Proof.
  intros H. revert idx kuzu_ids errors.
  induction H as [| node rest Hu _ IH]; intros idx kuzu_ids errors; cbn [validate_nodes].
  - eauto.
  - unfold usable_id in Hu.
    destruct (node !! "kuzuElementId") as [v |]; cbn [bind]; [| apply IH].
    destruct (truthy v) eqn:Ev; cbn [bind]; [| apply IH].
    destruct Hu as [Hu | Hu]; [discriminate |].
    unfold set_add. rewrite Hu. cbn [bind]. apply IH.
Qed.

Lemma endpoint_errors_returns (mk : pyval -> ValidationError) (key : string)
    (edge : gmap string pyval) (kuzu_ids : list pyval) :
  usable_id key edge -> exists errs, endpoint_errors mk (edge !! key) kuzu_ids = Ok errs.
Proof.
  unfold usable_id, endpoint_errors.
  destruct (edge !! key) as [v |]; [| eauto].
  destruct (truthy v); [| eauto].
  intros [Hu | Hu]; [discriminate |]. unfold set_mem. rewrite Hu. cbn [bind]. eauto.
Qed.

Lemma validate_edges_returns (edges : list (gmap string pyval)) (idx : nat)
    (kuzu_ids : list pyval) (errors : list ValidationError) :
  Forall (fun edge => usable_id "fromKuzuId" edge /\ usable_id "toKuzuId" edge) edges ->
  exists errors', validate_edges edges idx kuzu_ids errors = Ok errors'.
Proof.
  intros H. revert idx errors.
  induction H as [| edge rest [Hf Ht] _ IH]; intros idx errors; cbn [validate_edges].
  - eauto.
  - destruct (endpoint_errors_returns (FromNotFound idx) _ _ kuzu_ids Hf) as (e1 & ->).
    destruct (endpoint_errors_returns (ToNotFound idx) _ _ kuzu_ids Ht) as (e2 & ->).
    cbn [bind]. apply IH.
Qed.

(** X16. validate_export_data returns a verdict, and never raises, on
    data whose identifiers can be put in a set: when every kuzuElementId,
    fromKuzuId and toKuzuId present is falsy or hashable, the call returns
    a pair (is_valid, errors), and is_valid is True exactly when errors is
    empty. *)
Theorem validation_returns_on_hashable_ids (nodes edges : list (gmap string pyval)) :
  Forall (usable_id "kuzuElementId") nodes ->
  Forall (fun edge => usable_id "fromKuzuId" edge /\ usable_id "toKuzuId" edge) edges ->
  exists (is_valid : bool) (errors : list ValidationError),
    validate_export_data nodes edges = Ok (is_valid, errors)
    /\ (is_valid = true <-> errors = []).
Proof.
  intros Hn He. unfold validate_export_data.
  destruct nodes as [| n ns].
  - exists false, [NoNodes]. split; [reflexivity |]. split; discriminate.
  - destruct (validate_nodes_returns (n :: ns) 0 [] [] Hn) as (ids & errs & ->).
    cbn [bind].
    destruct (validate_edges_returns edges 0 ids errs He) as (errs' & ->).
    cbn [bind]. eexists _, errs'. split; [reflexivity |].
    destruct errs'; split; (reflexivity || discriminate).
Qed.

(** The theorem at a node without fields and an edge that names an
    unknown node. *)
Lemma validation_returns_on_hashable_ids_witness :
  exists (is_valid : bool) (errors : list ValidationError),
    validate_export_data [∅] [{["fromKuzuId" := VStr "vertex-9"]}] = Ok (is_valid, errors)
    /\ (is_valid = true <-> errors = []).
Proof.
  apply (validation_returns_on_hashable_ids [∅] [{["fromKuzuId" := VStr "vertex-9"]}]).
  - constructor; [| constructor]. exact I.
  - constructor; [| constructor]. split; [right; reflexivity | exact I].
Defined.

Lemma validate_nodes_raises (nodes : list (gmap string pyval)) (idx : nat)
    (kuzu_ids : list pyval) (errors : list ValidationError) :
  Exists (fun node => exists x l, node !! "kuzuElementId" = Some (VList (x :: l))) nodes ->
  validate_nodes nodes idx kuzu_ids errors = Raise "unhashable type: 'list'".
Proof.
  intros H. revert idx kuzu_ids errors.
  induction nodes as [| node rest IH]; intros idx kuzu_ids errors; [inversion H |].
  cbn [validate_nodes].
  destruct (node !! "kuzuElementId") as [v |] eqn:Ev.
  - destruct (truthy v) eqn:Tv.
    + unfold set_add. destruct (hashable v) eqn:Hv; [| reflexivity].
      cbn [bind]. apply IH. inversion H as [? ? (x & l & Hx) | ? ? Hr]; subst; [| exact Hr].
      rewrite Ev in Hx. injection Hx as ->. discriminate.
    + cbn [bind]. apply IH. inversion H as [? ? (x & l & Hx) | ? ? Hr]; subst; [| exact Hr].
      rewrite Ev in Hx. injection Hx as ->. discriminate.
  - cbn [bind]. apply IH. inversion H as [? ? (x & l & Hx) | ? ? Hr]; subst; [| exact Hr].
    rewrite Ev in Hx. discriminate.
Qed.

(** X17. validate_export_data has no handler of its own: a node whose
    kuzuElementId is a non-empty list makes the call raise TypeError
    ("unhashable type: 'list'") instead of returning (False, errors),
    whatever the other nodes and the edges are. *)
Theorem validation_raises_on_list_id (nodes edges : list (gmap string pyval)) :
  Exists (fun node => exists x l, node !! "kuzuElementId" = Some (VList (x :: l))) nodes ->
  validate_export_data nodes edges = Raise "unhashable type: 'list'".
Proof.
  intros H. unfold validate_export_data.
  destruct nodes as [| n ns]; [inversion H |].
  rewrite (validate_nodes_raises _ 0 [] [] H). reflexivity.
Qed.

(** The theorem at a single node whose id is a list. *)
Lemma validation_raises_on_list_id_witness :
  validate_export_data [{["kuzuElementId" := VList [VStr "vertex-1"]]}] []
  = Raise "unhashable type: 'list'".
Proof.
  apply (validation_raises_on_list_id [{["kuzuElementId" := VList [VStr "vertex-1"]]}] []).
  apply Exists_cons_hd. exists (VStr "vertex-1"), []. reflexivity.
Defined.

(* ===================================================================== *)
(** * Writing token ids back *)
(* ===================================================================== *)

Lemma sync_loop_count (execute : update_query) (file_id : string)
    (items : list (string * Z)) (updated_count : Z) :
  sync_loop execute file_id items updated_count
  = (updated_count
     + Z.of_nat (length (filter (fun item => returned_a_row execute file_id item = true)
                                items)))%Z.
Proof.
  revert updated_count.
  induction items as [| [kuzu_id token_id] rest IH]; intros updated_count;
    cbn [sync_loop].
  - cbn. lia.
  - destruct (execute kuzu_id file_id (pretty token_id)) as [[|] | msg] eqn:E.
    + rewrite filter_cons_True by (unfold returned_a_row; cbn [fst snd]; rewrite E; reflexivity).
      rewrite IH. cbn [length]. lia.
    + rewrite filter_cons_False
        by (unfold returned_a_row; cbn [fst snd]; rewrite E; discriminate).
      apply IH.
    + rewrite filter_cons_False
        by (unfold returned_a_row; cbn [fst snd]; rewrite E; discriminate).
      apply IH.
Qed.

(** X18. sync_token_ids_to_kuzu counts exactly the entries whose update
    query returned a row: an update that raises, or that matches no
    element, is skipped without stopping the loop or undoing earlier
    counts. The result therefore lies between 0 and the number of
    entries, and equals that number exactly when every update returned a
    row. *)
Theorem sync_counts_the_updates_that_returned_a_row (execute : update_query)
    (file_id : string) (kuzu_id_to_token_id : list (string * Z)) :
  sync_token_ids_to_kuzu execute file_id kuzu_id_to_token_id
  = Z.of_nat (length (filter (fun item => returned_a_row execute file_id item = true)
                             kuzu_id_to_token_id))
  /\ (0 <= sync_token_ids_to_kuzu execute file_id kuzu_id_to_token_id
      <= Z.of_nat (length kuzu_id_to_token_id))%Z
  /\ (sync_token_ids_to_kuzu execute file_id kuzu_id_to_token_id
      = Z.of_nat (length kuzu_id_to_token_id)
      <-> Forall (fun item => execute (fst item) file_id (pretty (snd item)) = Ok true)
                 kuzu_id_to_token_id).
Proof.
  unfold sync_token_ids_to_kuzu. rewrite sync_loop_count, Z.add_0_l.
  set (P := fun item : string * Z => returned_a_row execute file_id item = true).
  pose proof (length_filter P kuzu_id_to_token_id) as Hle.
  assert (HP : forall item, P item <->
                 execute (fst item) file_id (pretty (snd item)) = Ok true).
  { intros item. unfold P, returned_a_row.
    destruct (execute item.1 file_id (pretty item.2)) as [[|] | msg];
      split; congruence. }
  split; [reflexivity |]. split; [lia |].
  split.
  - intros H. apply Nat2Z.inj in H.
    clear Hle. induction kuzu_id_to_token_id as [| item rest IH]; [constructor |].
    destruct (decide (P item)) as [Hp | Hp].
    + rewrite filter_cons_True in H by exact Hp. cbn [length] in H.
      constructor; [apply HP; exact Hp | apply IH; lia].
    + rewrite filter_cons_False in H by exact Hp. cbn [length] in H.
      pose proof (length_filter P rest). lia.
  - intros H. f_equal. clear Hle.
    induction H as [| item rest Hp _ IH]; [reflexivity |].
    rewrite filter_cons_True by (apply HP; exact Hp). cbn [length]. rewrite IH. reflexivity.
Qed.

(* ===================================================================== *)
(** * Tokens, collections and mappings *)
(* ===================================================================== *)

Lemma count_status_filter (status : TokenizationStatus) (tokens : list ComponentToken) :
  count_status status tokens
  = Z.of_nat (length (filter (fun tk => status_eqb (tk_status tk) status = true) tokens)).
Proof.
  induction tokens as [| t rest IH]; [reflexivity |].
  cbn [count_status]. destruct (status_eqb (tk_status t) status) eqn:E.
  - rewrite filter_cons_True by exact E. cbn [length]. lia.
  - rewrite filter_cons_False by (cbv beta; congruence). lia.
Qed.

Lemma count_minted_pending_le (tokens : list ComponentToken) :
  (count_status MINTED tokens + count_status PENDING tokens
   <= Z.of_nat (length tokens))%Z.
Proof.
  induction tokens as [| t rest IH]; [cbn; lia |].
  cbn [count_status length]. rewrite Nat2Z.inj_succ.
  destruct (tk_status t); cbn [status_eqb]; lia.
Qed.

(** X19. After BuildingTokenCollection.update_statistics the counters
    agree with the queries: total_components is the number of tokens,
    minted_count and pending_count are the sizes of
    get_tokens_by_status(MINTED) and get_tokens_by_status(PENDING), the
    tokens are untouched, and minted_count + pending_count never exceeds
    total_components (tokens in another status are counted in neither). *)
Theorem collection_counters_agree_with_status_queries (c : BuildingTokenCollection) :
  bc_component_tokens (collection_update_statistics c) = bc_component_tokens c
  /\ bc_total_components (collection_update_statistics c)
     = Z.of_nat (length (bc_component_tokens c))
  /\ bc_minted_count (collection_update_statistics c)
     = Z.of_nat (length (get_tokens_by_status (collection_update_statistics c) MINTED))
  /\ bc_pending_count (collection_update_statistics c)
     = Z.of_nat (length (get_tokens_by_status (collection_update_statistics c) PENDING))
  /\ (bc_minted_count (collection_update_statistics c)
      + bc_pending_count (collection_update_statistics c)
      <= bc_total_components (collection_update_statistics c))%Z.
Proof.
  unfold collection_update_statistics, get_tokens_by_status, with_tokens_and_counts.
  cbn [bc_component_tokens bc_total_components bc_minted_count bc_pending_count].
  split; [reflexivity |]. split; [reflexivity |].
  split; [apply count_status_filter |]. split; [apply count_status_filter |].
  apply count_minted_pending_le.
Qed.

Lemma find_app_none {A : Type} (f : A -> bool) (l1 l2 : list A) :
  List.find f l1 = None -> List.find f (l1 ++ l2) = List.find f l2.
Proof.
  induction l1 as [| x l1 IH]; [reflexivity |]. cbn [List.find app].
  destruct (f x); [discriminate | exact IH].
Qed.

Lemma find_app_some {A : Type} (f : A -> bool) (l1 l2 : list A) (x : A) :
  List.find f l1 = Some x -> List.find f (l1 ++ l2) = Some x.
Proof.
  induction l1 as [| y l1 IH]; [discriminate |]. cbn [List.find app].
  destruct (f y); [trivial | exact IH].
Qed.

Lemma find_fresh (tokens : list ComponentToken) (id : string) :
  Forall (fun t => tk_id t <> id) tokens ->
  List.find (fun t => String.eqb (tk_id t) id) tokens = None.
Proof.
  induction 1 as [| t rest Ht _ IH]; [reflexivity |]. cbn [List.find].
  apply String.eqb_neq in Ht. rewrite Ht. exact IH.
Qed.

Lemma find_token_id (collections : list BuildingTokenCollection) (id : string)
    (t : ComponentToken) :
  find_token collections id = Some t ->
  tk_id t = id
  /\ exists c, c ∈ collections /\ t ∈ bc_component_tokens c.
Proof.
  induction collections as [| c rest IH]; [discriminate |]. cbn [find_token].
  destruct (List.find _ (bc_component_tokens c)) as [t0 |] eqn:E.
  - intros [= ->]. apply find_some in E as [Hin He].
    apply String.eqb_eq in He. split; [exact He |].
    exists c. split; [apply list_elem_of_here | apply list_elem_of_In; exact Hin].
  - intros H. destruct (IH H) as (Hid & c0 & Hc0 & Ht). split; [exact Hid |].
    exists c0. split; [apply list_elem_of_further; exact Hc0 | exact Ht].
Qed.

Lemma append_to_collection_known (collections : list BuildingTokenCollection)
    (collection_id : string) (token : ComponentToken) :
  (exists c, c ∈ collections /\ bc_id c = collection_id) ->
  exists collections', append_to_collection collections collection_id token = Some collections'.
Proof.
  intros (c & Hin & Hid). induction collections as [| c0 rest IH]; [inversion Hin |].
  cbn [append_to_collection].
  destruct (String.eqb (bc_id c0) collection_id) eqn:E; [eauto |].
  apply elem_of_cons in Hin as [-> | Hin].
  - apply String.eqb_neq in E. congruence.
  - destruct (IH Hin) as (rest' & ->). eauto.
Qed.

Lemma append_to_collection_unknown (collections : list BuildingTokenCollection)
    (collection_id : string) (token : ComponentToken) :
  append_to_collection collections collection_id token = None
  <-> Forall (fun c => bc_id c <> collection_id) collections.
Proof.
  induction collections as [| c rest IH]; cbn [append_to_collection].
  - split; [constructor | reflexivity].
  - destruct (String.eqb (bc_id c) collection_id) eqn:E.
    + apply String.eqb_eq in E. split; [discriminate |].
      intros H. inversion H; subst. congruence.
    + apply String.eqb_neq in E.
      destruct (append_to_collection rest collection_id token) as [rest' |].
      * split; [discriminate |]. intros H. inversion H as [| ? ? _ Hr]; subst.
        apply IH in Hr. discriminate.
      * split; [| reflexivity]. intros _. constructor; [exact E | apply IH; reflexivity].
Qed.

Lemma append_to_collection_shape (collections collections' : list BuildingTokenCollection)
    (collection_id : string) (token : ComponentToken) :
  append_to_collection collections collection_id token = Some collections' ->
  exists before c after,
    collections = before ++ c :: after
    /\ Forall (fun c0 => bc_id c0 <> collection_id) before
    /\ bc_id c = collection_id
    /\ collections' = before ++ append_token c token :: after.
Proof.
  revert collections'.
  induction collections as [| c rest IH]; intros collections'; cbn [append_to_collection];
    [discriminate |].
  destruct (String.eqb (bc_id c) collection_id) eqn:E.
  - intros [= <-]. apply String.eqb_eq in E.
    exists [], c, rest. repeat split; [constructor | exact E].
  - destruct (append_to_collection rest collection_id token) as [rest' |];
      [| discriminate].
    intros [= <-]. apply String.eqb_neq in E.
    destruct (IH rest' eq_refl) as (before & c0 & after & -> & Hb & Hc & ->).
    exists (c :: before), c0, after. repeat split; [constructor; assumption | exact Hc].
Qed.

Lemma find_token_app_fresh (before rest : list BuildingTokenCollection) (id : string) :
  Forall (fun c => Forall (fun t => tk_id t <> id) (bc_component_tokens c)) before ->
  find_token (before ++ rest) id = find_token rest id.
Proof.
  induction 1 as [| c before Hc _ IH]; [reflexivity |].
  cbn [app find_token]. rewrite (find_fresh _ _ Hc). exact IH.
Qed.

Lemma find_token_added (collections collections' : list BuildingTokenCollection)
    (collection_id : string) (token : ComponentToken) :
  append_to_collection collections collection_id token = Some collections' ->
  fresh_token_id collections (tk_id token) ->
  find_token collections' (tk_id token) = Some token.
Proof.
  intros Happ Hfresh.
  destruct (append_to_collection_shape _ _ _ _ Happ) as (before & c & after & -> & _ & _ & ->).
  unfold fresh_token_id in Hfresh. apply Forall_app in Hfresh as [Hb Hr].
  inversion Hr as [| ? ? Hc _]; subst.
  rewrite (find_token_app_fresh _ _ _ Hb). cbn [find_token].
  unfold append_token, with_tokens_and_counts. cbn [bc_component_tokens].
  rewrite find_app_none by (apply find_fresh; exact Hc).
  cbn [List.find]. rewrite String.eqb_refl. reflexivity.
Qed.

Lemma find_token_kept (collections collections' : list BuildingTokenCollection)
    (collection_id : string) (token : ComponentToken) (id : string) :
  append_to_collection collections collection_id token = Some collections' ->
  id <> tk_id token ->
  find_token collections' id = find_token collections id.
Proof.
  intros Happ Hne.
  destruct (append_to_collection_shape _ _ _ _ Happ) as (before & c & after & -> & _ & _ & ->).
  clear Happ. induction before as [| c0 before IH]; cbn [app find_token].
  - unfold append_token, with_tokens_and_counts. cbn [bc_component_tokens].
    destruct (List.find (fun t0 => String.eqb (tk_id t0) id) (bc_component_tokens c))
      as [t0 |] eqn:E.
    + rewrite (find_app_some _ _ _ _ E). reflexivity.
    + rewrite (find_app_none _ _ _ E). cbn [List.find].
      assert (Hf : String.eqb (tk_id token) id = false)
        by (apply String.eqb_neq; congruence).
      rewrite Hf. reflexivity.
  - rewrite IH. reflexivity.
Qed.

Lemma total_tokens_app (a b : list BuildingTokenCollection) :
  total_tokens (a ++ b) = (total_tokens a + total_tokens b)%Z.
Proof. induction a as [| c a IH]; cbn [app total_tokens]; lia. Qed.

Lemma lookup_token_hit (index : gmap string string) (key id : string)
    (collections : list BuildingTokenCollection) :
  index !! key = Some id -> id <> "" ->
  lookup_token index key collections = find_token collections id.
Proof.
  intros H Hne. unfold lookup_token. rewrite H. destruct id; [congruence | reflexivity].
Qed.

(** X20. A token added to a mapping is found again: when the mapping has a
    collection with the given id, and the token's id is non-empty and not
    yet used by a token of the mapping, add_component_token returns, and
    afterwards get_token_by_topologic_id with the token's vertex id and
    get_token_by_ifc_guid with its GUID both return that token. *)
Theorem added_token_is_found_by_its_identifiers (m : TokenizationMapping)
    (token : ComponentToken) (collection_id : string) :
  (exists c, c ∈ tm_building_collections m /\ bc_id c = collection_id) ->
  tk_id token <> "" ->
  fresh_token_id (tm_building_collections m) (tk_id token) ->
  snd (add_component_token m token collection_id) = Ok tt
  /\ get_token_by_topologic_id (fst (add_component_token m token collection_id))
       (topologic_vertex_id (tk_fields token)) = Some token
  /\ get_token_by_ifc_guid (fst (add_component_token m token collection_id))
       (ifc_guid (tk_fields token)) = Some token.
Proof.
  intros Hc Hid Hfresh. unfold add_component_token.
  destruct (append_to_collection_known _ _ token Hc) as (collections' & E). rewrite E.
  cbn [fst snd]. split; [reflexivity |].
  unfold get_token_by_topologic_id, get_token_by_ifc_guid, mapping_update_statistics.
  cbn [tm_topologic_to_token tm_ifc_guid_to_token tm_building_collections].
  rewrite !(lookup_token_hit _ _ (tk_id token)) by (apply lookup_insert_eq || exact Hid).
  split; exact (find_token_added _ _ _ _ E Hfresh).
Qed.

(** The theorem at a mapping with one empty collection. *)
Lemma added_token_is_found_by_its_identifiers_witness :
  snd (add_component_token (mapping_of [collection_of "c1" []])
         (token_with_status "t1" PENDING) "c1") = Ok tt
  /\ get_token_by_topologic_id
       (fst (add_component_token (mapping_of [collection_of "c1" []])
               (token_with_status "t1" PENDING) "c1"))
       (topologic_vertex_id (tk_fields (token_with_status "t1" PENDING)))
     = Some (token_with_status "t1" PENDING)
  /\ get_token_by_ifc_guid
       (fst (add_component_token (mapping_of [collection_of "c1" []])
               (token_with_status "t1" PENDING) "c1"))
       (ifc_guid (tk_fields (token_with_status "t1" PENDING)))
     = Some (token_with_status "t1" PENDING).
Proof.
  apply (added_token_is_found_by_its_identifiers (mapping_of [collection_of "c1" []])
           (token_with_status "t1" PENDING) "c1").
  - exists (collection_of "c1" []). split; [apply list_elem_of_here | reflexivity].
  - discriminate.
  - repeat constructor.
Defined.

(** X21. Adding a token does not disturb earlier lookups: a token that
    get_token_by_topologic_id found under another vertex id is still
    returned after add_component_token, provided the new token's id is not
    yet used in the mapping. *)
Theorem earlier_lookups_survive_an_addition (m : TokenizationMapping)
    (token found : ComponentToken) (collection_id topologic_id : string) :
  get_token_by_topologic_id m topologic_id = Some found ->
  topologic_id <> topologic_vertex_id (tk_fields token) ->
  fresh_token_id (tm_building_collections m) (tk_id token) ->
  get_token_by_topologic_id (fst (add_component_token m token collection_id)) topologic_id
  = Some found.
Proof.
  intros Hfound Hne Hfresh. unfold add_component_token.
  destruct (append_to_collection _ collection_id token) as [collections' |] eqn:E;
    [| exact Hfound].
  cbn [fst]. unfold get_token_by_topologic_id, mapping_update_statistics, lookup_token in *.
  cbn [tm_topologic_to_token tm_building_collections].
  rewrite lookup_insert_ne by congruence.
  destruct (tm_topologic_to_token m !! topologic_id) as [[| ch id] |]; try discriminate.
  rewrite (find_token_kept _ _ _ _ _ E); [exact Hfound |].
  destruct (find_token_id _ _ _ Hfound) as (Hid & c & Hc & Ht).
  intros Heq. unfold fresh_token_id in Hfresh. rewrite Forall_forall in Hfresh.
  specialize (Hfresh c Hc). rewrite Forall_forall in Hfresh.
  apply (Hfresh found Ht). congruence.
Qed.

(** The theorem at a mapping that holds one token, and a second token for
    another vertex. *)
Lemma earlier_lookups_survive_an_addition_witness :
  get_token_by_topologic_id
    (fst (add_component_token
            (indexed_mapping [collection_of "c1" [token_with_status "t1" PENDING]]
                             {["vertex" := "t1"]})
            (token_for_vertex "t2" "vertex-2") "c1")) "vertex"
  = Some (token_with_status "t1" PENDING).
Proof.
  apply (earlier_lookups_survive_an_addition
           (indexed_mapping [collection_of "c1" [token_with_status "t1" PENDING]]
                            {["vertex" := "t1"]})
           (token_for_vertex "t2" "vertex-2") (token_with_status "t1" PENDING)
           "c1" "vertex").
  - reflexivity.
  - discriminate.
  - repeat constructor. discriminate.
Defined.

(** X22. add_component_token changes one collection only, the first one
    with the given id: the token is appended to its list, the other
    collections and their order are kept, and the counters of the changed
    collection itself are left as they were (they are stale until its own
    update_statistics runs), while the mapping's total_mapped_components
    and total_collections are recomputed and count the new token. *)
Theorem addition_changes_the_first_matching_collection (m m' : TokenizationMapping)
    (token : ComponentToken) (collection_id : string) :
  add_component_token m token collection_id = (m', Ok tt) ->
  exists before c c' after,
    tm_building_collections m = before ++ c :: after
    /\ Forall (fun c0 => bc_id c0 <> collection_id) before
    /\ bc_id c = collection_id
    /\ tm_building_collections m' = before ++ c' :: after
    /\ bc_component_tokens c' = bc_component_tokens c ++ [token]
    /\ bc_total_components c' = bc_total_components c
    /\ bc_minted_count c' = bc_minted_count c
    /\ bc_pending_count c' = bc_pending_count c
    /\ tm_total_mapped_components m' = (total_tokens (tm_building_collections m) + 1)%Z
    /\ tm_total_collections m' = Z.of_nat (length (tm_building_collections m)).
Proof.
  unfold add_component_token.
  destruct (append_to_collection _ collection_id token) as [collections' |] eqn:E;
    [| discriminate].
  intros [= <-].
  destruct (append_to_collection_shape _ _ _ _ E) as (before & c & after & Hm & Hb & Hc & ->).
  exists before, c, (append_token c token), after.
  unfold mapping_update_statistics.
  cbn [tm_building_collections tm_total_mapped_components tm_total_collections].
  split; [exact Hm |]. split; [exact Hb |]. split; [exact Hc |].
  split; [reflexivity |]. split; [reflexivity |]. split; [reflexivity |].
  split; [reflexivity |]. split; [reflexivity |].
  rewrite Hm, !total_tokens_app, !length_app. cbn [total_tokens length].
  unfold append_token, with_tokens_and_counts. cbn [bc_component_tokens].
  rewrite length_app. cbn [length]. split; lia.
Qed.

(** The theorem at a mapping with one empty collection. *)
Lemma addition_changes_the_first_matching_collection_witness :
  exists m' before c c' after,
    add_component_token (mapping_of [collection_of "c1" []])
      (token_with_status "t1" PENDING) "c1" = (m', Ok tt)
    /\ tm_building_collections (mapping_of [collection_of "c1" []]) = before ++ c :: after
    /\ Forall (fun c0 => bc_id c0 <> "c1") before
    /\ bc_id c = "c1"
    /\ tm_building_collections m' = before ++ c' :: after
    /\ bc_component_tokens c' = bc_component_tokens c ++ [token_with_status "t1" PENDING]
    /\ bc_total_components c' = bc_total_components c
    /\ bc_minted_count c' = bc_minted_count c
    /\ bc_pending_count c' = bc_pending_count c
    /\ tm_total_mapped_components m'
       = (total_tokens (tm_building_collections (mapping_of [collection_of "c1" []])) + 1)%Z
    /\ tm_total_collections m'
       = Z.of_nat (length (tm_building_collections (mapping_of [collection_of "c1" []]))).
Proof.
  eexists.
  assert (H : add_component_token (mapping_of [collection_of "c1" []])
                (token_with_status "t1" PENDING) "c1"
              = (fst (add_component_token (mapping_of [collection_of "c1" []])
                        (token_with_status "t1" PENDING) "c1"), Ok tt)) by reflexivity.
  destruct (addition_changes_the_first_matching_collection _ _ _ _ H)
    as (before & c & c' & after & Hrest).
  exists before, c, c', after. split; [exact H | exact Hrest].
Defined.

(** X23. add_component_token raises "Collection <id> not found" exactly
    when no collection of the mapping has the given id, and then leaves
    the mapping as it was: no index is written and no counter changes. *)
Theorem addition_to_unknown_collection_changes_nothing (m : TokenizationMapping)
    (token : ComponentToken) (collection_id : string) :
  (Forall (fun c => bc_id c <> collection_id) (tm_building_collections m)
   <-> snd (add_component_token m token collection_id)
       = Raise ("Collection " +:+ collection_id +:+ " not found"))
  /\ (forall msg, snd (add_component_token m token collection_id) = Raise msg ->
        fst (add_component_token m token collection_id) = m).
Proof.
  unfold add_component_token.
  pose proof (append_to_collection_unknown (tm_building_collections m) collection_id token)
    as Hiff.
  destruct (append_to_collection _ collection_id token) as [collections' |]; cbn [fst snd].
  - split; [| discriminate]. split; [| discriminate].
    intros H. apply Hiff in H. discriminate.
  - split; [| reflexivity]. split; [reflexivity |]. intros _. apply Hiff. reflexivity.
Qed.

(* ===================================================================== *)
(** * Creating the tokens of a building *)
(* ===================================================================== *)

Lemma py_lower_ascii (uni : Unicode) (s : string) :
  is_ascii s = true -> py_lower uni s = lower s.
Proof. unfold py_lower. intros ->. reflexivity. Qed.

Lemma new_token_ok (uni : Unicode) (pyd : Pydantic) (id : string)
    (fields : IFCComponentToken)
    (contract_address : option string) (standard : TokenStandard) (chain_id : Z)
    (status : TokenizationStatus) (t : ComponentToken) :
  new_token uni pyd id fields contract_address standard chain_id status = Ok t ->
  ifc_guid fields <> ""
  /\ well_formed_address contract_address
  /\ t = {| tk_id := id; tk_fields := fields; tk_token_id := None;
            tk_contract_address := py_lower uni <$> contract_address;
            tk_token_standard := standard; tk_chain_id := chain_id;
            tk_metadata_hash := None; tk_owner_address := None;
            tk_minter_address := None; tk_status := status; tk_mint_tx_hash := None;
            tk_transfer_tx_hashes := [] |}.
Proof.
  unfold new_token, validate_ethereum_address, validate_ifc_guid, well_formed_address.
  destruct contract_address as [a |].
  - destruct (negb (startswith "0x" a) || negb (char_length a =? 42)%nat) eqn:E.
    + destruct (ifc_guid fields); cbn; discriminate.
    + destruct (ifc_guid fields) eqn:G; cbn; [discriminate |]. intros [= <-].
      apply orb_false_iff in E as [E1 E2]. apply negb_false_iff in E1, E2.
      apply Nat.eqb_eq in E2. repeat split; (assumption || discriminate).
  - destruct (ifc_guid fields) eqn:G; cbn; [discriminate |]. intros [= <-].
    repeat split; discriminate.
Qed.

Lemma new_token_returns (uni : Unicode) (pyd : Pydantic) (id : string)
    (fields : IFCComponentToken)
    (contract_address : option string) (standard : TokenStandard) (chain_id : Z)
    (status : TokenizationStatus) :
  ifc_guid fields <> "" -> well_formed_address contract_address ->
  exists t, new_token uni pyd id fields contract_address standard chain_id status = Ok t.
Proof.
  unfold new_token, validate_ethereum_address, validate_ifc_guid, well_formed_address.
  intros Hg Ha. destruct contract_address as [a |].
  - destruct Ha as [H1 H2]. rewrite H1. apply Nat.eqb_eq in H2. rewrite H2. cbn.
    destruct (ifc_guid fields); [congruence | eauto].
  - destruct (ifc_guid fields); [congruence | cbn; eauto].
Qed.

Lemma new_token_empty_guid (uni : Unicode) (pyd : Pydantic) (id : string)
    (fields : IFCComponentToken)
    (contract_address : option string) (standard : TokenStandard) (chain_id : Z)
    (status : TokenizationStatus) :
  ifc_guid fields = "" -> well_formed_address contract_address ->
  new_token uni pyd id fields contract_address standard chain_id status
  = Raise (validation_error pyd [("ifc_guid", "IFC GUID cannot be empty")]).
Proof.
  unfold new_token, validate_ethereum_address, validate_ifc_guid, well_formed_address.
  intros Hg Ha. rewrite Hg. destruct contract_address as [a |].
  - destruct Ha as [H1 H2]. rewrite H1. apply Nat.eqb_eq in H2. rewrite H2. reflexivity.
  - reflexivity.
Qed.

Lemma new_token_malformed_address (uni : Unicode) (pyd : Pydantic) (id : string)
    (fields : IFCComponentToken)
    (address : string) (standard : TokenStandard) (chain_id : Z)
    (status : TokenizationStatus) :
  ~ well_formed_address (Some address) ->
  new_token uni pyd id fields (Some address) standard chain_id status
  = Raise (validation_error pyd
             (validate_ifc_guid (ifc_guid fields)
              ++ [("contract_address", "Invalid Ethereum address format: " +:+ address)])).
Proof.
  unfold new_token, validate_ethereum_address, well_formed_address. intros Ha.
  destruct (negb (startswith "0x" address) || negb (char_length address =? 42)%nat) eqn:E.
  - destruct (validate_ifc_guid (ifc_guid fields)) as [| g gs] eqn:G; reflexivity.
  - exfalso. apply Ha. apply orb_false_iff in E as [E1 E2].
    apply negb_false_iff in E1, E2. apply Nat.eqb_eq in E2. split; assumption.
Qed.

Lemma tokens_loop_ok (uni : Unicode) (pyd : Pydantic) (uuid4 : nat -> string)
    (vertices : list KuzuVertex)
    (fid bname : string) (contract_address : option string) (chain_id : Z)
    (drawn : nat) (tokens tokens' : list ComponentToken) :
  tokens_loop uni pyd uuid4 vertices fid bname contract_address chain_id drawn tokens
  = Ok tokens' ->
  exists new,
    tokens' = tokens ++ new
    /\ Forall2 (created_from uni fid bname contract_address chain_id) vertices new
    /\ tk_id <$> new = uuid4 <$> seq drawn (length vertices).
Proof.
  revert drawn tokens.
  induction vertices as [| vertex rest IH]; intros drawn tokens; cbn [tokens_loop].
  - intros [= <-]. exists []. rewrite app_nil_r. repeat split. constructor.
  - destruct (kv_id vertex) as [id |] eqn:Eid; [| discriminate].
    destruct (new_token _ _ _ _ _ _ _ _) as [token | msg] eqn:En; cbn [bind];
      [| discriminate].
    intros H. destruct (IH _ _ H) as (new & -> & Hall & Hids).
    destruct (new_token_ok _ _ _ _ _ _ _ _ _ En) as (Hg & _ & ->).
    eexists (_ :: new). split; [rewrite <- app_assoc; reflexivity |].
    split; [| cbn [fmap list_fmap length seq]; f_equal; exact Hids].
    constructor; [| exact Hall].
    unfold created_from, set_token_uri, generate_token_uri.
    cbn [tk_fields tk_status tk_token_standard tk_chain_id tk_token_id tk_contract_address
         topologic_vertex_id kuzu_element_id ifc_guid ifc_type ifc_name file_id
         building_name token_uri] in *.
    repeat split; try reflexivity; assumption.
Qed.

Lemma all_pending_counts (uni : Unicode) (fid bname : string)
    (contract_address : option string)
    (chain_id : Z) (vertices : list KuzuVertex) (tokens : list ComponentToken) :
  Forall2 (created_from uni fid bname contract_address chain_id) vertices tokens ->
  length tokens = length vertices
  /\ count_status PENDING tokens = Z.of_nat (length vertices)
  /\ count_status MINTED tokens = 0%Z.
Proof.
  induction 1 as [| v t vs ts Hc _ IH]; [repeat split |].
  destruct IH as (Hl & Hp & Hm).
  destruct Hc as (_ & _ & _ & _ & _ & _ & _ & _ & _ & Hs & _).
  cbn [count_status length]. rewrite Hs, Hp, Hm, Hl. cbn [status_eqb].
  repeat split; lia.
Qed.

(** X24. What create_tokenization_mapping returns: one token per element
    of the store, in the store's order, each PENDING, ERC-998, on the given
    chain, with the element's id as both kuzu_element_id and
    topologic_vertex_id, a non-empty GUID, the lower-cased contract
    address ([address.lower()]; for an ASCII address, the address with its
    letters A to Z in lower case), and the kuzu:// URI of its identifiers;
    the collection's counters are refreshed (total = pending = number of
    elements, minted = 0); the identifiers are drawn in order, the
    collection's first; and the collection itself keeps the contract
    address as given, unchecked. *)
Theorem created_collection_has_one_pending_token_per_element (uni : Unicode)
    (pyd : Pydantic)
    (uuid4 : nat -> string) (catalog : Catalog) (store : Store) (drawn : nat)
    (fid bname : string) (contract_address : option string) (chain_id : Z)
    (c : BuildingTokenCollection) :
  create_tokenization_mapping uni pyd uuid4 catalog store drawn fid bname contract_address
    chain_id = Ok c ->
  exists vertices,
    get_vertices_by_file store fid = Ok vertices
    /\ Forall2 (created_from uni fid bname contract_address chain_id)
               vertices (bc_component_tokens c)
    /\ bc_id c = uuid4 drawn
    /\ tk_id <$> bc_component_tokens c = uuid4 <$> seq (S drawn) (length vertices)
    /\ bc_total_components c = Z.of_nat (length vertices)
    /\ bc_pending_count c = Z.of_nat (length vertices)
    /\ bc_minted_count c = 0%Z
    /\ bc_file_id c = fid
    /\ bc_contract_address c = contract_address
    /\ (forall address, contract_address = Some address -> is_ascii address = true ->
          Forall (fun t => tk_contract_address t = Some (lower address))
                 (bc_component_tokens c)).
Proof.
  unfold create_tokenization_mapping.
  destruct (get_all_files catalog) as [files | msg]; cbn [bind]; [| discriminate].
  destruct (List.find _ files) as [file_data |]; [| discriminate].
  destruct (get_vertices_by_file store fid) as [vertices | msg]; cbn [bind];
    [| discriminate].
  destruct (tokens_loop _ _ _ _ _ _ _ _ _ _) as [tokens | msg] eqn:El; cbn [bind];
    [| discriminate].
  intros [= <-]. exists vertices.
  destruct (tokens_loop_ok _ _ _ _ _ _ _ _ _ _ _ El) as (new & -> & Hall & Hids).
  destruct (all_pending_counts _ _ _ _ _ _ _ Hall) as (Hl & Hp & Hm).
  unfold collection_update_statistics, with_tokens_and_counts.
  cbn [bc_component_tokens bc_id bc_total_components bc_pending_count bc_minted_count
       bc_file_id bc_contract_address app].
  rewrite Hl. repeat (split; [assumption || reflexivity |]).
  intros address -> Hascii. clear Hids Hl Hp Hm El.
  induction Hall as [| v t vs ts Hc _ IH]; constructor; [| exact IH].
  destruct Hc as (_ & _ & _ & _ & _ & _ & _ & _ & _ & _ & _ & _ & _ & Ha).
  rewrite Ha. cbn. rewrite (py_lower_ascii uni address Hascii). reflexivity.
Qed.

(** The theorem at a catalog with the file and a store with one wall. *)
Lemma created_collection_has_one_pending_token_per_element_witness :
  exists c vertices,
    create_tokenization_mapping plain_unicode plain_pydantic counted_uuid4
      (catalog_of [file_entry "file-123" "hq.ifc"])
      (store_of [wall_row "vertex-1" "guid-1"] []) 0 "file-123" "HQ"
      (Some "0x52908400098527886E0F7030069857D2E4169EE7") 31337 = Ok c
    /\ get_vertices_by_file (store_of [wall_row "vertex-1" "guid-1"] []) "file-123"
       = Ok vertices
    /\ Forall2 (created_from plain_unicode "file-123" "HQ"
                  (Some "0x52908400098527886E0F7030069857D2E4169EE7") 31337)
               vertices (bc_component_tokens c)
    /\ bc_id c = counted_uuid4 0
    /\ tk_id <$> bc_component_tokens c = counted_uuid4 <$> seq 1 (length vertices)
    /\ bc_total_components c = Z.of_nat (length vertices)
    /\ bc_pending_count c = Z.of_nat (length vertices)
    /\ bc_minted_count c = 0%Z
    /\ bc_file_id c = "file-123"
    /\ bc_contract_address c = Some "0x52908400098527886E0F7030069857D2E4169EE7"
    /\ Forall (fun t => tk_contract_address t
                        = Some "0x52908400098527886e0f7030069857d2e4169ee7")
              (bc_component_tokens c).
Proof.
  destruct (create_tokenization_mapping plain_unicode plain_pydantic counted_uuid4
              (catalog_of [file_entry "file-123" "hq.ifc"])
              (store_of [wall_row "vertex-1" "guid-1"] []) 0 "file-123" "HQ"
              (Some "0x52908400098527886E0F7030069857D2E4169EE7") 31337)
    as [c | msg] eqn:E.
  - destruct (created_collection_has_one_pending_token_per_element _ _ _ _ _ _ _ _ _ _ _ E)
      as (vertices & H1 & H2 & H3 & H4 & H5 & H6 & H7 & H8 & H9 & H10).
    exists c, vertices. split; [reflexivity |].
    repeat (split; [assumption |]).
    exact (H10 _ eq_refl eq_refl).
  - exfalso. vm_compute in E. discriminate.
Defined.

Lemma tokens_loop_empty_guid (uni : Unicode) (pyd : Pydantic) (uuid4 : nat -> string)
    (vertices : list KuzuVertex) (fid bname : string) (contract_address : option string)
    (chain_id : Z) (drawn : nat) (tokens : list ComponentToken) :
  well_formed_address contract_address ->
  Forall (fun v => kv_id v <> None) vertices ->
  Exists (fun v => get_or (kv_ifc_guid v) "" = "") vertices ->
  tokens_loop uni pyd uuid4 vertices fid bname contract_address chain_id drawn tokens
  = Raise (validation_error pyd [("ifc_guid", "IFC GUID cannot be empty")]).
Proof.
  intros Ha Hids. revert drawn tokens.
  induction Hids as [| vertex rest Hid _ IH]; intros drawn tokens Hex; [inversion Hex |].
  cbn [tokens_loop]. destruct (kv_id vertex) as [id |]; [| congruence].
  destruct (String.eqb (get_or (kv_ifc_guid vertex) "") "") eqn:Eg.
  - apply String.eqb_eq in Eg.
    rewrite new_token_empty_guid by (exact Eg || exact Ha). reflexivity.
  - apply String.eqb_neq in Eg.
    edestruct (new_token_returns uni pyd) as (t & ->); [| exact Ha |]; [exact Eg |].
    cbn [bind]. apply IH. inversion Hex; subst; [congruence | assumption].
Qed.

Lemma find_known_file (files : list FileData) (fid : string) :
  (exists f, f ∈ files /\ fd_id f = fid) ->
  exists file_data, List.find (fun f => String.eqb (fd_id f) fid) files = Some file_data.
Proof.
  intros (f & Hin & Hf). induction files as [| g rest IH]; [inversion Hin |].
  cbn [List.find]. destruct (String.eqb (fd_id g) fid) eqn:E; [eauto |].
  apply elem_of_cons in Hin as [-> | Hin]; [| exact (IH Hin)].
  apply String.eqb_neq in E. congruence.
Qed.

(** X25. One element without GUID blocks the tokenization of the whole
    file: when the file is in the catalog, the contract address is absent
    or is one the validator accepts ("0x" and 42 characters in all) and
    every element has an id, an element whose GUID is empty makes
    create_tokenization_mapping raise the validation error "IFC GUID
    cannot be empty" for the field ifc_guid, and that error alone; no
    collection is returned, although the same element is exported for
    minting. *)
Theorem element_without_guid_blocks_tokenization (uni : Unicode) (pyd : Pydantic)
    (uuid4 : nat -> string)
    (catalog : Catalog) (store : Store) (drawn : nat) (fid bname : string)
    (contract_address : option string) (chain_id : Z)
    (files : list FileData) (vertices : list KuzuVertex) :
  get_all_files catalog = Ok files ->
  (exists f, f ∈ files /\ fd_id f = fid) ->
  get_vertices_by_file store fid = Ok vertices ->
  Forall (fun v => kv_id v <> None) vertices ->
  well_formed_address contract_address ->
  Exists (fun v => get_or (kv_ifc_guid v) "" = "") vertices ->
  create_tokenization_mapping uni pyd uuid4 catalog store drawn fid bname contract_address
    chain_id
  = Raise (validation_error pyd [("ifc_guid", "IFC GUID cannot be empty")]).
Proof.
  intros Hfiles Hf Hget Hids Ha Hex. unfold create_tokenization_mapping.
  rewrite Hfiles. cbn [bind]. destruct (find_known_file _ _ Hf) as (file_data & ->).
  rewrite Hget. cbn [bind].
  rewrite (tokens_loop_empty_guid _ _ _ _ _ _ _ _ _ _ Ha Hids Hex). reflexivity.
Qed.

(** The theorem at a store with a sound wall and one without GUID, and an
    address of 42 characters that takes 82 bytes. *)
Lemma element_without_guid_blocks_tokenization_witness :
  create_tokenization_mapping plain_unicode plain_pydantic counted_uuid4
    (catalog_of [file_entry "file-123" "hq.ifc"])
    (store_of [wall_row "vertex-1" "guid-1"; wall_row "vertex-2" ""] [])
    0 "file-123" "HQ" (Some ("0x" +:+ copies 40 e_acute)) 31337
  = Raise (validation_error plain_pydantic [("ifc_guid", "IFC GUID cannot be empty")]).
Proof.
  apply (element_without_guid_blocks_tokenization plain_unicode plain_pydantic counted_uuid4
           (catalog_of [file_entry "file-123" "hq.ifc"])
           (store_of [wall_row "vertex-1" "guid-1"; wall_row "vertex-2" ""] [])
           0 "file-123" "HQ" (Some ("0x" +:+ copies 40 e_acute)) 31337
           [file_entry "file-123" "hq.ifc"]
           (map (vertex_of_row "file-123")
                [wall_row "vertex-1" "guid-1"; wall_row "vertex-2" ""])).
  - reflexivity.
  - exists (file_entry "file-123" "hq.ifc"). split; [apply list_elem_of_here | reflexivity].
  - reflexivity.
  - repeat constructor; discriminate.
  - split; vm_compute; reflexivity.
  - apply Exists_cons_tl. apply Exists_cons_hd. reflexivity.
Defined.

(** X26. The contract address is checked on the tokens only. With an
    address the validator refuses (one that does not start with "0x" or
    does not have 42 characters) and a file that is in the catalog,
    create_tokenization_mapping returns, for a file without elements, an
    empty collection that carries the refused address unchanged; and when
    the file has elements it raises at the first of them, with the
    validation error that names the field contract_address ("Invalid
    Ethereum address format: <address>"), after the error for ifc_guid
    when the GUID of that element is empty as well. *)
Theorem malformed_address_is_checked_per_token (uni : Unicode) (pyd : Pydantic)
    (uuid4 : nat -> string)
    (catalog : Catalog) (store : Store) (drawn : nat) (fid bname address : string)
    (chain_id : Z) (files : list FileData) (vertices : list KuzuVertex) :
  get_all_files catalog = Ok files ->
  (exists f, f ∈ files /\ fd_id f = fid) ->
  get_vertices_by_file store fid = Ok vertices ->
  ~ well_formed_address (Some address) ->
  match vertices with
  | [] =>
      exists c,
        create_tokenization_mapping uni pyd uuid4 catalog store drawn fid bname
          (Some address) chain_id = Ok c
        /\ bc_component_tokens c = []
        /\ bc_total_components c = 0%Z
        /\ bc_contract_address c = Some address
  | v :: _ =>
      kv_id v <> None ->
      create_tokenization_mapping uni pyd uuid4 catalog store drawn fid bname
        (Some address) chain_id
      = Raise (validation_error pyd
                 (validate_ifc_guid (get_or (kv_ifc_guid v) "")
                  ++ [("contract_address",
                       "Invalid Ethereum address format: " +:+ address)]))
  end.
Proof.
  intros Hfiles Hf Hget Ha. unfold create_tokenization_mapping.
  rewrite Hfiles. cbn [bind]. destruct (find_known_file _ _ Hf) as (file_data & ->).
  rewrite Hget. cbn [bind]. destruct vertices as [| v rest].
  - cbn [tokens_loop bind]. eexists. split; [reflexivity |]. repeat split.
  - intros Hid. cbn [tokens_loop]. destruct (kv_id v) as [id |]; [| congruence].
    rewrite (new_token_malformed_address uni pyd _ _ address ERC998 chain_id PENDING Ha).
    reflexivity.
Qed.

(** The theorem at an address of 22 characters that takes 42 bytes: at a
    store without elements, and at a store with one wall. *)
Lemma malformed_address_is_checked_per_token_witness :
  (exists c,
     create_tokenization_mapping plain_unicode plain_pydantic counted_uuid4
       (catalog_of [file_entry "file-123" "hq.ifc"])
       (store_of [] []) 0 "file-123" "HQ" (Some ("0x" +:+ copies 20 e_acute)) 31337 = Ok c
     /\ bc_component_tokens c = []
     /\ bc_total_components c = 0%Z
     /\ bc_contract_address c = Some ("0x" +:+ copies 20 e_acute))
  /\ create_tokenization_mapping plain_unicode plain_pydantic counted_uuid4
       (catalog_of [file_entry "file-123" "hq.ifc"])
       (store_of [wall_row "vertex-1" "guid-1"] []) 0 "file-123" "HQ"
       (Some ("0x" +:+ copies 20 e_acute)) 31337
     = Raise (validation_error plain_pydantic
                [("contract_address",
                  "Invalid Ethereum address format: " +:+ "0x" +:+ copies 20 e_acute)]).
Proof.
  split.
  - apply (malformed_address_is_checked_per_token plain_unicode plain_pydantic counted_uuid4
             (catalog_of [file_entry "file-123" "hq.ifc"])
             (store_of [] []) 0 "file-123" "HQ" ("0x" +:+ copies 20 e_acute) 31337
             [file_entry "file-123" "hq.ifc"] []).
    + reflexivity.
    + exists (file_entry "file-123" "hq.ifc"). split; [apply list_elem_of_here | reflexivity].
    + reflexivity.
    + intros [_ H]. vm_compute in H. discriminate H.
  - apply (malformed_address_is_checked_per_token plain_unicode plain_pydantic counted_uuid4
             (catalog_of [file_entry "file-123" "hq.ifc"])
             (store_of [wall_row "vertex-1" "guid-1"] []) 0 "file-123" "HQ"
             ("0x" +:+ copies 20 e_acute) 31337
             [file_entry "file-123" "hq.ifc"]
             (map (vertex_of_row "file-123") [wall_row "vertex-1" "guid-1"])).
    + reflexivity.
    + exists (file_entry "file-123" "hq.ifc"). split; [apply list_elem_of_here | reflexivity].
    + reflexivity.
    + intros [_ H]. vm_compute in H. discriminate H.
    + discriminate.
Defined.

(** X27. A file that the catalog does not list cannot be tokenized, even
    when the store holds elements for it: create_tokenization_mapping
    raises "File <file_id> not found in database" without asking the store
    for the elements. *)
Theorem unknown_file_is_not_tokenized (uni : Unicode) (pyd : Pydantic)
    (uuid4 : nat -> string)
    (catalog : Catalog) (store : Store) (drawn : nat) (fid bname : string)
    (contract_address : option string) (chain_id : Z) (files : list FileData) :
  get_all_files catalog = Ok files ->
  Forall (fun f => fd_id f <> fid) files ->
  create_tokenization_mapping uni pyd uuid4 catalog store drawn fid bname contract_address
    chain_id
  = Raise ("File " +:+ fid +:+ " not found in database").
Proof.
  intros Hfiles Hall. unfold create_tokenization_mapping. rewrite Hfiles. cbn [bind].
  assert (Hnone : List.find (fun f => String.eqb (fd_id f) fid) files = None).
  { clear Hfiles. induction Hall as [| f rest Hf _ IH]; [reflexivity |]. cbn [List.find].
    apply String.eqb_neq in Hf. rewrite Hf. exact IH. }
  rewrite Hnone. reflexivity.
Qed.

(** The theorem at an empty catalog and a store with one wall. *)
Lemma unknown_file_is_not_tokenized_witness :
  create_tokenization_mapping plain_unicode plain_pydantic counted_uuid4 (catalog_of [])
    (store_of [wall_row "vertex-1" "guid-1"] []) 0 "file-123" "HQ" None 31337
  = Raise "File file-123 not found in database".
Proof.
  apply (unknown_file_is_not_tokenized plain_unicode plain_pydantic counted_uuid4
           (catalog_of [])
           (store_of [wall_row "vertex-1" "guid-1"] []) 0 "file-123" "HQ" None 31337 []).
  - reflexivity.
  - constructor.
Defined.
(* ===================================================================== *)
(** * Token URIs *)
(* ===================================================================== *)

Lemma kuzu_uri_parses (urllib : Urllib) (K T G : string) :
  K <> "" -> T <> "" -> G <> "" ->
  has_char "/" K = false -> has_char "/" T = false -> has_char "010" G = false ->
  parse_token_uri urllib ("kuzu://" +:+ K +:+ "/topologic/" +:+ T +:+ "/ifc/" +:+ G)
  = Ok (parsed_uri K T G).
Proof.
  intros Hk Ht Hg Sk St Sg.
  apply has_char_all_chars in Sk, St, Sg.
  unfold parse_token_uri. cbv beta iota zeta.
  unfold startswith. rewrite prefix_append.
  assert (H3 : re_match [GroupPlus not_newline] G = Some [G]).
  { cbn [re_match]. rewrite <- (append_empty_r G) at 1.
    rewrite (match_plus_exact not_newline _ G "" "" []); try reflexivity; assumption. }
  assert (H1 : re_match [GroupPlus not_slash; Literal "/ifc/"; GroupPlus not_newline]
                 (T +:+ "/ifc/" +:+ G) = Some [T; G]).
  { cbn [re_match].
    rewrite (match_plus_exact not_slash _ T ("/ifc/" +:+ G) "" [G]);
      try reflexivity; try assumption. }
  assert (H0 : re_match [GroupPlus not_slash; Literal "/topologic/"; GroupPlus not_slash;
                         Literal "/ifc/"; GroupPlus not_newline]
                 (K +:+ "/topologic/" +:+ T +:+ "/ifc/" +:+ G) = Some [K; T; G]).
  { cbn [re_match].
    rewrite (match_plus_exact not_slash _ K ("/topologic/" +:+ T +:+ "/ifc/" +:+ G) "" [T; G]);
      try reflexivity; try assumption. }
  unfold kuzu_pattern.
  change (re_match (Literal "kuzu://" :: ?p) ?s)
    with (match strip_prefix "kuzu://" s with Some s' => re_match p s' | None => None end).
  rewrite strip_prefix_append, H0. reflexivity.
Qed.

(** X28. The URIs of created tokens lead back to the elements: for every
    token of a collection that create_tokenization_mapping returned, whose
    element id is non-empty and has no "/", and whose GUID has no line
    feed, token_uri is set and parse_token_uri recovers from it the
    element id (as both kuzu_id and topologic_id) and the GUID. *)
Theorem created_token_uri_parses_back (uni : Unicode) (pyd : Pydantic)
    (uuid4 : nat -> string)
    (urllib : Urllib) (catalog : Catalog) (store : Store) (drawn : nat)
    (fid bname : string) (contract_address : option string) (chain_id : Z)
    (c : BuildingTokenCollection) (t : ComponentToken) :
  create_tokenization_mapping uni pyd uuid4 catalog store drawn fid bname contract_address
    chain_id = Ok c ->
  t ∈ bc_component_tokens c ->
  kuzu_element_id (tk_fields t) <> "" ->
  has_char "/" (kuzu_element_id (tk_fields t)) = false ->
  has_char "010" (ifc_guid (tk_fields t)) = false ->
  exists uri,
    token_uri (tk_fields t) = Some uri
    /\ parse_token_uri urllib uri
       = Ok (parsed_uri (kuzu_element_id (tk_fields t)) (kuzu_element_id (tk_fields t))
               (ifc_guid (tk_fields t))).
Proof.
  unfold create_tokenization_mapping.
  destruct (get_all_files catalog) as [files | msg]; cbn [bind]; [| discriminate].
  destruct (List.find _ files) as [file_data |]; [| discriminate].
  destruct (get_vertices_by_file store fid) as [vertices | msg]; cbn [bind];
    [| discriminate].
  destruct (tokens_loop _ _ _ _ _ _ _ _ _ _) as [tokens | msg] eqn:El; cbn [bind];
    [| discriminate].
  intros [= <-]. unfold collection_update_statistics, with_tokens_and_counts.
  cbn [bc_component_tokens].
  destruct (tokens_loop_ok _ _ _ _ _ _ _ _ _ _ _ El) as (new & -> & Hall & _).
  cbn [app]. intros Hin Hk Sk Sg.
  apply list_elem_of_lookup in Hin as (i & Hi).
  destruct (Forall2_lookup_r _ _ _ _ _ Hall Hi) as (v & _ & Hc).
  destruct Hc as (_ & _ & _ & Hg & _ & _ & _ & _ & Huri & _).
  eexists. split; [exact Huri |].
  apply kuzu_uri_parses; assumption.
Qed.

(** The theorem at the token created for a stored wall. *)
Lemma created_token_uri_parses_back_witness :
  exists c t uri,
    create_tokenization_mapping plain_unicode plain_pydantic counted_uuid4
      (catalog_of [file_entry "file-123" "hq.ifc"])
      (store_of [wall_row "vertex-1" "guid-1"] []) 0 "file-123" "HQ" None 31337 = Ok c
    /\ t ∈ bc_component_tokens c
    /\ token_uri (tk_fields t) = Some uri
    /\ parse_token_uri no_urllib uri
       = Ok (parsed_uri (kuzu_element_id (tk_fields t)) (kuzu_element_id (tk_fields t))
               (ifc_guid (tk_fields t))).
Proof.
  destruct (create_tokenization_mapping plain_unicode plain_pydantic counted_uuid4
              (catalog_of [file_entry "file-123" "hq.ifc"])
              (store_of [wall_row "vertex-1" "guid-1"] []) 0 "file-123" "HQ" None 31337)
    as [c | msg] eqn:E; [| exfalso; vm_compute in E; discriminate].
  assert (Ht : exists t, bc_component_tokens c = [t]
                         /\ kuzu_element_id (tk_fields t) = "vertex-1"
                         /\ ifc_guid (tk_fields t) = "guid-1").
  { vm_compute in E. injection E as <-. eexists. repeat split. }
  destruct Ht as (t & Hts & Hk & Hg).
  assert (Hin : t ∈ bc_component_tokens c) by (rewrite Hts; apply list_elem_of_here).
  destruct (created_token_uri_parses_back plain_unicode plain_pydantic counted_uuid4
              no_urllib _ _ _ _ _ _ _ c t E Hin) as (uri & Hu & Hp).
  - rewrite Hk. discriminate.
  - rewrite Hk. reflexivity.
  - rewrite Hg. reflexivity.
  - exists c, t, uri. repeat split; assumption.
Defined.

Lemma strip_prefix_inv (p s s' : string) : strip_prefix p s = Some s' -> s = p +:+ s'.
Proof.
  revert s. induction p as [| a p IH]; intros s; cbn [strip_prefix].
  - intros [= ->]. reflexivity.
  - destruct s as [| b s]; [discriminate |].
    destruct (Ascii.eqb a b) eqn:E; [| discriminate].
    apply Ascii.eqb_eq in E as ->. intros H. rewrite append_cons, <- (IH _ H). reflexivity.
Qed.

Lemma append_snoc (taken : string) (c : ascii) (a : string) :
  (taken +:+ String c "") +:+ a = taken +:+ String c a.
Proof. rewrite append_assoc, append_cons, append_nil. reflexivity. Qed.

Lemma match_plus_inv (cls : ascii -> bool) (k : string -> option (list string))
    (taken s : string) (groups : list string) :
  match_plus cls k taken s = Some groups ->
  exists a rest gs,
    a <> "" /\ all_chars cls a = true /\ s = a +:+ rest
    /\ k rest = Some gs /\ groups = (taken +:+ a) :: gs.
Proof.
  revert taken groups.
  induction s as [| c s IH]; intros taken groups; cbn [match_plus]; [discriminate |].
  destruct (cls c) eqn:Hc; [| discriminate].
  destruct (match_plus cls k (taken +:+ String c "") s) as [g |] eqn:E.
  - intros [= <-]. destruct (IH _ _ E) as (a & rest & gs & Ha & Hall & -> & Hk & ->).
    exists (String c a), rest, gs. split; [discriminate |].
    split; [cbn [all_chars]; rewrite Hc; exact Hall |].
    split; [rewrite append_cons; reflexivity |]. split; [exact Hk |].
    rewrite append_snoc. reflexivity.
  - destruct (k s) as [gs |] eqn:Hk; [| discriminate]. intros [= <-].
    exists (String c ""), s, gs. split; [discriminate |].
    split; [cbn [all_chars]; rewrite Hc; reflexivity |].
    split; [reflexivity |]. split; [exact Hk | reflexivity].
Qed.

Lemma match_plus_last_inv (cls : ascii -> bool) (k : string -> option (list string))
    (taken s : string) (groups : list string) :
  (forall r, k r = Some []) ->
  match_plus cls k taken s = Some groups ->
  exists a rest,
    a <> "" /\ all_chars cls a = true /\ s = a +:+ rest
    /\ stops cls rest = true /\ groups = [taken +:+ a].
Proof.
  intros Hk. revert taken groups.
  induction s as [| c s IH]; intros taken groups; cbn [match_plus]; [discriminate |].
  destruct (cls c) eqn:Hc; [| discriminate].
  destruct (match_plus cls k (taken +:+ String c "") s) as [g |] eqn:E.
  - intros [= <-]. destruct (IH _ _ E) as (a & rest & Ha & Hall & -> & Hs & ->).
    exists (String c a), rest. split; [discriminate |].
    split; [cbn [all_chars]; rewrite Hc; exact Hall |].
    split; [rewrite append_cons; reflexivity |]. split; [exact Hs |].
    rewrite append_snoc. reflexivity.
  - rewrite Hk. intros [= <-]. exists (String c ""), s. split; [discriminate |].
    split; [cbn [all_chars]; rewrite Hc; reflexivity |].
    split; [reflexivity |]. split; [| reflexivity].
    destruct s as [| d s']; [reflexivity |]. cbn [match_plus stops] in *.
    destruct (cls d); [| reflexivity].
    destruct (match_plus cls k _ s'); [discriminate |]. rewrite Hk in E. discriminate.
Qed.

Lemma all_chars_has_char (c : ascii) (s : string) :
  all_chars (fun d => negb (Ascii.eqb d c)) s = true -> has_char c s = false.
Proof.
  induction s as [| d s IH]; cbn [all_chars has_char]; [reflexivity |].
  intros H. apply andb_prop in H as [Hd Hs]. apply negb_true_iff in Hd.
  rewrite Ascii.eqb_sym, Hd. exact (IH Hs).
Qed.

(** X29. Whatever parse_token_uri accepts in the kuzu:// form starts with
    the URI that generate_token_uri produces from the parsed identifiers:
    the subject is that URI followed by nothing or by a part that begins
    with a line feed (which the pattern's last group does not cross), the
    parsed kuzu and topologic identifiers are non-empty and have no "/",
    and the parsed GUID is non-empty and has no line feed. *)
Theorem parsed_kuzu_uri_is_the_generated_one (urllib : Urllib) (uri : string)
    (parsed : gmap string string) :
  startswith "kuzu://" uri = true ->
  parse_token_uri urllib uri = Ok parsed ->
  exists K T G rest,
    parsed = parsed_uri K T G
    /\ uri = generate_token_uri (token_with_ids K T G) None +:+ rest
    /\ stops not_newline rest = true
    /\ K <> "" /\ T <> "" /\ G <> ""
    /\ has_char "/" K = false /\ has_char "/" T = false /\ has_char "010" G = false.
Proof.
  intros Hs. unfold parse_token_uri. cbv beta zeta. rewrite Hs.
  destruct (re_match kuzu_pattern uri) as [[| g1 [| g2 [| g3 [| g4 gs]]]] |] eqn:E;
    try discriminate.
  intros [= <-]. unfold kuzu_pattern in E. cbn [re_match] in E.
  destruct (strip_prefix "kuzu://" uri) as [s1 |] eqn:E1; [| discriminate].
  apply strip_prefix_inv in E1 as ->.
  apply match_plus_inv in E as (K & r1 & gs1 & HK & AK & -> & Hk1 & Hg1).
  cbn [re_match] in Hk1.
  destruct (strip_prefix "/topologic/" r1) as [s2 |] eqn:E2; [| discriminate].
  apply strip_prefix_inv in E2 as ->.
  apply match_plus_inv in Hk1 as (T & r2 & gs2 & HT & AT & -> & Hk2 & ->).
  cbn [re_match] in Hk2.
  destruct (strip_prefix "/ifc/" r2) as [s3 |] eqn:E3; [| discriminate].
  apply strip_prefix_inv in E3 as ->.
  apply match_plus_last_inv in Hk2 as (G & rest & HG & AG & -> & Hstop & ->);
    [| reflexivity].
  rewrite !append_nil in Hg1. injection Hg1 as -> -> ->.
  exists K, T, G, rest. split; [reflexivity |].
  split.
  { unfold generate_token_uri, token_with_ids.
    cbn [kuzu_element_id topologic_vertex_id ifc_guid].
    rewrite !append_assoc. reflexivity. }
  split; [exact Hstop |]. repeat split; try assumption;
    apply all_chars_has_char; assumption.
Qed.

(** The theorem at the URI of the docstring example. *)
Lemma parsed_kuzu_uri_is_the_generated_one_witness :
  exists K T G rest,
    parsed_uri "elem123" "vertex456" "guid789" = parsed_uri K T G
    /\ "kuzu://elem123/topologic/vertex456/ifc/guid789"
       = generate_token_uri (token_with_ids K T G) None +:+ rest
    /\ stops not_newline rest = true
    /\ K <> "" /\ T <> "" /\ G <> ""
    /\ has_char "/" K = false /\ has_char "/" T = false /\ has_char "010" G = false.
Proof.
  apply (parsed_kuzu_uri_is_the_generated_one no_urllib
           "kuzu://elem123/topologic/vertex456/ifc/guid789"
           (parsed_uri "elem123" "vertex456" "guid789")).
  - reflexivity.
  - apply (kuzu_uri_parses no_urllib "elem123" "vertex456" "guid789");
      (discriminate || reflexivity).
Defined.

(* ===================================================================== *)
(** * Queries on an extracted graph *)
(* ===================================================================== *)

Lemma get_vertex_by_id_finds (g : TopologicGraph) (id : string) :
  id ∈ (v_id <$> g_vertices g) ->
  exists v, get_vertex_by_id g id = Some v /\ v ∈ g_vertices g /\ v_id v = id.
Proof.
  unfold get_vertex_by_id. intros H. apply list_elem_of_fmap in H as (w & -> & Hw).
  induction (g_vertices g) as [| v rest IH]; [inversion Hw |].
  cbn [List.find]. destruct (String.eqb (v_id v) (v_id w)) eqn:E.
  - apply String.eqb_eq in E. exists v. split; [reflexivity |].
    split; [apply list_elem_of_here | exact E].
  - apply elem_of_cons in Hw as [-> | Hw]; [rewrite String.eqb_refl in E; discriminate |].
    destruct (IH Hw) as (u & Hu & Hin & Hid). exists u. split; [exact Hu |].
    split; [apply list_elem_of_further; exact Hin | exact Hid].
Qed.

(** X30. The queries of TopologicGraph resolve every edge of an extracted
    graph: for each edge of a graph that _extract_graph_data returned,
    get_vertex_by_id finds a vertex for its start id and one for its end
    id, and get_edges_for_vertex lists the edge under both ids. *)
Theorem extracted_edges_resolve_through_the_queries (eng : Engine) (host : Host)
    (h : handle) (r : Run) (graph : TopologicGraph) (e : TopologicEdge) :
  fst (_extract_graph_data eng host h r) = Ok graph ->
  e ∈ g_edges graph ->
  (exists v, get_vertex_by_id graph (e_start_vertex_id e) = Some v
             /\ v ∈ g_vertices graph /\ v_id v = e_start_vertex_id e)
  /\ (exists v, get_vertex_by_id graph (e_end_vertex_id e) = Some v
                /\ v ∈ g_vertices graph /\ v_id v = e_end_vertex_id e)
  /\ e ∈ get_edges_for_vertex graph (e_start_vertex_id e)
  /\ e ∈ get_edges_for_vertex graph (e_end_vertex_id e).
Proof.
  intros H Hin. destruct (extract_graph_data_ok eng host h r) as (_ & _ & Hok).
  destruct (Hok graph H) as (_ & _ & _ & _ & Hclosed).
  unfold edges_closed in Hclosed. rewrite Forall_forall in Hclosed.
  destruct (Hclosed e Hin) as [Hs Ht].
  split; [exact (get_vertex_by_id_finds _ _ Hs) |].
  split; [exact (get_vertex_by_id_finds _ _ Ht) |].
  unfold get_edges_for_vertex.
  split; apply list_elem_of_filter; (split; [| exact Hin]);
    rewrite String.eqb_refl; [reflexivity | apply orb_true_r].
Qed.

(** The theorem at the engine whose graph has one wall and one edge from
    the wall to itself. *)
Lemma extracted_edges_resolve_through_the_queries_witness :
  exists graph e,
    fst (_extract_graph_data one_wall_engine plain_host 7
           (initial_run [] 0 "model.ifc" (config_with_types None))) = Ok graph
    /\ e ∈ g_edges graph
    /\ (exists v, get_vertex_by_id graph (e_start_vertex_id e) = Some v
                  /\ v ∈ g_vertices graph /\ v_id v = e_start_vertex_id e)
    /\ (exists v, get_vertex_by_id graph (e_end_vertex_id e) = Some v
                  /\ v ∈ g_vertices graph /\ v_id v = e_end_vertex_id e)
    /\ e ∈ get_edges_for_vertex graph (e_start_vertex_id e)
    /\ e ∈ get_edges_for_vertex graph (e_end_vertex_id e).
Proof.
  destruct (fst (_extract_graph_data one_wall_engine plain_host 7
                   (initial_run [] 0 "model.ifc" (config_with_types None))))
    as [graph | msg] eqn:E; [| vm_compute in E; discriminate].
  assert (He : exists e, g_edges graph = [e]).
  { vm_compute in E. injection E as <-. eexists. reflexivity. }
  destruct He as (e & He).
  assert (Hin : e ∈ g_edges graph) by (rewrite He; apply list_elem_of_here).
  exists graph, e. split; [reflexivity |]. split; [exact Hin |].
  exact (extracted_edges_resolve_through_the_queries _ _ _ _ _ _ E Hin).
Defined.
